(** * GWAS post-processing scripts: a model of [extract_top_snps.py] and of
      [generate_plots.py]

    The two scripts are glue code over pandas and numpy.  The model keeps
    their structure: a table is a header and a list of rows, p-values are
    IEEE binary64 numbers (with NaN standing for a missing value, as
    [read_csv] produces it), every statement of the scripts is one step in a
    small monad that threads the console and the files written so far and
    that can raise a Python exception.

    What the libraries compute by an algorithm of their own (sorting,
    [log10], percentiles, random draws) is taken through the interface
    [NumPy], which records what their documentation fixes and nothing
    more.

    Layout: the model ([F64], tables, the monad, [pd], [NumPy], [np], the
    scripts), the vocabulary of the statements, an executable instance of
    [NumPy] and concrete tables; then the facts: comparisons, the instance,
    the runs of the scripts statement by statement, the properties of the
    extractor and of the plot routines, and concrete runs.  The plot
    script in full (its figures, its orchestrator and its command line)
    comes second in each half: its model and vocabulary close the
    definitions, the facts about it and further properties of both scripts
    close the file. *)

From Stdlib Require Import List ZArith String Ascii Bool Lia Arith.
From Stdlib Require Import Permutation Sorted DecimalString.
From Stdlib Require Import Floats.SpecFloat.
Import ListNotations.

Local Open Scope list_scope.
Local Open Scope string_scope.

(** ** binary64 *)

Module F64.

Definition t := spec_float.

Definition prec : Z := 53.
Definition emax : Z := 1024.

Definition nan : t := S754_nan.
Definition zero : t := S754_zero false.
Definition pinf : t := S754_infinity false.
Definition ninf : t := S754_infinity true.

Definition isnan (x : t) : bool :=
  match x with S754_nan => true | _ => false end.

Definition isfinite (x : t) : bool :=
  match x with S754_zero _ | S754_finite _ _ _ => true | _ => false end.

Definition of_Z (z : Z) : t := binary_normalize prec emax z 0 false.
Definition of_nat (n : nat) : t := of_Z (Z.of_nat n).

Definition neg : t -> t := SFopp.
Definition abs : t -> t := SFabs.
Definition mul : t -> t -> t := SFmul prec emax.
Definition div : t -> t -> t := SFdiv prec emax.
Definition sqrt : t -> t := SFsqrt prec emax.

Definition ltb : t -> t -> bool := SFltb.
Definition leb : t -> t -> bool := SFleb.
Definition gtb (x y : t) : bool := SFltb y x.

(** The literal [m e-k] of the scripts ([5e-8] is [dec 5 8]): the
    binary64 nearest to [m / 10^k], which a correctly rounded division
    of two exact integers yields. *)
Definition dec (m : Z) (k : Z) : t := div (of_Z m) (of_Z (10 ^ k)).

(** The order pandas sorts by, missing values last. *)
Definition key_leb (x y : t) : bool :=
  isnan y || (negb (isnan x) && leb x y).

End F64.

Definition float : Type := F64.t.

(** ** Tables *)

(** A parsed field: a number (int64 and float64 columns, NaN for a missing
    entry) or a string (object columns). *)
Inductive cell : Type :=
| Num (x : float)
| Str (s : string).

Definition Row := list cell.

Record DataFrame : Type := mkDataFrame {
  columns : list string;
  rows : list Row
}.

Definition len (df : DataFrame) : nat := List.length (rows df).

(** ** Exceptions, console and files *)

Inductive exn : Type :=
| ReadError (msg : string)          (* whatever [read_csv] raises *)
| IndexError
| KeyError (missing : list string)
| TypeError
| SystemExit (code : Z).

Definition str_exn (e : exn) : string :=
  match e with
  | ReadError msg => msg
  | IndexError => "index 8 is out of bounds"
  | KeyError _ => "not in index"
  | TypeError => "unsupported operand"
  | SystemExit _ => ""
  end.

Definition str_nat (n : nat) : string :=
  NilEmpty.string_of_uint (Nat.to_uint n).

Record world : Type := mkWorld {
  stdout : list string;                  (* lines printed, oldest first *)
  files : list (string * DataFrame)      (* tables written, oldest first *)
}.

Definition M (A : Type) : Type := world -> (exn + A) * world.

Definition ret {A} (a : A) : M A := fun w => (inr a, w).

Definition raise {A} (e : exn) : M A := fun w => (inl e, w).

Definition bind {A B} (m : M A) (k : A -> M B) : M B :=
  fun w =>
    match m w with
    | (inl e, w') => (inl e, w')
    | (inr a, w') => k a w'
    end.

(** [SystemExit] is not an [Exception]; every other exception is. *)
Definition is_Exception (e : exn) : bool :=
  match e with
  | SystemExit _ => false
  | _ => true
  end.

(** [try: ... except Exception as e: ...] around one computation. *)
Definition try_except {A} (m : M A) (handler : exn -> M A) : M A :=
  fun w =>
    match m w with
    | (inl e, w') => if is_Exception e then handler e w' else (inl e, w')
    | (inr a, w') => (inr a, w')
    end.

Definition lift {A} (r : exn + A) : M A := fun w => (r, w).

Definition print (line : string) : M unit :=
  fun w => (inr tt, mkWorld (stdout w ++ [line])%list (files w)).

Declare Scope py_scope.
Delimit Scope py_scope with py.
Notation "x <- m ;; k" := (bind m (fun x => k))
  (at level 100, m at next level, right associativity) : py_scope.
Notation "m ;; k" := (bind m (fun _ => k))
  (at level 100, right associativity) : py_scope.
Local Open Scope py_scope.

(** ** pandas *)

Module pd.

(** [df.columns[i]] *)
Definition columns_getitem (df : DataFrame) (i : nat) : exn + string :=
  match nth_error (columns df) i with
  | Some c => inr c
  | None => inl IndexError
  end.

(** ['P' in df.columns] *)
Definition has_column (df : DataFrame) (name : string) : bool :=
  existsb (String.eqb name) (columns df).

Fixpoint get_loc (names : list string) (name : string) : option nat :=
  match names with
  | [] => None
  | c :: cs =>
      if String.eqb name c then Some 0
      else option_map S (get_loc cs name)
  end.

(** A row shorter than the header is padded with NaN by [read_csv]. *)
Definition field (j : nat) (r : Row) : cell := nth j r (Num F64.nan).

(** [df[name]]: the column as a series. *)
Definition getitem (df : DataFrame) (name : string) : exn + list cell :=
  match get_loc (columns df) name with
  | Some j => inr (map (field j) (rows df))
  | None => inl (KeyError [name])
  end.

(** [series.notna()] *)
Definition notna_cell (c : cell) : bool :=
  match c with
  | Num x => negb (F64.isnan x)
  | Str _ => true
  end.

Definition notna (s : list cell) : list bool := map notna_cell s.

(** [series < x] and [series > x] against a float; comparing a string
    with a float raises. *)
Definition lt_cell (x : float) (c : cell) : exn + bool :=
  match c with
  | Num v => inr (F64.ltb v x)
  | Str _ => inl TypeError
  end.

Definition gt_cell (x : float) (c : cell) : exn + bool :=
  match c with
  | Num v => inr (F64.gtb v x)
  | Str _ => inl TypeError
  end.

Fixpoint traverse {A B} (f : A -> exn + B) (l : list A) : exn + list B :=
  match l with
  | [] => inr []
  | a :: l' =>
      match f a with
      | inl e => inl e
      | inr b =>
          match traverse f l' with
          | inl e => inl e
          | inr bs => inr (b :: bs)
          end
      end
  end.

Definition lt (s : list cell) (x : float) : exn + list bool :=
  traverse (lt_cell x) s.

Definition gt (s : list cell) (x : float) : exn + list bool :=
  traverse (gt_cell x) s.

(** Selection by a boolean mask, for a frame and for an array. *)
Fixpoint select {A} (l : list A) (mask : list bool) : list A :=
  match l, mask with
  | a :: l', b :: mask' =>
      if b then a :: select l' mask' else select l' mask'
  | _, _ => []
  end.

Definition getitem_mask (df : DataFrame) (mask : list bool) : DataFrame :=
  mkDataFrame (columns df) (select (rows df) mask).

(** [df.head(n)] is [df.iloc[:n]]: a negative [n] counts from the end. *)
Definition head (df : DataFrame) (n : Z) : DataFrame :=
  let k := if (0 <=? n)%Z then Z.to_nat n
           else len df - Z.to_nat (- n) in
  mkDataFrame (columns df) (firstn k (rows df)).

(** [df.take(indexer)] *)
Definition take (df : DataFrame) (indexer : list nat) : DataFrame :=
  mkDataFrame (columns df) (map (fun i => nth i (rows df) []) indexer).

(** [df[[c1, ..., ck]]]: every name must be a column. *)
Definition getitem_list (df : DataFrame) (names : list string)
  : exn + DataFrame :=
  match filter (fun c => negb (has_column df c)) names with
  | [] =>
      let locs := map (fun c => match get_loc (columns df) c with
                                | Some j => j
                                | None => 0
                                end) names in
      inr (mkDataFrame names
             (map (fun r => map (fun j => field j r) locs) (rows df)))
  | missing => inl (KeyError missing)
  end.

(** [df.columns = names] *)
Definition set_columns (df : DataFrame) (names : list string) : DataFrame :=
  mkDataFrame names (rows df).

(** [df[name] = values] *)
Fixpoint set_nth (j : nat) (v : cell) (r : Row) : Row :=
  match j, r with
  | O, [] => [v]
  | O, _ :: r' => v :: r'
  | S j', [] => Num F64.nan :: set_nth j' v []
  | S j', c :: r' => c :: set_nth j' v r'
  end.

Definition setitem (df : DataFrame) (name : string) (values : list cell)
  : DataFrame :=
  let j := match get_loc (columns df) name with
           | Some j => j
           | None => List.length (columns df)
           end in
  mkDataFrame
    (if has_column df name then columns df
     else (columns df ++ [name])%list)
    (map (fun rv => set_nth j (snd rv) (fst rv)) (combine (rows df) values)).

(** [df.to_csv(path, sep='\t', index=False)]; the directory is taken to
    exist and to be writable. *)
Definition to_csv (df : DataFrame) (path : string) : M unit :=
  fun w => (inr tt, mkWorld (stdout w) (files w ++ [(path, df)])%list).

End pd.

(** ** numpy

    The numerical routines the scripts call.  Their algorithms are not part
    of the repository; the fields below are the functions and the laws are
    what the numpy and pandas manuals (and C99 for [log10]) state about
    them.  Neither script passes [kind=] to a sort, so the default,
    ['quicksort'], applies: the result is ordered, and the manual promises
    nothing about the order of equal keys. *)

Definition key_le (x y : float) : Prop := F64.key_leb x y = true.

Class NumPy : Type := {
  (** [np.log10] on one binary64 *)
  log10 : float -> float;
  log10_isnan : forall x,
    F64.isnan (log10 x) = F64.isnan x || F64.ltb x F64.zero;
  log10_zero : forall s, log10 (S754_zero s) = F64.ninf;

  (** the indexer [sort_values] computes for a key column *)
  argsort : list cell -> exn + list nat;
  argsort_numeric : forall xs,
    exists ix,
      argsort (map Num xs) = inr ix /\
      Permutation ix (seq 0 (List.length xs)) /\
      Sorted key_le (map (fun i => nth i xs F64.nan) ix);

  (** [np.sort] on a float array *)
  sort : list float -> list float;
  sort_perm : forall xs, Permutation (sort xs) xs;
  sort_sorted : forall xs, Sorted key_le (sort xs);

  (** [np.percentile(a, q)], linear interpolation between the two nearest
      order statistics *)
  percentile : list float -> Z -> exn + float;
  percentile_defined : forall xs q,
    xs <> [] -> exists v, percentile xs q = inr v;
  percentile_between : forall xs q v,
    percentile xs q = inr v ->
    forallb F64.isfinite xs = true ->
    exists a b, In a xs /\ In b xs /\
                F64.leb a v = true /\ F64.leb v b = true;

  (** [np.median] *)
  median : list float -> float;

  (** [np.random.randn(n)]: the draws of this run *)
  randn : nat -> list float;
  randn_length : forall n, List.length (randn n) = n
}.

Module np.

(** [np.arange(a, b)] *)
Definition arange (a b : Z) : list Z :=
  map (fun i => (a + Z.of_nat i)%Z) (seq 0 (Z.to_nat (b - a))).

(** [-np.log10(series)]; a string has no [log10]. *)
Definition neg_log10_cell `{NumPy} (c : cell) : exn + cell :=
  match c with
  | Num x => inr (Num (F64.neg (log10 x)))
  | Str _ => inl TypeError
  end.

Definition square (x : float) : float := F64.mul x x.

(** The float array behind a numeric series. *)
Definition floats (s : list cell) : list float :=
  map (fun c => match c with Num x => x | Str _ => F64.nan end) s.

End np.

(** ** The scripts *)

Inductive lambda : Type :=
| Estimated (v : float)     (* the quotient of line 101 *)
| Fallback.                 (* the [else 1.0] of line 101 *)

Definition lambda_value (l : lambda) : float :=
  match l with
  | Estimated v => v
  | Fallback => F64.of_Z 1
  end.

Record qq_data : Type := mkQQ {
  qq_pvals : list float;
  qq_observed : list float;
  qq_expected : list float;
  qq_chisq : float;
  qq_lambda : lambda
}.

Section Scripts.

Context `{NumPy}.

(** What [pd.read_csv(path, delim_whitespace=True)] yields for each path:
    the parsed table, or the exception it raises. *)
Variable read_table : string -> exn + DataFrame.

Definition read_csv (path : string) : M DataFrame := lift (read_table path).

(** [df.sort_values(by=name)] *)
Definition sort_values (df : DataFrame) (name : string) : M DataFrame :=
  k <- lift (pd.getitem df name) ;;
  indexer <- lift (argsort k) ;;
  ret (pd.take df indexer).

(** *** extract_top_snps.py *)

Definition gw_threshold : float := Eval vm_compute in F64.dec 5 8.
Definition suggestive_threshold : float := Eval vm_compute in F64.dec 1 5.

Definition summary_header : list string := ["CHR"; "SNP"; "BP"; "A1"; "P"].

Definition extract_top_snps (input_file output_prefix : string) (n_top : Z)
  : M (option (nat * nat)) :=
  print ("Reading association file: " ++ input_file) ;;
  r <- try_except
         (df <- read_csv input_file ;; ret (Some df))
         (fun e => print ("Error reading file: " ++ str_exn e) ;;
                   ret None) ;;
  match r with
  | None => ret None
  | Some df =>
      print ("Total SNPs in file: " ++ str_nat (len df)) ;;
      p_col <- (if pd.has_column df "P" then ret "P"
                else lift (pd.columns_getitem df 8)) ;;
      p <- lift (pd.getitem df p_col) ;;
      let df_clean := pd.getitem_mask df (pd.notna p) in
      print ("SNPs with valid p-values: " ++ str_nat (len df_clean)) ;;
      df_sorted <- sort_values df_clean p_col ;;
      let top_1000 := pd.head df_sorted n_top in
      let out_1000 := output_prefix ++ "/top_1000_snps.txt" in
      pd.to_csv top_1000 out_1000 ;;
      print ("Top 1000 SNPs saved to: " ++ out_1000) ;;
      let top_100 := pd.head df_sorted 100 in
      let out_100 := output_prefix ++ "/top_100_snps.txt" in
      pd.to_csv top_100 out_100 ;;
      print ("Top 100 SNPs saved to: " ++ out_100) ;;
      p_clean <- lift (pd.getitem df_clean p_col) ;;
      gw_mask <- lift (pd.lt p_clean gw_threshold) ;;
      let gw_sig := pd.getitem_mask df_clean gw_mask in
      let out_gw :=
        output_prefix ++ "/genome_wide_significant_snps_5e-8.txt" in
      pd.to_csv gw_sig out_gw ;;
      print ("Genome-wide significant SNPs (p<5e-8): "
             ++ str_nat (len gw_sig)) ;;
      print ("Saved to: " ++ out_gw) ;;
      p_clean' <- lift (pd.getitem df_clean p_col) ;;
      sugg_mask <- lift (pd.lt p_clean' suggestive_threshold) ;;
      let suggestive := pd.getitem_mask df_clean sugg_mask in
      let out_sugg := output_prefix ++ "/suggestive_snps_1e-5.txt" in
      pd.to_csv suggestive out_sugg ;;
      print ("Suggestive SNPs (p<1e-5): " ++ str_nat (len suggestive)) ;;
      print ("Saved to: " ++ out_sugg) ;;
      let out_summary := output_prefix ++ "/summary_statistics.txt" in
      summary <- lift (pd.getitem_list df_clean
                         ["CHR"; "SNP"; "BP"; "A1"; p_col]) ;;
      let summary := pd.set_columns summary summary_header in
      pd.to_csv summary out_summary ;;
      print ("Summary statistics saved to: " ++ out_summary) ;;
      print "" ;;
      print "Extraction complete!" ;;
      ret (Some (len gw_sig, len suggestive))
  end.

(** The [__main__] block; [argv] is [sys.argv].  Unpacking [None] into
    [gw, sugg] raises [TypeError]. *)
Definition main (argv : list string) : M unit :=
  if Nat.ltb (List.length argv) 3 then
    print "Usage: python extract_top_snps.py <input_assoc_file> <output_directory>" ;;
    raise (SystemExit 1)
  else
    let input_file := nth 1 argv "" in
    let output_dir := nth 2 argv "" in
    r <- extract_top_snps input_file output_dir 1000 ;;
    match r with
    | None => raise TypeError
    | Some (gw, sugg) =>
        print "" ;;
        print "=== Summary ===" ;;
        print ("Genome-wide significant: " ++ str_nat gw) ;;
        print ("Suggestive: " ++ str_nat sugg)
    end.

(** *** generate_plots.py: the data behind the Manhattan plot
    (lines 18 to 31 of [manhattan_plot]) *)

Definition manhattan_data (assoc_file : string) : M DataFrame :=
  print ("Creating Manhattan plot from " ++ assoc_file) ;;
  df <- read_csv assoc_file ;;
  p_col <- (if pd.has_column df "P" then ret "P"
            else lift (pd.columns_getitem df 8)) ;;
  p <- lift (pd.getitem df p_col) ;;
  let df := pd.getitem_mask df (pd.notna p) in
  p <- lift (pd.getitem df p_col) ;;
  minlog10p <- lift (pd.traverse np.neg_log10_cell p) ;;
  let df := pd.setitem df "MINLOG10P" minlog10p in
  m <- lift (pd.getitem df "MINLOG10P") ;;
  ret (pd.getitem_mask df (pd.notna m)).

(** *** generate_plots.py: the data behind the Q-Q plot
    (lines 79 to 101 of [qq_plot]) *)

Definition qq_data_of (assoc_file : string) : M qq_data :=
  print ("Creating Q-Q plot from " ++ assoc_file) ;;
  df <- read_csv assoc_file ;;
  p_col <- (if pd.has_column df "P" then ret "P"
            else lift (pd.columns_getitem df 8)) ;;
  p <- lift (pd.getitem df p_col) ;;
  values <- lift (pd.getitem (pd.getitem_mask df (pd.notna p)) p_col) ;;
  positive <- lift (pd.gt values F64.zero) ;;
  let pvals := np.floats (pd.select values positive) in
  let observed := sort (map (fun x => F64.neg (log10 x)) pvals) in
  let n := Z.of_nat (List.length observed) in
  let expected :=
    map (fun i => F64.neg (log10 (F64.div (F64.of_Z i) (F64.of_Z (n + 1)))))
        (np.arange 1 (n + 1)) in
  chisq <- lift (percentile pvals 50) ;;
  let lambda_gc :=
    if F64.gtb chisq F64.zero then
      Estimated
        (F64.div
           (median
              (map (fun z => np.square
                               (F64.mul (F64.sqrt (F64.of_Z 2)) (F64.abs z)))
                   (randn (List.length pvals))))
           chisq)
    else Fallback in
  ret (mkQQ pvals observed expected chisq lambda_gc).

End Scripts.

(** ** Vocabulary of the statements *)

(** The p-value column the three routines resolve (lines 25, 24 and 85). *)
Definition p_col_of (df : DataFrame) : exn + string :=
  if pd.has_column df "P" then inr "P" else pd.columns_getitem df 8.

Definition p_loc (df : DataFrame) : option nat :=
  match p_col_of df with
  | inr c => pd.get_loc (columns df) c
  | inl _ => None
  end.

Definition is_num (c : cell) : bool :=
  match c with Num _ => true | Str _ => false end.

(** Column [j] has dtype float64. *)
Definition float64_column (j : nat) (df : DataFrame) : bool :=
  forallb (fun r => is_num (pd.field j r)) (rows df).

Definition pvalue (j : nat) (r : Row) : float :=
  match pd.field j r with Num x => x | Str _ => F64.nan end.

(** The records with a p-value ([df_clean] of the extractor). *)
Definition cleaned (j : nat) (df : DataFrame) : list Row :=
  filter (fun r => pd.notna_cell (pd.field j r)) (rows df).

Definition below (j : nat) (x : float) (rs : list Row) : list Row :=
  filter (fun r => F64.ltb (pvalue j r) x) rs.

(** The valid p-values of the Q-Q plot: present and positive. *)
Definition valid (j : nat) (df : DataFrame) : list Row :=
  filter (fun r => F64.gtb (pvalue j r) F64.zero) (cleaned j df).

Definition loc_of (names : list string) (c : string) : nat :=
  match pd.get_loc names c with Some j => j | None => 0 end.

(** The row of [summary_statistics.txt] that a record yields. *)
Definition summary_row (df : DataFrame) (j : nat) (r : Row) : Row :=
  [pd.field (loc_of (columns df) "CHR") r;
   pd.field (loc_of (columns df) "SNP") r;
   pd.field (loc_of (columns df) "BP") r;
   pd.field (loc_of (columns df) "A1") r;
   pd.field j r].

Definition required : list string := ["CHR"; "SNP"; "BP"; "A1"].

(** The world after more lines have been printed. *)
Definition printed (w : world) (lines : list string) : world :=
  mkWorld (stdout w ++ lines)%list (files w).

(** The files and the console lines of one run of the extractor. *)
Definition out_1000 (out : string) := out ++ "/top_1000_snps.txt".
Definition out_100 (out : string) := out ++ "/top_100_snps.txt".
Definition out_gw (out : string) :=
  out ++ "/genome_wide_significant_snps_5e-8.txt".
Definition out_sugg (out : string) := out ++ "/suggestive_snps_1e-5.txt".
Definition out_summary (out : string) := out ++ "/summary_statistics.txt".

Definition first_four (out : string) (n : Z) (df : DataFrame) (j : nat)
           (srt : list Row) : list (string * DataFrame) :=
  [(out_1000 out, pd.head (mkDataFrame (columns df) srt) n);
   (out_100 out, pd.head (mkDataFrame (columns df) srt) 100);
   (out_gw out,
    mkDataFrame (columns df) (below j gw_threshold (cleaned j df)));
   (out_sugg out,
    mkDataFrame (columns df) (below j suggestive_threshold (cleaned j df)))].

Definition progress_lines (input out : string) (df : DataFrame) (j : nat)
  : list string :=
  ["Reading association file: " ++ input;
   "Total SNPs in file: " ++ str_nat (len df);
   "SNPs with valid p-values: " ++ str_nat (List.length (cleaned j df));
   "Top 1000 SNPs saved to: " ++ out_1000 out;
   "Top 100 SNPs saved to: " ++ out_100 out;
   "Genome-wide significant SNPs (p<5e-8): "
     ++ str_nat (List.length (below j gw_threshold (cleaned j df)));
   "Saved to: " ++ out_gw out;
   "Suggestive SNPs (p<1e-5): "
     ++ str_nat (List.length (below j suggestive_threshold (cleaned j df)));
   "Saved to: " ++ out_sugg out].

Definition final_lines (out : string) : list string :=
  ["Summary statistics saved to: " ++ out_summary out;
   "";
   "Extraction complete!"].

(** The records and the numbers of the plot routines. *)

(** Where [df['MINLOG10P'] = ...] puts the column. *)
Definition minlog_loc (df : DataFrame) : nat :=
  match pd.get_loc (columns df) "MINLOG10P" with
  | Some k => k
  | None => List.length (columns df)
  end.

(** Every entry of column [j] is missing or a finite number. *)
Definition finite_column (j : nat) (df : DataFrame) : bool :=
  forallb (fun r => match pd.field j r with
                    | Num x => F64.isnan x || F64.isfinite x
                    | Str _ => false
                    end) (rows df).

Section PlotVocabulary.

Context `{NumPy}.

Definition minlog10p (j : nat) (r : Row) : cell :=
  Num (F64.neg (log10 (pvalue j r))).

Definition plotted (j : nat) (df : DataFrame) : list Row :=
  map (fun r => pd.set_nth (minlog_loc df) (minlog10p j r) r)
      (filter (fun r => pd.notna_cell (minlog10p j r)) (cleaned j df)).

Definition qq_expected_of (n : nat) : list float :=
  map (fun i => F64.neg (log10 (F64.div (F64.of_nat i) (F64.of_nat (n + 1)))))
      (seq 1 n).

Definition qq_lambda_of (pvals : list float) (chisq : float) : lambda :=
  if F64.gtb chisq F64.zero then
    Estimated
      (F64.div
         (median
            (map (fun z => np.square
                             (F64.mul (F64.sqrt (F64.of_Z 2)) (F64.abs z)))
                 (randn (List.length pvals))))
         chisq)
  else Fallback.

End PlotVocabulary.

(** ** An executable instance of the interface

    Insertion sorts, the lower of the two nearest order statistics as
    percentile, a [log10] that is right on the special values and an
    integer estimate elsewhere, and constant draws.  It serves to run the
    scripts on concrete tables; [before] decides where a key goes among
    its equals, so that both tie orders can be exhibited. *)

Module Insertion.

Section Sorting.

(** [before x y]: key [x] goes in front of key [y]. *)
Variable before : float -> float -> bool.

Fixpoint insert (p : nat * float) (l : list (nat * float))
  : list (nat * float) :=
  match l with
  | [] => [p]
  | q :: l' =>
      if before (snd p) (snd q) then p :: q :: l'
      else q :: insert p l'
  end.

Definition isort (l : list (nat * float)) : list (nat * float) :=
  fold_right insert [] l.

Definition enumerate (xs : list float) : list (nat * float) :=
  combine (seq 0 (List.length xs)) xs.

Definition argsort_floats (xs : list float) : list nat :=
  map fst (isort (enumerate xs)).

Definition pair_le (p q : nat * float) : Prop := key_le (snd p) (snd q).

End Sorting.

End Insertion.

Module Reference.

Definition numeric_cell (c : cell) : exn + float :=
  match c with
  | Num x => inr x
  | Str _ => inl TypeError
  end.

(** Equal keys keep their order ([stable]) or come out reversed. *)
Definition stable (x y : float) : bool := F64.key_leb x y.
Definition reversing (x y : float) : bool := negb (F64.key_leb y x).

Section WithOrder.

Variable before : float -> float -> bool.

Definition argsort (ks : list cell) : exn + list nat :=
  match pd.traverse numeric_cell ks with
  | inl e => inl e
  | inr xs => inr (Insertion.argsort_floats before xs)
  end.

Definition sort (xs : list float) : list float :=
  map (fun i => nth i xs F64.nan) (Insertion.argsort_floats before xs).

Definition percentile (xs : list float) (q : Z) : exn + float :=
  match xs with
  | [] => inl IndexError
  | x0 :: _ =>
      inr (nth (Z.to_nat ((Z.of_nat (List.length xs) - 1) * q / 100))
               (sort xs) x0)
  end.

Definition median (xs : list float) : float :=
  match percentile xs 50 with
  | inr v => v
  | inl _ => F64.nan
  end.

Definition log10 (x : float) : float :=
  match x with
  | S754_nan => F64.nan
  | S754_zero _ => F64.ninf
  | S754_infinity s => if s then F64.nan else F64.pinf
  | S754_finite true _ _ => F64.nan
  | S754_finite false m e =>
      match F64.of_Z ((Z.log2 (Zpos m) + e) * 30103 / 100000) with
      | S754_nan => F64.zero
      | v => v
      end
  end.

Definition randn (n : nat) : list float := repeat (F64.of_Z 1) n.

End WithOrder.

End Reference.

(** ** Concrete tables *)

Module Tables.

Definition int (z : Z) : cell := Num (F64.of_Z z).

Definition plink_header : list string :=
  ["CHR"; "SNP"; "BP"; "A1"; "TEST"; "NMISS"; "OR"; "STAT"; "P"].

Definition plink_row (chr : Z) (snp : string) (bp : Z) (p : float) : Row :=
  [int chr; Str snp; int bp; Str "A"; Str "ADD"; int 100;
   Num (F64.dec 11 1); Num (F64.dec 21 1); Num p].

(** The table of the specification's example: p-values
    0.5, NA, 4e-9, 2e-6, 1e-7. *)
Definition five_rows : DataFrame :=
  mkDataFrame plink_header
    [plink_row 1 "rs1" 100 (F64.dec 5 1);
     plink_row 1 "rs2" 200 F64.nan;
     plink_row 1 "rs3" 300 (F64.dec 4 9);
     plink_row 2 "rs4" 50 (F64.dec 2 6);
     plink_row 2 "rs5" 60 (F64.dec 1 7)].

(** Three valid p-values, one missing, one zero. *)
Definition three_valid : DataFrame :=
  mkDataFrame plink_header
    [plink_row 1 "rs1" 100 (F64.dec 5 1);
     plink_row 1 "rs2" 200 F64.nan;
     plink_row 1 "rs3" 300 F64.zero;
     plink_row 2 "rs4" 50 (F64.dec 2 6);
     plink_row 2 "rs5" 60 (F64.dec 1 7)].

(** The same records without the [CHR] column. *)
Definition no_chr : DataFrame :=
  mkDataFrame (tl plink_header) (map (@tl cell) (rows five_rows)).

(** Three columns, none of them [P]. *)
Definition short : DataFrame :=
  mkDataFrame ["CHR"; "SNP"; "BP"] [[int 1; Str "rs1"; int 100]].

Definition zero_row : Row := [int 1; Str "rs1"; int 100; Str "A"; Num F64.zero].

(** One record, with p = 0. *)
Definition zero_p : DataFrame :=
  mkDataFrame ["CHR"; "SNP"; "BP"; "A1"; "P"] [zero_row].

(** Two records with the same p-value. *)
Definition tied : DataFrame :=
  mkDataFrame ["CHR"; "SNP"; "BP"; "A1"; "P"]
    [[int 1; Str "rs1"; int 100; Str "A"; Num (F64.dec 1 3)];
     [int 1; Str "rs2"; int 200; Str "C"; Num (F64.dec 1 3)]].

Definition disk (path : string) : exn + DataFrame :=
  if String.eqb path "five.assoc" then inr five_rows
  else if String.eqb path "three.assoc" then inr three_valid
  else if String.eqb path "nochr.assoc" then inr no_chr
  else if String.eqb path "short.assoc" then inr short
  else if String.eqb path "zero.assoc" then inr zero_p
  else if String.eqb path "tied.assoc" then inr tied
  else inl (ReadError "No such file or directory").

Definition start : world := mkWorld [] [].

(** The SNP identifiers of the first table a run wrote. *)
Definition first_table_ids (w : world) : list cell :=
  match files w with
  | (_, t) :: _ => map (pd.field 1) (rows t)
  | [] => []
  end.

End Tables.

(** ** generate_plots.py in full: figures and the remaining pandas calls

    The calls of matplotlib are taken to succeed: a drawing call adds an
    artist to the current figure and [savefig] stores the figure under its
    path.  Integer columns are binary64 numbers here as in the rest of the
    model, so the sum of two row indices at line 52 is exact below 2^53. *)

(** The exceptions of the plot script: those of the extractor, the
    [ValueError] of a reduction over an empty array, and what the
    operating system refuses. *)
Inductive error : Type :=
| Std (e : exn)
| ValueError
| OSError (msg : string).

Definition is_exception (e : error) : bool :=
  match e with
  | Std e => is_Exception e
  | ValueError | OSError _ => true
  end.

(** What a drawing call leaves on the current figure.  The axes of a
    figure are numbered from 0; marker sizes, fonts and transparency are
    not recorded. *)
Inductive artist : Type :=
| Scatter (ax : nat) (x y : list cell) (c : option string)
| Hist (ax : nat) (x : list cell) (bins : nat)
| Plot (x y : list float) (fmt label : string)
| Axhline (y : float) (color label : string)
| Axvline (ax : nat) (x : float) (color label : string)
| Xlabel (ax : nat) (text : string)
| Ylabel (ax : nat) (text : string)
| Title (ax : nat) (text : string)
| Xticks (positions : list float)
| Xticklabels (labels : list string)
| Legend (ax : nat) (loc : string)
| Grid (ax : nat)
| TightLayout.

Record studio : Type := mkStudio {
  console : world;                          (* the lines printed so far *)
  figure : list artist;                     (* the current figure *)
  images : list (string * list artist)      (* the figures saved, oldest first *)
}.

Definition P (A : Type) : Type := studio -> (error + A) * studio.

Definition retP {A} (a : A) : P A := fun s => (inr a, s).

Definition raiseP {A} (e : error) : P A := fun s => (inl e, s).

Definition bindP {A B} (m : P A) (k : A -> P B) : P B :=
  fun s =>
    match m s with
    | (inl e, s') => (inl e, s')
    | (inr a, s') => k a s'
    end.

(** [try: ... except Exception as e: ...] *)
Definition try_exceptP {A} (m : P A) (handler : error -> P A) : P A :=
  fun s =>
    match m s with
    | (inl e, s') => if is_exception e then handler e s' else (inl e, s')
    | (inr a, s') => (inr a, s')
    end.

Definition liftE {A} (r : exn + A) : P A :=
  fun s => (match r with inl e => inl (Std e) | inr a => inr a end, s).

Definition liftP {A} (r : error + A) : P A := fun s => (r, s).

Definition say (line : string) : P unit :=
  fun s => (inr tt,
            mkStudio (mkWorld (stdout (console s) ++ [line])%list
                              (files (console s)))
                     (figure s) (images s)).

(** [plt.subplots(...)]: a new current figure. *)
Definition subplots : P unit :=
  fun s => (inr tt, mkStudio (console s) [] (images s)).

Definition draw (a : artist) : P unit :=
  fun s => (inr tt, mkStudio (console s) (figure s ++ [a])%list (images s)).

(** [plt.savefig(path, dpi=300, bbox_inches='tight')]; the directory is
    taken to exist and to be writable. *)
Definition savefig (path : string) : P unit :=
  fun s => (inr tt,
            mkStudio (console s) (figure s)
                     (images s ++ [(path, figure s)])%list).

(** [plt.close()] *)
Definition close : P unit :=
  fun s => (inr tt, mkStudio (console s) [] (images s)).

Declare Scope plot_scope.
Delimit Scope plot_scope with plot.
Notation "x <- m ;; k" := (bindP m (fun x => k))
  (at level 100, m at next level, right associativity) : plot_scope.
Notation "m ;; k" := (bindP m (fun _ => k))
  (at level 100, right associativity) : plot_scope.
(** *** More of pandas, numpy and the built-ins *)

Module pd2.

(** [df.iloc[:, k]] *)
Definition iloc_col (df : DataFrame) (k : nat) : exn + list cell :=
  if Nat.ltb k (List.length (columns df))
  then inr (map (pd.field k) (rows df))
  else inl IndexError.

(** The order of sort keys: numbers by value, strings by code point,
    missing values last and equal to each other.  A column read by
    [read_csv] holds numbers or strings, not both; a number is put before
    a string. *)
Definition cell_compare (a b : cell) : comparison :=
  match a, b with
  | Num x, Num y =>
      match SFcompare x y with
      | Some c => c
      | None =>
          if F64.isnan x then (if F64.isnan y then Eq else Gt) else Lt
      end
  | Num x, Str _ => if F64.isnan x then Gt else Lt
  | Str _, Num y => if F64.isnan y then Lt else Gt
  | Str s, Str t => String.compare s t
  end.

Definition cell_eqb (a b : cell) : bool :=
  match cell_compare a b with Eq => true | _ => false end.

Definition is_missing (c : cell) : bool := negb (pd.notna_cell c).

(** Rows compared by the columns at [locs], the first one first. *)
Fixpoint row_compare (locs : list nat) (r s : Row) : comparison :=
  match locs with
  | [] => Eq
  | j :: locs' =>
      match cell_compare (pd.field j r) (pd.field j s) with
      | Eq => row_compare locs' r s
      | c => c
      end
  end.

Definition leb_of {A} (cmp : A -> A -> comparison) (a b : A) : bool :=
  match cmp a b with Gt => false | _ => true end.

(** A stable sort by insertion. *)
Fixpoint insert {A} (leb : A -> A -> bool) (a : A) (l : list A) : list A :=
  match l with
  | [] => [a]
  | b :: l' => if leb a b then a :: b :: l' else b :: insert leb a l'
  end.

Definition stable_sort {A} (leb : A -> A -> bool) (l : list A) : list A :=
  fold_right (insert leb) [] l.

Fixpoint first_missing (names : list string) (df : DataFrame)
  : option string :=
  match names with
  | [] => None
  | c :: names' =>
      if pd.has_column df c then first_missing names' df else Some c
  end.

(** [df.sort_values([c1, ..., ck])]: the first name that is not a column
    raises [KeyError]; several keys are sorted lexicographically, equal
    rows keeping their order. *)
Definition sort_values_list (df : DataFrame) (names : list string)
  : exn + DataFrame :=
  match first_missing names df with
  | Some c => inl (KeyError [c])
  | None =>
      let locs := map (loc_of (columns df)) names in
      inr (mkDataFrame (columns df)
             (stable_sort (leb_of (row_compare locs)) (rows df)))
  end.

(** [range(n)] as a column. *)
Definition range (n : nat) : list cell :=
  map (fun i => Num (F64.of_nat i)) (seq 0 n).

(** Adjacent equal keys merged. *)
Fixpoint unique (l : list cell) : list cell :=
  match l with
  | [] => []
  | a :: l' =>
      match unique l' with
      | b :: u => if cell_eqb a b then b :: u else a :: b :: u
      | [] => [a]
      end
  end.

(** [df.groupby(name)], iterated: the groups in the order of their keys,
    the rows of a group in the order of the frame; rows with a missing
    key belong to no group. *)
Definition groupby (df : DataFrame) (name : string)
  : exn + list (cell * DataFrame) :=
  match pd.get_loc (columns df) name with
  | None => inl (KeyError [name])
  | Some j =>
      let keys :=
        unique (stable_sort (leb_of cell_compare)
                  (filter pd.notna_cell (map (pd.field j) (rows df)))) in
      inr (map (fun k =>
                  (k, mkDataFrame (columns df)
                        (filter (fun r => cell_eqb (pd.field j r) k)
                                (rows df))))
               keys)
  end.

(** [series.iloc[0]] and [series.iloc[-1]] *)
Definition iloc_first (s : list cell) : exn + cell :=
  match s with
  | c :: _ => inr c
  | [] => inl IndexError
  end.

Definition iloc_last (s : list cell) : exn + cell :=
  match rev s with
  | c :: _ => inr c
  | [] => inl IndexError
  end.

Definition numeric (c : cell) : exn + float :=
  match c with
  | Num x => inr x
  | Str _ => inl TypeError
  end.

(** [df.nsmallest(n, name)]: the [n] rows with the smallest values in
    the column, smallest first, the first of equal ones first; the
    column must be numeric. *)
Definition nsmallest (df : DataFrame) (n : nat) (name : string)
  : exn + DataFrame :=
  match pd.getitem df name with
  | inl e => inl e
  | inr s =>
      match pd.traverse numeric s with
      | inl e => inl e
      | inr xs =>
          inr (pd.head (pd.take df (Insertion.argsort_floats Reference.stable xs))
                       (Z.of_nat n))
      end
  end.

End pd2.

Module py.

(** [a + b] on two numbers *)
Definition add (x y : float) : float := SFadd F64.prec F64.emax x y.

(** [a.max()] on a float array: a missing value wins. *)
Definition fmax (x y : float) : float :=
  if F64.isnan x then x
  else if F64.isnan y then y
  else if F64.ltb x y then y else x.

Definition amax (a : list float) : error + float :=
  match a with
  | [] => inl ValueError
  | x :: a' => inr (fold_left fmax a' x)
  end.

(** The built-in [max(a, b)]. *)
Definition max (a b : float) : float := if F64.gtb b a then b else a.

Definition newline : string := String (ascii_of_nat 10) EmptyString.

(** ["=" * n] *)
Fixpoint repeat_char (c : ascii) (n : nat) : string :=
  match n with
  | O => EmptyString
  | S n' => String c (repeat_char c n')
  end.

Definition map_string (f : ascii -> ascii) : string -> string :=
  fix go (s : string) : string :=
    match s with
    | EmptyString => EmptyString
    | String c s' => String (f c) (go s')
    end.

(** [s.replace(' ', '_')] *)
Definition replace_space (s : string) : string :=
  map_string (fun c => if Ascii.eqb c " " then "_"%char else c) s.

(** [s.lower()] on ASCII text *)
Definition lower_char (c : ascii) : ascii :=
  let n := nat_of_ascii c in
  if (Nat.leb 65 n && Nat.leb n 90)%bool then ascii_of_nat (n + 32) else c.

Definition lower (s : string) : string := map_string lower_char s.

End py.

(** *** The routines *)

Module generate_plots.

Section PlotScripts.

Local Open Scope plot_scope.

Context `{NumPy}.

(** The environment of a run: what [read_csv] yields for a path, which
    paths exist, what [mkdir(exist_ok=True)] answers, [str(Path(a) / b)],
    [str(Path(a))], [f"{x:.3f}"], [str(key)] of a group key and [str(e)]
    of an exception. *)
Variable read_table : string -> exn + DataFrame.
Variable path_exists : string -> bool.
Variable mkdir : string -> error + unit.
Variable joinpath : string -> string -> string.
Variable path_str : string -> string.
Variable format_3f : float -> string.
Variable str_key : cell -> string.
Variable str_error : error -> string.

Definition colors : list string := ["#1f77b4"; "#ff7f0e"].

(** The loop of lines 48 to 52. *)
Fixpoint plot_groups (num : nat) (groups : list (cell * DataFrame))
         (x_labels : list string) (x_labels_pos : list float)
  : P (list string * list float) :=
  match groups with
  | [] => retP (x_labels, x_labels_pos)
  | (name, group) :: groups' =>
      let color := nth (Nat.modulo num (List.length colors)) colors "" in
      ind <- liftE (pd.getitem group "IND") ;;
      minlog10p <- liftE (pd.getitem group "MINLOG10P") ;;
      draw (Scatter 0 ind minlog10p (Some color)) ;;
      ind0 <- liftE (pd.getitem group "IND") ;;
      first <- liftE (pd2.iloc_first ind0) ;;
      first <- liftE (pd2.numeric first) ;;
      ind1 <- liftE (pd.getitem group "IND") ;;
      last <- liftE (pd2.iloc_last ind1) ;;
      last <- liftE (pd2.numeric last) ;;
      plot_groups (S num) groups'
                  (x_labels ++ [str_key name])%list
                  (x_labels_pos
                   ++ [F64.div (py.add first last) (F64.of_Z 2)])%list
  end.

Definition manhattan_plot (assoc_file output_file title : string)
  : P DataFrame :=
  say ("Creating Manhattan plot from " ++ assoc_file) ;;
  df <- liftE (read_table assoc_file) ;;
  p_col <- liftE (if pd.has_column df "P" then inr "P"
                  else pd.columns_getitem df 8) ;;
  p <- liftE (pd.getitem df p_col) ;;
  let df := pd.getitem_mask df (pd.notna p) in
  p <- liftE (pd.getitem df p_col) ;;
  minlog10p <- liftE (pd.traverse np.neg_log10_cell p) ;;
  let df := pd.setitem df "MINLOG10P" minlog10p in
  m <- liftE (pd.getitem df "MINLOG10P") ;;
  let df := pd.getitem_mask df (pd.notna m) in
  df <- liftE (pd2.sort_values_list df ["CHR"; "BP"]) ;;
  let df := pd.setitem df "IND" (pd2.range (len df)) in
  df_grouped <- liftE (pd2.groupby df "CHR") ;;
  subplots ;;
  ticks <- plot_groups 0 df_grouped [] [] ;;
  let x_labels := fst ticks in
  let x_labels_pos := snd ticks in
  draw (Axhline (F64.neg (log10 gw_threshold)) "red" "p=5e-8") ;;
  draw (Axhline (F64.neg (log10 suggestive_threshold)) "blue" "p=1e-5") ;;
  draw (Xlabel 0 "Chromosome") ;;
  draw (Ylabel 0 "-log10(P-value)") ;;
  draw (Title 0 title) ;;
  draw (Xticks x_labels_pos) ;;
  draw (Xticklabels x_labels) ;;
  draw (Legend 0 "upper right") ;;
  draw (Grid 0) ;;
  draw TightLayout ;;
  savefig output_file ;;
  close ;;
  say ("Manhattan plot saved to: " ++ output_file) ;;
  smallest <- liftE (pd2.nsmallest df 10 p_col) ;;
  top_snps <- liftE (pd.getitem_list smallest ["CHR"; "SNP"; "BP"; p_col]) ;;
  retP top_snps.

Definition qq_plot (assoc_file output_file title : string) : P float :=
  say ("Creating Q-Q plot from " ++ assoc_file) ;;
  df <- liftE (read_table assoc_file) ;;
  p_col <- liftE (if pd.has_column df "P" then inr "P"
                  else pd.columns_getitem df 8) ;;
  p <- liftE (pd.getitem df p_col) ;;
  values <- liftE (pd.getitem (pd.getitem_mask df (pd.notna p)) p_col) ;;
  positive <- liftE (pd.gt values F64.zero) ;;
  let pvals := np.floats (pd.select values positive) in
  let observed := sort (map (fun x => F64.neg (log10 x)) pvals) in
  let n := Z.of_nat (List.length observed) in
  let expected :=
    map (fun i => F64.neg (log10 (F64.div (F64.of_Z i) (F64.of_Z (n + 1)))))
        (np.arange 1 (n + 1)) in
  chisq <- liftE (percentile pvals 50) ;;
  let lambda_gc :=
    if F64.gtb chisq F64.zero then
      F64.div
        (median
           (map (fun z => np.square
                            (F64.mul (F64.sqrt (F64.of_Z 2)) (F64.abs z)))
                (randn (List.length pvals))))
        chisq
    else F64.of_Z 1 in
  subplots ;;
  draw (Scatter 0 (map Num expected) (map Num observed) None) ;;
  emax <- liftP (py.amax expected) ;;
  omax <- liftP (py.amax observed) ;;
  let max_val := py.max emax omax in
  draw (Plot [F64.zero; max_val] [F64.zero; max_val] "r--" "Expected") ;;
  draw (Xlabel 0 "Expected -log10(P-value)") ;;
  draw (Ylabel 0 "Observed -log10(P-value)") ;;
  draw (Title 0 (title ++ py.newline ++ "λ = " ++ format_3f lambda_gc)) ;;
  draw (Legend 0 "upper left") ;;
  draw (Grid 0) ;;
  draw TightLayout ;;
  savefig output_file ;;
  close ;;
  say ("Q-Q plot saved to: " ++ output_file) ;;
  retP lambda_gc.

Definition pca_plot (pca_file output_file : string) : P unit :=
  say ("Creating PCA plot from " ++ pca_file) ;;
  df <- liftE (read_table pca_file) ;;
  subplots ;;
  pc1 <- liftE (pd2.iloc_col df 2) ;;
  pc2 <- liftE (pd2.iloc_col df 3) ;;
  draw (Scatter 0 pc1 pc2 None) ;;
  draw (Xlabel 0 "PC1") ;;
  draw (Ylabel 0 "PC2") ;;
  draw (Title 0 "PC1 vs PC2") ;;
  draw (Grid 0) ;;
  pc2' <- liftE (pd2.iloc_col df 3) ;;
  pc3 <- liftE (pd2.iloc_col df 4) ;;
  draw (Scatter 1 pc2' pc3 None) ;;
  draw (Xlabel 1 "PC2") ;;
  draw (Ylabel 1 "PC3") ;;
  draw (Title 1 "PC2 vs PC3") ;;
  draw (Grid 1) ;;
  draw TightLayout ;;
  savefig output_file ;;
  close ;;
  say ("PCA plot saved to: " ++ output_file).

Definition missing_threshold : float := Eval vm_compute in F64.dec 2 2.

Definition missingness_plot (lmiss_file imiss_file output_file : string)
  : P unit :=
  say "Creating missingness plots" ;;
  snp_miss <- liftE (read_table lmiss_file) ;;
  ind_miss <- liftE (read_table imiss_file) ;;
  subplots ;;
  f_snp <- liftE (pd.getitem snp_miss "F_MISS") ;;
  draw (Hist 0 f_snp 50) ;;
  draw (Axvline 0 missing_threshold "red" "Threshold=0.02") ;;
  draw (Xlabel 0 "SNP Missingness Rate") ;;
  draw (Ylabel 0 "Frequency") ;;
  draw (Title 0 "SNP Missingness Distribution") ;;
  draw (Legend 0 "best") ;;
  draw (Grid 0) ;;
  f_ind <- liftE (pd.getitem ind_miss "F_MISS") ;;
  draw (Hist 1 f_ind 50) ;;
  draw (Axvline 1 missing_threshold "red" "Threshold=0.02") ;;
  draw (Xlabel 1 "Individual Missingness Rate") ;;
  draw (Ylabel 1 "Frequency") ;;
  draw (Title 1 "Individual Missingness Distribution") ;;
  draw (Legend 1 "best") ;;
  draw (Grid 1) ;;
  draw TightLayout ;;
  savefig output_file ;;
  close ;;
  say ("Missingness plots saved to: " ++ output_file).

Definition rule : string := py.repeat_char "=" 60.

Definition analyses : list (string * string) :=
  [("AA_GWAS_hg19_uniq_assoc_noQC.assoc", "No QC");
   ("AA_GWAS_hg19_uniq_assoc_withQC.assoc", "With QC");
   ("AA_GWAS_hg19_uniq_assoc.assoc", "Standard")].

Definition slug (label : string) : string :=
  py.lower (py.replace_space label).

(** The body of the loop of lines 210 to 232, for one analysis. *)
Definition analyse (assoc_dir output_dir : string)
           (analysis : string * string) : P unit :=
  let assoc_file := fst analysis in
  let label := snd analysis in
  let assoc_path := joinpath assoc_dir assoc_file in
  if path_exists assoc_path then
    say "" ;;
    say ("--- Processing " ++ label ++ " ---") ;;
    let manhattan_out :=
      joinpath output_dir ("manhattan_plot_" ++ slug label ++ ".png") in
    try_exceptP
      (_ <- manhattan_plot assoc_path manhattan_out
              ("Manhattan Plot (" ++ label ++ ")") ;;
       retP tt)
      (fun e => say ("Error creating Manhattan plot for " ++ label ++ ": "
                     ++ str_error e)) ;;
    let qq_out := joinpath output_dir ("qq_plot_" ++ slug label ++ ".png") in
    try_exceptP
      (lambda_gc <- qq_plot assoc_path qq_out ("Q-Q Plot (" ++ label ++ ")") ;;
       say ("Genomic inflation factor (λ): " ++ format_3f lambda_gc))
      (fun e => say ("Error creating Q-Q plot for " ++ label ++ ": "
                     ++ str_error e))
  else retP tt.

Fixpoint for_each {A} (body : A -> P unit) (l : list A) : P unit :=
  match l with
  | [] => retP tt
  | a :: l' => body a ;; for_each body l'
  end.

(** [main(assoc_dir, qc_dir, output_dir)]; the dictionary [results] is
    filled and never read, and is left out. *)
Definition main (assoc_dir qc_dir output_dir : string) : P unit :=
  liftP (mkdir (path_str output_dir)) ;;
  say rule ;;
  say "GWAS Visualization and Reporting" ;;
  say rule ;;
  for_each (analyse assoc_dir output_dir) analyses ;;
  let pca_file := joinpath qc_dir "AA_GWAS_hg19_uniq_pca.eigenvec" in
  (if path_exists pca_file then
     say "" ;;
     say "--- Creating PCA plot ---" ;;
     try_exceptP
       (pca_plot pca_file (joinpath output_dir "pca_plot.png"))
       (fun e => say ("Error creating PCA plot: " ++ str_error e))
   else retP tt) ;;
  let lmiss_file := joinpath qc_dir "basic_stats_preQC.lmiss" in
  let imiss_file := joinpath qc_dir "basic_stats_preQC.imiss" in
  (if (path_exists lmiss_file && path_exists imiss_file)%bool then
     say "" ;;
     say "--- Creating missingness plots ---" ;;
     try_exceptP
       (missingness_plot lmiss_file imiss_file
          (joinpath output_dir "missingness_plots.png"))
       (fun e => say ("Error creating missingness plots: " ++ str_error e))
   else retP tt) ;;
  say "" ;;
  say rule ;;
  say "Visualization complete!" ;;
  say ("All plots saved to: " ++ path_str output_dir) ;;
  say rule.

(** The [__main__] block of generate_plots.py. *)
Definition cli (argv : list string) : P unit :=
  if Nat.ltb (List.length argv) 4 then
    say "Usage: python generate_plots.py <assoc_dir> <qc_dir> <output_dir>" ;;
    raiseP (Std (SystemExit 1))
  else
    main (nth 1 argv "") (nth 2 argv "") (nth 3 argv "").

End PlotScripts.

End generate_plots.

(** ** Vocabulary of the further statements *)

(** The number of rows [df.head(n)] keeps of [c], and the place where a
    list of sorted records is cut. *)
Definition head_count (n : Z) (c : nat) : nat :=
  if (0 <=? n)%Z then Nat.min (Z.to_nat n) c else c - Z.to_nat (- n).

Definition head_rows (n : Z) (l : list Row) : nat :=
  if (0 <=? n)%Z then Z.to_nat n else List.length l - Z.to_nat (- n).

(** A computation of the extractor that raises nothing but an
    [Exception]. *)
Definition quiet {A} (m : M A) : Prop :=
  forall w e, fst (m w) = inl e -> is_Exception e = true.

(** A library call that raises nothing but an [Exception]. *)
Definition safe {A} (r : exn + A) : Prop :=
  forall e, r = inl e -> is_Exception e = true.

(** The state after some lines were printed. *)
Definition said (s : studio) (lines : list string) : studio :=
  mkStudio (printed (console s) lines) (figure s) (images s).

(** [grows allowed s s']: from [s] to [s'] lines were printed and figures
    saved under names of [allowed]; nothing was taken back and no table
    was written. *)
Definition grows (allowed : list string) (s s' : studio) : Prop :=
  (exists lines, stdout (console s') = (stdout (console s) ++ lines)%list) /\
  files (console s') = files (console s) /\
  (exists saved, images s' = (images s ++ saved)%list /\
                 Forall (fun image => In (fst image) allowed) saved).

(** A routine that raises nothing but an [Exception], whatever the state
    it starts in, and only adds to the run. *)
Definition tame {A} (allowed : list string) (m : P A) : Prop :=
  forall s,
    (forall e, fst (m s) = inl e -> is_exception e = true) /\
    grows allowed s (snd (m s)).

(** A block that returns, whatever the state it starts in. *)
Definition returns (allowed : list string) (m : P unit) : Prop :=
  forall s, fst (m s) = inr tt /\ grows allowed s (snd (m s)).

Section RunVocabulary.

Variable joinpath : string -> string -> string.
Variable path_str : string -> string.
Variable format_3f : float -> string.

(** The names under which [main] saves figures, and what it prints first
    and last. *)
Definition outputs (output_dir : string) : list string :=
  [joinpath output_dir "manhattan_plot_no_qc.png";
   joinpath output_dir "qq_plot_no_qc.png";
   joinpath output_dir "manhattan_plot_with_qc.png";
   joinpath output_dir "qq_plot_with_qc.png";
   joinpath output_dir "manhattan_plot_standard.png";
   joinpath output_dir "qq_plot_standard.png";
   joinpath output_dir "pca_plot.png";
   joinpath output_dir "missingness_plots.png"].

Definition banner : list string :=
  [generate_plots.rule; "GWAS Visualization and Reporting";
   generate_plots.rule].

Definition farewell (output_dir : string) : list string :=
  [""; generate_plots.rule; "Visualization complete!";
   "All plots saved to: " ++ path_str output_dir; generate_plots.rule].

(** The figure of the Q-Q routine. *)
Definition qq_figure (title : string) (expected observed : list float)
           (max_val lambda_gc : float) : list artist :=
  [Scatter 0 (map Num expected) (map Num observed) None;
   Plot [F64.zero; max_val] [F64.zero; max_val] "r--" "Expected";
   Xlabel 0 "Expected -log10(P-value)";
   Ylabel 0 "Observed -log10(P-value)";
   Title 0 (title ++ py.newline ++ "λ = " ++ format_3f lambda_gc);
   Legend 0 "upper left";
   Grid 0;
   TightLayout].

End RunVocabulary.

(** *** The Manhattan routine, step by step *)

Section ManhattanVocabulary.

Context `{NumPy}.
Variable str_key : cell -> string.

(** The header at line 31 and the frame at line 37. *)
Definition header31 (df : DataFrame) : list string :=
  if pd.has_column df "MINLOG10P" then columns df
  else (columns df ++ ["MINLOG10P"])%list.

Definition sorted_rows (j : nat) (df : DataFrame) : list Row :=
  pd2.stable_sort
    (pd2.leb_of (pd2.row_compare [loc_of (header31 df) "CHR";
                                  loc_of (header31 df) "BP"]))
    (plotted j df).

Definition frame37 (j : nat) (df : DataFrame) : DataFrame :=
  pd.setitem (mkDataFrame (header31 df) (sorted_rows j df)) "IND"
             (pd2.range (List.length (sorted_rows j df))).

Definition ind_loc (df : DataFrame) : nat :=
  match pd.get_loc (header31 df) "IND" with
  | Some k => k
  | None => List.length (header31 df)
  end.

(** What the loop of lines 48 to 52 draws for one group, and the tick it
    computes. *)
Definition group_scatter (jI jM num : nat) (g : DataFrame) : artist :=
  Scatter 0 (map (pd.field jI) (rows g)) (map (pd.field jM) (rows g))
          (Some (nth (Nat.modulo num (List.length generate_plots.colors))
                     generate_plots.colors "")).

Fixpoint scatters (jI jM num : nat) (groups : list (cell * DataFrame))
  : list artist :=
  match groups with
  | [] => []
  | (_, g) :: groups' =>
      group_scatter jI jM num g :: scatters jI jM (S num) groups'
  end.

Definition group_tick (jI : nat) (g : DataFrame) : float :=
  F64.div (py.add (pvalue jI (hd [] (rows g)))
                  (pvalue jI (hd [] (rev (rows g)))))
          (F64.of_Z 2).

(** A group the loop can handle: it has the columns of the frame, a row,
    and numbers in [IND]. *)
Definition well_formed (cols : list string) (jI : nat)
           (kg : cell * DataFrame) : Prop :=
  columns (snd kg) = cols /\ rows (snd kg) <> [] /\
  Forall (fun r => is_num (pd.field jI r) = true) (rows (snd kg)).

(** The groups of line 38, the figure that is saved and the frame that
    [nsmallest] returns. *)
Definition groups37 (j : nat) (df : DataFrame) : list (cell * DataFrame) :=
  match pd2.groupby (frame37 j df) "CHR" with
  | inr groups => groups
  | inl _ => []
  end.

Definition manhattan_figure (title : string) (j : nat) (df : DataFrame)
  : list artist :=
  (scatters (ind_loc df) (minlog_loc df) 0 (groups37 j df)
   ++ [Axhline (F64.neg (log10 gw_threshold)) "red" "p=5e-8";
       Axhline (F64.neg (log10 suggestive_threshold)) "blue" "p=1e-5";
       Xlabel 0 "Chromosome";
       Ylabel 0 "-log10(P-value)";
       Title 0 title;
       Xticks (map (fun kg => group_tick (ind_loc df) (snd kg))
                   (groups37 j df));
       Xticklabels (map (fun kg => str_key (fst kg)) (groups37 j df));
       Legend 0 "upper right";
       Grid 0;
       TightLayout])%list.

Definition smallest (j : nat) (df : DataFrame) : DataFrame :=
  pd.head (pd.take (frame37 j df)
             (Insertion.argsort_floats Reference.stable
                (map (pvalue j) (rows (frame37 j df)))))
          10.

(** The keys of the groups, in the order of the groups. *)
Definition chromosomes (j jC : nat) (df : DataFrame) : list cell :=
  pd2.unique
    (pd2.stable_sort (pd2.leb_of pd2.cell_compare)
       (filter pd.notna_cell (map (pd.field jC) (rows (frame37 j df))))).

End ManhattanVocabulary.

(** *** The layout of a figure *)

(** The x co-ordinates of the scatters and the positions of the ticks of
    a figure. *)
Fixpoint scatter_xs (fig : list artist) : list (list cell) :=
  match fig with
  | [] => []
  | Scatter _ x _ _ :: fig' => x :: scatter_xs fig'
  | _ :: fig' => scatter_xs fig'
  end.

Fixpoint xticks (fig : list artist) : list (list float) :=
  match fig with
  | [] => []
  | Xticks positions :: fig' => positions :: xticks fig'
  | _ :: fig' => xticks fig'
  end.

(** The indices [a], ..., [a + n - 1] and the middle of the first and the
    last of them. *)
Definition band (a n : nat) : list cell :=
  map (fun i => Num (F64.of_nat i)) (seq a n).

Definition centre (a n : nat) : float :=
  F64.div (py.add (F64.of_nat a) (F64.of_nat (a + n - 1))) (F64.of_Z 2).

(** Where the records of key [k] start in a list sorted by column [jC],
    and how many they are. *)
Definition band_start (jC : nat) (k : cell) (l : list Row) : nat :=
  List.length
    (filter (fun r => match pd2.cell_compare (pd.field jC r) k with
                      | Lt => true
                      | _ => false
                      end) l).

Definition band_size (jC : nat) (k : cell) (l : list Row) : nat :=
  List.length (filter (fun r => pd2.cell_eqb (pd.field jC r) k) l).

(** Rows numbered from [a] in column [jI]. *)
Definition number (jI a : nat) (l : list Row) : list Row :=
  map (fun ir => pd.set_nth jI (Num (F64.of_nat (fst ir))) (snd ir))
      (combine (seq a (List.length l)) l).

Definition chr_cmp (jC : nat) (r s : Row) : comparison :=
  pd2.cell_compare (pd.field jC r) (pd.field jC s).

Section BandVocabulary.

Context `{NumPy}.

Definition bands_of (j jC : nat) (df : DataFrame) : list (nat * nat) :=
  map (fun k => (band_start jC k (sorted_rows j df),
                 band_size jC k (sorted_rows j df)))
      (chromosomes j jC df).

End BandVocabulary.

(** *** Orders given by a comparison *)

Section ComparisonVocabulary.

Variable A : Type.
Variable cmp : A -> A -> comparison.

Definition cmp_le (a b : A) : Prop := cmp a b <> Gt.

Definition cmp_is_lt (k a : A) : bool :=
  match cmp a k with Lt => true | _ => false end.
Definition cmp_is_eq (k a : A) : bool :=
  match cmp a k with Eq => true | _ => false end.
Definition cmp_is_gt (k a : A) : bool :=
  match cmp a k with Gt => true | _ => false end.

End ComparisonVocabulary.

(** ** An environment for examples of the plot script *)

Module PlotTables.

Import Tables.

(** [CHR] and [BP] but no [SNP]. *)
Definition no_snp : DataFrame :=
  mkDataFrame ["CHR"; "BP"; "P"]
    [[int 2; int 50; Num (F64.dec 2 6)];
     [int 1; int 300; Num (F64.dec 4 9)];
     [int 1; int 100; Num (F64.dec 5 1)]].

(** An eigenvector table: two identifiers and three components. *)
Definition eigenvec : DataFrame :=
  mkDataFrame ["FID"; "IID"; "PC1"; "PC2"; "PC3"]
    [[Str "f1"; Str "i1"; Num (F64.dec 1 1); Num (F64.dec 2 1);
      Num (F64.dec 3 1)];
     [Str "f2"; Str "i2"; Num (F64.dec 4 1); Num (F64.dec 5 1);
      Num (F64.dec 6 1)]].

(** No record has a p-value. *)
Definition all_missing : DataFrame :=
  mkDataFrame plink_header
    [plink_row 1 "rs1" 100 F64.nan; plink_row 2 "rs2" 200 F64.nan].

Definition with_qc : string := "assoc/AA_GWAS_hg19_uniq_assoc_withQC.assoc".

Definition standard : string := "assoc/AA_GWAS_hg19_uniq_assoc.assoc".

(** What is on the disk: the tables of [Tables.disk], the table without
    [CHR] as the with-QC results, the table of five records as the standard
    results, and three more. *)
Definition shelf (path : string) : exn + DataFrame :=
  if String.eqb path with_qc then inr no_chr
  else if String.eqb path standard then inr five_rows
  else if String.eqb path "nosnp.assoc" then inr no_snp
  else if String.eqb path "pca.eigenvec" then inr eigenvec
  else if String.eqb path "missing.assoc" then inr all_missing
  else disk path.

Definition only_with_qc (path : string) : bool := String.eqb path with_qc.

Definition only_standard (path : string) : bool := String.eqb path standard.

Definition nothing (path : string) : bool := false.

Definition joinpath (a b : string) : string := a ++ "/" ++ b.

Definition path_str (p : string) : string := p.

Definition mkdir (p : string) : error + unit := inr tt.

(** Stand-ins for the formatting of a number, of a group key and of an
    exception. *)
Definition format_3f (x : float) : string :=
  if F64.isnan x then "nan" else "1.000".

Definition str_key (c : cell) : string :=
  match c with
  | Str s => s
  | Num x => if F64.isnan x then "nan" else "chr"
  end.

Definition str_error (e : error) : string :=
  match e with
  | Std e => str_exn e
  | ValueError => "zero-size array to reduction operation"
  | OSError msg => msg
  end.

Definition empty : studio := mkStudio start [] [].

End PlotTables.

(** ** Facts about binary64 comparisons *)

Ltac unfold_cmp :=
  unfold F64.gtb, F64.ltb, F64.leb, SFltb, SFleb, SFcompare in *;
  repeat change (Pos.compare_cont Eq ?a ?b) with (Pos.compare a b) in *.

Ltac solve_cmp :=
  repeat match goal with
    | |- context [Z.compare ?a ?b] => destruct (Z.compare_spec a b)
    | H : context [Z.compare ?a ?b] |- _ => destruct (Z.compare_spec a b)
    | |- context [Pos.compare ?a ?b] => destruct (Pos.compare_spec a b)
    | H : context [Pos.compare ?a ?b] |- _ => destruct (Pos.compare_spec a b)
    end;
  simpl in *; try discriminate; try reflexivity; try lia.

Lemma ltb_trans (x y z : float) :
  F64.ltb x y = true -> F64.ltb y z = true -> F64.ltb x z = true.
Proof.
  unfold_cmp.
  destruct x as [[]|[]| |[] m1 e1], y as [[]|[]| |[] m2 e2],
           z as [[]|[]| |[] m3 e3];
    simpl; try discriminate; try reflexivity; intros; solve_cmp.
Qed.

Lemma ltb_leb_trans (x y z : float) :
  F64.ltb x y = true -> F64.leb y z = true -> F64.ltb x z = true.
Proof.
  unfold_cmp.
  destruct x as [[]|[]| |[] m1 e1], y as [[]|[]| |[] m2 e2],
           z as [[]|[]| |[] m3 e3];
    simpl; try discriminate; try reflexivity; intros; solve_cmp.
Qed.

Lemma leb_refl (x : float) : F64.isnan x = false -> F64.leb x x = true.
Proof.
  unfold_cmp.
  destruct x as [[]|[]| |[] m e]; simpl; try discriminate; try reflexivity;
    intros _; rewrite Z.compare_refl, Pos.compare_refl; reflexivity.
Qed.

Lemma leb_total (x y : float) :
  F64.isnan x = false -> F64.isnan y = false ->
  F64.leb x y = false -> F64.leb y x = true.
Proof.
  unfold_cmp.
  destruct x as [[]|[]| |[] m1 e1], y as [[]|[]| |[] m2 e2];
    simpl; try discriminate; try reflexivity; intros; solve_cmp.
Qed.

Lemma key_leb_total (x y : float) :
  F64.key_leb x y = false -> F64.key_leb y x = true.
Proof.
  unfold F64.key_leb.
  destruct (F64.isnan y) eqn:Hy; [discriminate|].
  destruct (F64.isnan x) eqn:Hx; [reflexivity|].
  simpl. intros Hxy. now apply leb_total.
Qed.

(** ** Reordering a list by an indexer *)

Lemma map_nth_seq {A} (l : list A) (d : A) :
  map (fun i => nth i l d) (seq 0 (List.length l)) = l.
Proof.
  induction l as [|a l IH]; [reflexivity|].
  simpl. f_equal.
  rewrite <- seq_shift, map_map. exact IH.
Qed.

Lemma take_perm {A} (l : list A) (d : A) (ix : list nat) :
  Permutation ix (seq 0 (List.length l)) ->
  Permutation (map (fun i => nth i l d) ix) l.
Proof.
  intros Hp.
  transitivity (map (fun i => nth i l d) (seq 0 (List.length l))).
  - now apply Permutation_map.
  - now rewrite map_nth_seq.
Qed.

Module InsertionFacts.

Section Sorting.

Variable before : float -> float -> bool.
Hypothesis before_le : forall x y, before x y = true -> key_le x y.
Hypothesis not_before_le : forall x y, before x y = false -> key_le y x.

Local Notation insert := (Insertion.insert before).
Local Notation isort := (Insertion.isort before).
Local Notation enumerate := Insertion.enumerate.
Local Notation argsort_floats := (Insertion.argsort_floats before).
Local Notation pair_le := Insertion.pair_le.

Lemma insert_perm p l : Permutation (insert p l) (p :: l).
Proof.
  induction l as [|q l IH]; simpl; [reflexivity|].
  destruct (before (snd p) (snd q)); [reflexivity|].
  rewrite IH. apply perm_swap.
Qed.

Lemma isort_perm l : Permutation (isort l) l.
Proof.
  induction l as [|p l IH]; simpl; [constructor|].
  rewrite insert_perm. now constructor.
Qed.

Lemma insert_sorted p l : Sorted pair_le l -> Sorted pair_le (insert p l).
Proof.
  induction 1 as [|q l Hs IH Hd]; simpl.
  - repeat constructor.
  - destruct (before (snd p) (snd q)) eqn:Hb.
    + constructor; [now constructor|].
      constructor. now apply before_le.
    + constructor; [exact IH|].
      destruct Hd as [|r l Hqr]; simpl.
      * constructor. now apply not_before_le.
      * destruct (before (snd p) (snd r)); constructor;
          [now apply not_before_le | exact Hqr].
Qed.

Lemma isort_sorted l : Sorted pair_le (isort l).
Proof.
  induction l as [|p l IH]; simpl; [constructor|].
  now apply insert_sorted.
Qed.

Lemma Sorted_map_snd l :
  Sorted pair_le l -> Sorted key_le (map snd l).
Proof.
  induction 1 as [|q l Hs IH Hd]; simpl; constructor; [exact IH|].
  destruct Hd; simpl; constructor; assumption.
Qed.

Lemma enumerate_nth_from (xs : list float) (k : nat) :
  Forall (fun p => nth (fst p - k) xs F64.nan = snd p /\ k <= fst p)
         (combine (seq k (List.length xs)) xs).
Proof.
  revert k. induction xs as [|x xs IH]; intros k; simpl; constructor.
  - simpl. rewrite Nat.sub_diag. split; [reflexivity|lia].
  - specialize (IH (S k)).
    eapply Forall_impl; [|exact IH].
    intros [i v] [Hn Hk]; simpl in *. split; [|lia].
    replace (i - k) with (S (i - S k)) by lia. exact Hn.
Qed.

Lemma enumerate_nth (xs : list float) :
  Forall (fun p => nth (fst p) xs F64.nan = snd p) (enumerate xs).
Proof.
  eapply Forall_impl; [|apply (enumerate_nth_from xs 0)].
  intros [i v] [Hn _]; simpl in *. now rewrite Nat.sub_0_r in Hn.
Qed.

Lemma fst_enumerate (xs : list float) :
  map fst (enumerate xs) = seq 0 (List.length xs).
Proof.
  unfold enumerate. generalize 0.
  induction xs as [|x xs IH]; intros k; simpl; [reflexivity|].
  now rewrite IH.
Qed.

Lemma argsort_floats_perm xs :
  Permutation (argsort_floats xs) (seq 0 (List.length xs)).
Proof.
  unfold argsort_floats. rewrite <- fst_enumerate.
  apply Permutation_map, isort_perm.
Qed.

Lemma argsort_floats_keys xs :
  map (fun i => nth i xs F64.nan) (argsort_floats xs)
  = map snd (isort (enumerate xs)).
Proof.
  unfold argsort_floats. rewrite map_map.
  apply map_ext_in. intros p Hp.
  assert (Hall : Forall (fun p => nth (fst p) xs F64.nan = snd p)
                        (isort (enumerate xs))).
  { eapply Permutation_Forall;
      [apply Permutation_sym, isort_perm | apply enumerate_nth]. }
  rewrite Forall_forall in Hall. now apply Hall.
Qed.

Lemma argsort_floats_sorted xs :
  Sorted key_le (map (fun i => nth i xs F64.nan) (argsort_floats xs)).
Proof.
  rewrite argsort_floats_keys. apply Sorted_map_snd, isort_sorted.
Qed.

End Sorting.

End InsertionFacts.

Module Conformance.

Lemma numeric_map_Num (xs : list float) :
  pd.traverse Reference.numeric_cell (map Num xs) = inr xs.
Proof.
  induction xs as [|x xs IH]; simpl; [reflexivity|].
  now rewrite IH.
Qed.

Lemma stable_le x y : Reference.stable x y = true -> key_le x y.
Proof. trivial. Qed.

Lemma not_stable_le x y : Reference.stable x y = false -> key_le y x.
Proof. apply key_leb_total. Qed.

Lemma reversing_le x y : Reference.reversing x y = true -> key_le x y.
Proof.
  unfold Reference.reversing. intros Hr. apply key_leb_total.
  now apply negb_true_iff.
Qed.

Lemma not_reversing_le x y : Reference.reversing x y = false -> key_le y x.
Proof. unfold Reference.reversing. intros Hr. now apply negb_false_iff. Qed.

Section WithOrder.

Variable before : float -> float -> bool.
Hypothesis before_le : forall x y, before x y = true -> key_le x y.
Hypothesis not_before_le : forall x y, before x y = false -> key_le y x.

Local Notation argsort := (Reference.argsort before).
Local Notation sort := (Reference.sort before).
Local Notation percentile := (Reference.percentile before).
Local Notation median := (Reference.median before).
Local Notation log10 := Reference.log10.
Local Notation randn := Reference.randn.

Lemma argsort_ok xs :
  exists ix,
    argsort (map Num xs) = inr ix /\
    Permutation ix (seq 0 (List.length xs)) /\
    Sorted key_le (map (fun i => nth i xs F64.nan) ix).
Proof.
  exists (Insertion.argsort_floats before xs).
  unfold argsort. rewrite numeric_map_Num.
  split; [reflexivity|]. split.
  - apply InsertionFacts.argsort_floats_perm.
  - now apply InsertionFacts.argsort_floats_sorted.
Qed.

Lemma sort_is_perm xs : Permutation (sort xs) xs.
Proof. apply take_perm, InsertionFacts.argsort_floats_perm. Qed.

Lemma sort_is_sorted xs : Sorted key_le (sort xs).
Proof. now apply InsertionFacts.argsort_floats_sorted. Qed.

Lemma percentile_is_defined xs q :
  xs <> [] -> exists v, percentile xs q = inr v.
Proof. destruct xs; [congruence|]. intros _. eexists. reflexivity. Qed.

Lemma percentile_in xs q v : percentile xs q = inr v -> In v xs.
Proof.
  destruct xs as [|x0 xs]; [discriminate|].
  unfold percentile. intros [= <-].
  set (k := Z.to_nat _).
  destruct (Nat.lt_ge_cases k (List.length (sort (x0 :: xs)))) as [Hk|Hk].
  - eapply Permutation_in; [apply sort_is_perm|]. now apply nth_In.
  - rewrite nth_overflow by exact Hk. now left.
Qed.

Lemma percentile_is_between xs q v :
  percentile xs q = inr v ->
  forallb F64.isfinite xs = true ->
  exists a b, In a xs /\ In b xs /\
              F64.leb a v = true /\ F64.leb v b = true.
Proof.
  intros Hv Hfin. pose proof (percentile_in _ _ _ Hv) as Hin.
  rewrite forallb_forall in Hfin. specialize (Hfin _ Hin).
  assert (Hn : F64.isnan v = false) by (destruct v; trivial; discriminate).
  exists v, v. repeat split; trivial; now apply leb_refl.
Qed.

Lemma log10_nan_iff x :
  F64.isnan (log10 x) = F64.isnan x || F64.ltb x F64.zero.
Proof.
  destruct x as [s|[]| |[] m e]; try reflexivity.
  simpl. destruct (F64.of_Z _); reflexivity.
Qed.

Lemma log10_at_zero s : log10 (S754_zero s) = F64.ninf.
Proof. reflexivity. Qed.

Lemma randn_has_length n : List.length (randn n) = n.
Proof. apply repeat_length. Qed.

Definition numpy : NumPy :=
  Build_NumPy log10 log10_nan_iff log10_at_zero
              argsort argsort_ok
              sort sort_is_perm sort_is_sorted
              percentile percentile_is_defined percentile_is_between
              median randn randn_has_length.

End WithOrder.

Definition stable_numpy : NumPy :=
  numpy Reference.stable stable_le not_stable_le.

Definition reversing_numpy : NumPy :=
  numpy Reference.reversing reversing_le not_reversing_le.

End Conformance.

(** ** Facts about the pandas operations *)

Lemma select_map {A} (f : A -> bool) (l : list A) :
  pd.select l (map f l) = filter f l.
Proof.
  induction l as [|a l IH]; simpl; [reflexivity|].
  rewrite IH. reflexivity.
Qed.

Lemma select_map_map {A B} (g : A -> B) (f : B -> bool) (l : list A) :
  pd.select l (map f (map g l)) = filter (fun a => f (g a)) l.
Proof. rewrite map_map. apply select_map. Qed.

Lemma get_loc_has names c :
  existsb (String.eqb c) names = true -> exists j, pd.get_loc names c = Some j.
Proof.
  induction names as [|d names IH]; simpl; [discriminate|].
  destruct (String.eqb c d); [eauto|].
  simpl. intros Hex. destruct (IH Hex) as [j ->]. simpl. eauto.
Qed.

Lemma get_loc_none names c :
  existsb (String.eqb c) names = false -> pd.get_loc names c = None.
Proof.
  induction names as [|d names IH]; simpl; [reflexivity|].
  destruct (String.eqb c d); [discriminate|].
  simpl. intros Hex. now rewrite IH.
Qed.

Lemma p_loc_col df j :
  p_loc df = Some j ->
  exists c, p_col_of df = inr c /\ pd.get_loc (columns df) c = Some j.
Proof.
  unfold p_loc. destruct (p_col_of df) as [e|c]; [discriminate|]. eauto.
Qed.

Lemma traverse_map_inr {A B} (f : A -> exn + B) (g : A -> B) (l : list A) :
  (forall a, In a l -> f a = inr (g a)) -> pd.traverse f l = inr (map g l).
Proof.
  induction l as [|a l IH]; intros Hf; simpl; [reflexivity|].
  rewrite (Hf a) by now left.
  rewrite IH by (intros; apply Hf; now right). reflexivity.
Qed.

Lemma float64_field j df r :
  float64_column j df = true -> In r (rows df) ->
  pd.field j r = Num (pvalue j r).
Proof.
  unfold float64_column, pvalue. rewrite forallb_forall. intros Hall Hin.
  specialize (Hall r Hin). destruct (pd.field j r); [reflexivity|discriminate].
Qed.

Lemma cleaned_incl j df r : In r (cleaned j df) -> In r (rows df).
Proof. unfold cleaned. rewrite filter_In. tauto. Qed.

Lemma column_floats j df (rs : list Row) :
  float64_column j df = true -> incl rs (rows df) ->
  map (pd.field j) rs = map Num (map (pvalue j) rs).
Proof.
  intros Hf Hincl. rewrite map_map. apply map_ext_in.
  intros r Hr. eapply float64_field; eauto.
Qed.

Lemma lt_column j df (rs : list Row) (x : float) :
  float64_column j df = true -> incl rs (rows df) ->
  pd.lt (map (pd.field j) rs) x = inr (map (fun r => F64.ltb (pvalue j r) x) rs).
Proof.
  intros Hf Hincl. unfold pd.lt.
  rewrite (traverse_map_inr _ (fun c => F64.ltb (match c with Num v => v | Str _ => F64.nan end) x)).
  - rewrite map_map. reflexivity.
  - intros c Hc. apply in_map_iff in Hc as [r [<- Hr]].
    rewrite (float64_field j df r) by auto. reflexivity.
Qed.

Lemma gt_column j df (rs : list Row) (x : float) :
  float64_column j df = true -> incl rs (rows df) ->
  pd.gt (map (pd.field j) rs) x = inr (map (fun r => F64.gtb (pvalue j r) x) rs).
Proof.
  intros Hf Hincl. unfold pd.gt.
  rewrite (traverse_map_inr _ (fun c => F64.gtb (match c with Num v => v | Str _ => F64.nan end) x)).
  - rewrite map_map. reflexivity.
  - intros c Hc. apply in_map_iff in Hc as [r [<- Hr]].
    rewrite (float64_field j df r) by auto. reflexivity.
Qed.

(** ** Running the monad *)

Lemma bind_print {A} line (k : unit -> M A) w :
  bind (print line) k w = k tt (mkWorld (stdout w ++ [line])%list (files w)).
Proof. reflexivity. Qed.

Lemma bind_ret {A B} (a : A) (k : A -> M B) w : bind (ret a) k w = k a w.
Proof. reflexivity. Qed.

Lemma bind_lift_inr {A B} (a : A) (k : A -> M B) w :
  bind (lift (inr a)) k w = k a w.
Proof. reflexivity. Qed.

Lemma bind_lift_inl {A B} (e : exn) (k : A -> M B) w :
  bind (lift (inl e)) k w = (inl e, w).
Proof. reflexivity. Qed.

Lemma bind_to_csv {A} df path (k : unit -> M A) w :
  bind (pd.to_csv df path) k w
  = k tt (mkWorld (stdout w) (files w ++ [(path, df)])%list).
Proof. reflexivity. Qed.

Lemma bind_run {A B} (m : M A) (k : A -> M B) w a w' :
  m w = (inr a, w') -> bind m k w = k a w'.
Proof. unfold bind. now intros ->. Qed.

Ltac step :=
  first [ rewrite bind_print | rewrite bind_ret | rewrite bind_lift_inr
        | rewrite bind_lift_inl | rewrite bind_to_csv ];
  cbv beta iota zeta; cbn [stdout files].


(** ** The extractor, statement by statement *)

Section Runs.

Context `{NumPy}.
Variable read_table : string -> exn + DataFrame.

Lemma p_col_fold df :
  (if pd.has_column df "P" then ret "P"
   else lift (pd.columns_getitem df 8)) = lift (p_col_of df).
Proof. unfold p_col_of. destruct (pd.has_column df "P"); reflexivity. Qed.

Lemma pvalue_nth j (rs : list Row) i :
  pvalue j (nth i rs []) = nth i (map (pvalue j) rs) F64.nan.
Proof.
  assert (Hnil : pvalue j [] = F64.nan) by (destruct j; reflexivity).
  rewrite <- Hnil. symmetry. apply (map_nth (pvalue j)).
Qed.

Lemma sort_values_ok df pc j :
  pd.get_loc (columns df) pc = Some j ->
  float64_column j df = true ->
  exists ix,
    Permutation ix (seq 0 (len df)) /\
    Sorted key_le (map (pvalue j) (rows (pd.take df ix))) /\
    forall w, sort_values df pc w = (inr (pd.take df ix), w).
Proof.
  intros Hloc Hnum.
  destruct (argsort_numeric (map (pvalue j) (rows df))) as (ix & Hix & Hperm & Hsorted).
  exists ix. rewrite length_map in Hperm. split; [exact Hperm|]. split.
  - simpl. rewrite map_map.
    erewrite map_ext; [exact Hsorted|].
    intros i. simpl. apply pvalue_nth.
  - intros w. unfold sort_values, bind, lift, ret, pd.getitem. rewrite Hloc.
    rewrite (column_floats j df) by (auto using incl_refl).
    rewrite Hix. reflexivity.
Qed.

Lemma try_read_ok input df w :
  read_table input = inr df ->
  try_except (df <- read_csv read_table input ;; ret (Some df))
             (fun e => print ("Error reading file: " ++ str_exn e) ;;
                       ret None) w
  = (inr (Some df), w).
Proof. unfold try_except, bind, read_csv, lift. now intros ->. Qed.

Lemma has_column_loc df c j :
  pd.get_loc (columns df) c = Some j -> pd.has_column df c = true.
Proof.
  unfold pd.has_column. intros Hloc.
  destruct (existsb (String.eqb c) (columns df)) eqn:Hex; [reflexivity|].
  apply get_loc_none in Hex. congruence.
Qed.

Lemma getitem_list_summary df j pc (rs : list Row) :
  pd.get_loc (columns df) pc = Some j ->
  pd.getitem_list (mkDataFrame (columns df) rs)
                  ["CHR"; "SNP"; "BP"; "A1"; pc]
  = match filter (fun c => negb (pd.has_column df c)) required with
    | [] => inr (mkDataFrame ["CHR"; "SNP"; "BP"; "A1"; pc]
                   (map (summary_row df j) rs))
    | missing => inl (KeyError missing)
    end.
Proof.
  intros Hget. unfold pd.getitem_list.
  change ["CHR"; "SNP"; "BP"; "A1"; pc] with (required ++ [pc])%list at 1.
  rewrite filter_app.
  change (pd.has_column (mkDataFrame (columns df) rs))
    with (pd.has_column df).
  cbn [filter]. rewrite (has_column_loc df pc j Hget). cbn [negb].
  rewrite app_nil_r.
  destruct (filter _ required); [|reflexivity].
  cbn [map columns rows]. rewrite Hget. reflexivity.
Qed.

Lemma extract_run input out n w df j :
  read_table input = inr df ->
  p_loc df = Some j ->
  float64_column j df = true ->
  exists srt,
    Permutation srt (cleaned j df) /\
    Sorted key_le (map (pvalue j) srt) /\
    extract_top_snps read_table input out n w =
    let w4 := mkWorld (stdout w ++ progress_lines input out df j)%list
                      (files w ++ first_four out n df j srt)%list in
    match filter (fun c => negb (pd.has_column df c)) required with
    | [] =>
        (inr (Some (List.length (below j gw_threshold (cleaned j df)),
                    List.length
                      (below j suggestive_threshold (cleaned j df)))),
         mkWorld (stdout w4 ++ final_lines out)%list
                 (files w4 ++
                    [(out_summary out,
                      mkDataFrame summary_header
                        (map (summary_row df j) (cleaned j df)))])%list)
    | missing => (inl (KeyError missing), w4)
    end.
Proof.
  intros Hread Hloc Hnum.
  destruct (p_loc_col _ _ Hloc) as (pc & Hpc & Hget).
  set (dfc := mkDataFrame (columns df) (cleaned j df)).
  assert (Hnumc : float64_column j dfc = true).
  { unfold float64_column in *. rewrite forallb_forall in *.
    intros r Hr. apply Hnum. now apply cleaned_incl in Hr. }
  assert (Hclean : pd.getitem_mask df (pd.notna (map (pd.field j) (rows df)))
                   = dfc).
  { unfold pd.getitem_mask, pd.notna. now rewrite select_map_map. }
  assert (Hcol : pd.getitem dfc pc = inr (map (pd.field j) (rows dfc))).
  { unfold pd.getitem. simpl columns. now rewrite Hget. }
  destruct (sort_values_ok dfc pc j) as (ix & Hperm & Hsorted & Hsv);
    [exact Hget | exact Hnumc |].
  exists (rows (pd.take dfc ix)). split; [|split; [exact Hsorted|]].
  { simpl. apply take_perm. exact Hperm. }
  unfold extract_top_snps.
  step. erewrite bind_run by (apply try_read_ok; exact Hread). cbv beta iota.
  step. rewrite p_col_fold, Hpc. step.
  unfold pd.getitem at 1. rewrite Hget. step.
  rewrite !Hclean. step.
  erewrite bind_run by apply Hsv. cbv beta iota zeta.
  do 4 step.
  rewrite !Hcol. step.
  repeat first [ step
               | rewrite (lt_column j dfc) by (auto using incl_refl) ].
  unfold dfc at 1. rewrite (getitem_list_summary df j pc) by exact Hget.
  unfold pd.getitem_mask, len. cbn [rows columns].
  rewrite !select_map. fold (below j gw_threshold (cleaned j df)).
  fold (below j suggestive_threshold (cleaned j df)).
  destruct (filter _ required).
  - repeat step. unfold ret, progress_lines, final_lines, first_four.
    rewrite <- !app_assoc. reflexivity.
  - repeat step. unfold progress_lines, first_four.
    rewrite <- !app_assoc. reflexivity.
Qed.
End Runs.

(** ** The extractor: reading, column resolution, outputs *)

Section ExtractorClaims.

Context `{NumPy}.
Variable read_table : string -> exn + DataFrame.

Lemma try_read_fail input e w :
  read_table input = inl e ->
  is_Exception e = true ->
  try_except (df <- read_csv read_table input ;; ret (Some df))
             (fun e => print ("Error reading file: " ++ str_exn e) ;;
                       ret None) w
  = (inr None, printed w ["Error reading file: " ++ str_exn e]).
Proof.
  intros Hread Hexc. unfold try_except, bind, read_csv, lift.
  rewrite Hread, Hexc. reflexivity.
Qed.

(** C6.  When [read_csv] raises, the extractor prints the cause after the
    opening line, writes no file and returns [None] at once; the
    [__main__] block, which unpacks the result into two counts, then
    stops with an uncaught [TypeError] instead of printing a summary. *)
Theorem read_failure_aborts input out n_top w e :
  read_table input = inl e ->
  is_Exception e = true ->
  let w' := printed w ["Reading association file: " ++ input;
                        "Error reading file: " ++ str_exn e] in
  extract_top_snps read_table input out n_top w = (inr None, w') /\
  forall prog rest,
    main read_table (prog :: input :: out :: rest) w = (inl TypeError, w').
Proof.
  intros Hread Hexc w'.
  assert (Hrun : forall n, extract_top_snps read_table input out n w
                           = (inr None, w')).
  { intros n. unfold extract_top_snps. step.
    erewrite bind_run by (apply try_read_fail; eassumption).
    cbv beta iota. unfold ret, w', printed. cbn [stdout files].
    rewrite <- app_assoc. reflexivity. }
  split; [apply Hrun|].
  intros prog rest. unfold main. cbn [List.length Nat.ltb Nat.leb nth].
  erewrite bind_run by apply Hrun. reflexivity.
Qed.

(** C9.  A table without a column named [P] and with fewer than nine
    columns makes [df.columns[8]] raise [IndexError] in the extractor,
    in the Manhattan routine and in the Q-Q routine.  In the extractor
    the table has been read by then: the exception leaves the function
    uncaught, no "Error reading file" line is printed and no file is
    written. *)
Theorem short_table_index_error input out n_top w df :
  read_table input = inr df ->
  pd.has_column df "P" = false ->
  List.length (columns df) < 9 ->
  extract_top_snps read_table input out n_top w
  = (inl IndexError,
     printed w ["Reading association file: " ++ input;
                "Total SNPs in file: " ++ str_nat (len df)]) /\
  manhattan_data read_table input w
  = (inl IndexError,
     printed w ["Creating Manhattan plot from " ++ input]) /\
  qq_data_of read_table input w
  = (inl IndexError, printed w ["Creating Q-Q plot from " ++ input]).
Proof.
  intros Hread HP Hlen.
  assert (Hcol : p_col_of df = inl IndexError).
  { unfold p_col_of, pd.columns_getitem. rewrite HP.
    assert (Hnone : nth_error (columns df) 8 = None)
      by (apply nth_error_None; lia).
    now rewrite Hnone. }
  repeat split.
  - unfold extract_top_snps. step.
    erewrite bind_run by (apply try_read_ok; exact Hread). cbv beta iota.
    step. rewrite p_col_fold, Hcol. step.
    unfold printed. rewrite <- app_assoc. reflexivity.
  - unfold manhattan_data, read_csv. step. rewrite Hread. step.
    rewrite p_col_fold, Hcol. step. reflexivity.
  - unfold qq_data_of, read_csv. step. rewrite Hread. step.
    rewrite p_col_fold, Hcol. step. reflexivity.
Qed.

Lemma filter_missing_nil df :
  forallb (pd.has_column df) required = true ->
  filter (fun c => negb (pd.has_column df c)) required = [].
Proof.
  intros Hall. rewrite forallb_forall in Hall.
  induction required as [|c cs IH]; [reflexivity|].
  simpl. rewrite (Hall c) by now left. simpl.
  apply IH. intros x Hx. apply Hall. now right.
Qed.

Lemma filter_missing_cons df :
  existsb (fun c => negb (pd.has_column df c)) required = true ->
  filter (fun c => negb (pd.has_column df c)) required <> [].
Proof.
  intros Hex Hnil. apply existsb_exists in Hex as (c & Hc & Hmiss).
  assert (Hin : In c (filter (fun c => negb (pd.has_column df c)) required))
    by (apply filter_In; auto).
  rewrite Hnil in Hin. exact Hin.
Qed.

(** C8.  With the table read and the p-value column resolved, a missing
    [CHR], [SNP], [BP] or [A1] column makes the selection of line 62
    raise [KeyError], uncaught; by then the first four files have been
    written, and they stay. *)
Theorem missing_column_leaves_four_files input out n_top w df j :
  read_table input = inr df ->
  p_loc df = Some j ->
  float64_column j df = true ->
  existsb (fun c => negb (pd.has_column df c)) required = true ->
  exists missing srt,
    missing <> [] /\ incl missing required /\
    extract_top_snps read_table input out n_top w
    = (inl (KeyError missing),
       mkWorld (stdout w ++ progress_lines input out df j)%list
               (files w ++ first_four out n_top df j srt)%list) /\
    map fst (first_four out n_top df j srt)
    = [out_1000 out; out_100 out; out_gw out; out_sugg out].
Proof.
  intros Hread Hloc Hnum Hmiss.
  destruct (extract_run read_table input out n_top w df j Hread Hloc Hnum)
    as (srt & _ & _ & Hrun).
  apply filter_missing_cons in Hmiss.
  exists (filter (fun c => negb (pd.has_column df c)) required), srt.
  split; [exact Hmiss|]. split; [apply incl_filter|].
  split; [|reflexivity].
  rewrite Hrun. cbv zeta.
  destruct (filter _ required); [congruence|reflexivity].
Qed.

Lemma gw_below_suggestive :
  F64.ltb gw_threshold suggestive_threshold = true.
Proof. reflexivity. Qed.

(** C3.  When the run completes, every record of the genome-wide
    significant table (p < 5e-8, strict) is in the suggestive table
    (p < 1e-5, strict), and every record of either has its row in
    [summary_statistics.txt]. *)
Theorem significant_suggestive_summary input out n_top w df j :
  read_table input = inr df ->
  p_loc df = Some j ->
  float64_column j df = true ->
  forallb (pd.has_column df) required = true ->
  exists t1000 t100 gw sg sm,
    files (snd (extract_top_snps read_table input out n_top w))
    = (files w ++ [(out_1000 out, t1000); (out_100 out, t100);
                   (out_gw out, gw); (out_sugg out, sg);
                   (out_summary out, sm)])%list /\
    (forall r, In r (rows gw) <->
               In r (cleaned j df) /\
               F64.ltb (pvalue j r) gw_threshold = true) /\
    (forall r, In r (rows sg) <->
               In r (cleaned j df) /\
               F64.ltb (pvalue j r) suggestive_threshold = true) /\
    (forall r, In r (rows gw) -> In r (rows sg)) /\
    (forall r, In r (rows gw) \/ In r (rows sg) ->
               In (summary_row df j r) (rows sm)) /\
    columns sm = summary_header.
Proof.
  intros Hread Hloc Hnum Hall.
  destruct (extract_run read_table input out n_top w df j Hread Hloc Hnum)
    as (srt & _ & _ & Hrun).
  rewrite (filter_missing_nil df Hall) in Hrun. cbv zeta in Hrun.
  rewrite Hrun. cbn [snd files]. unfold first_four.
  rewrite <- app_assoc. cbn [app].
  do 5 eexists. split; [reflexivity|]. cbn [rows columns].
  assert (Hsub : forall r, In r (below j gw_threshold (cleaned j df)) ->
                           In r (below j suggestive_threshold (cleaned j df))).
  { intros r. unfold below. rewrite !filter_In. intros [Hin Hlt].
    split; [exact Hin|]. eapply ltb_trans; [exact Hlt|].
    exact gw_below_suggestive. }
  split; [intros r; unfold below; rewrite filter_In; tauto|].
  split; [intros r; unfold below; rewrite filter_In; tauto|].
  split; [exact Hsub|]. split; [|reflexivity].
  intros r [Hr|Hr]; apply in_map;
    [apply Hsub in Hr|]; unfold below in Hr; apply filter_In in Hr; tauto.
Qed.

Lemma files_first_four input out n_top w df j :
  read_table input = inr df ->
  p_loc df = Some j ->
  float64_column j df = true ->
  exists srt more,
    Permutation srt (cleaned j df) /\
    Sorted key_le (map (pvalue j) srt) /\
    files (snd (extract_top_snps read_table input out n_top w))
    = (files w ++ first_four out n_top df j srt ++ more)%list.
Proof.
  intros Hread Hloc Hnum.
  destruct (extract_run read_table input out n_top w df j Hread Hloc Hnum)
    as (srt & Hperm & Hsorted & Hrun).
  rewrite Hrun. cbv zeta.
  destruct (filter _ required); cbn [snd files].
  - exists srt. eexists. split; [exact Hperm|]. split; [exact Hsorted|].
    rewrite <- app_assoc. reflexivity.
  - exists srt, []. split; [exact Hperm|]. split; [exact Hsorted|].
    now rewrite app_nil_r.
Qed.

(** C4, as the code has it.  [top_1000_snps.txt] never has more rows than
    the cleaned table; it has at most [n_top] rows when [n_top] is not
    negative; and [top_100_snps.txt] is its first 100 rows when [n_top]
    is at least 100. *)
Theorem top_tables_prefix input out n_top w df j :
  read_table input = inr df ->
  p_loc df = Some j ->
  float64_column j df = true ->
  exists t1000 t100 more,
    files (snd (extract_top_snps read_table input out n_top w))
    = (files w ++ (out_1000 out, t1000) :: (out_100 out, t100) :: more)%list
    /\ len t1000 <= List.length (cleaned j df)
    /\ ((0 <= n_top)%Z -> (Z.of_nat (len t1000) <= n_top)%Z)
    /\ ((100 <= n_top)%Z -> rows t100 = firstn 100 (rows t1000)).
Proof.
  intros Hread Hloc Hnum.
  destruct (files_first_four input out n_top w df j Hread Hloc Hnum)
    as (srt & more & Hperm & _ & Hfiles).
  rewrite Hfiles. unfold first_four. cbn [app].
  do 3 eexists. split; [reflexivity|].
  unfold pd.head, len. cbn [rows].
  apply Permutation_length in Hperm. repeat split.
  - rewrite length_firstn. lia.
  - intros Hn. destruct (Z.leb_spec 0 n_top); [|lia].
    rewrite length_firstn. lia.
  - intros Hn. destruct (Z.leb_spec 0 n_top); [|lia].
    change (if (0 <=? 100)%Z then Z.to_nat 100 else _) with 100.
    rewrite firstn_firstn. f_equal. lia.
Qed.

Lemma firstn_min {A} (n : nat) (l : list A) :
  firstn (Nat.min n (List.length l)) l = firstn n l.
Proof.
  destruct (Nat.le_ge_cases n (List.length l)) as [Hle|Hge].
  - now rewrite Nat.min_l.
  - rewrite Nat.min_r by exact Hge.
    now rewrite firstn_all, firstn_all2.
Qed.

Lemma files_bind_print {A} (m : M (option A)) (k : A -> M unit) w :
  (forall a w1, files (snd (k a w1)) = files w1) ->
  files (snd (bind m (fun r => match r with
                               | None => raise TypeError
                               | Some a => k a
                               end) w))
  = files (snd (m w)).
Proof.
  intros Hk. unfold bind. destruct (m w) as [[e|[a|]] w1]; cbn [snd];
    [reflexivity| apply Hk | reflexivity].
Qed.

(** C7, as the code has it.  The command line never reaches [n_top]:
    whatever follows the two paths is ignored, the extractor runs with
    [n_top = 1000], and [top_1000_snps.txt] holds the first
    [min(1000, count)] records of the cleaned table sorted by p-value. *)
Theorem cli_top_count_is_1000 prog input out rest w df j :
  read_table input = inr df ->
  p_loc df = Some j ->
  float64_column j df = true ->
  exists srt t1000 more,
    Permutation srt (cleaned j df) /\
    Sorted key_le (map (pvalue j) srt) /\
    files (snd (main read_table (prog :: input :: out :: rest) w))
    = (files w ++ (out_1000 out, t1000) :: more)%list /\
    columns t1000 = columns df /\
    rows t1000
    = firstn (Nat.min 1000 (List.length (cleaned j df))) srt.
Proof.
  intros Hread Hloc Hnum.
  destruct (files_first_four input out 1000 w df j Hread Hloc Hnum)
    as (srt & more & Hperm & Hsorted & Hfiles).
  exists srt. do 2 eexists. split; [exact Hperm|]. split; [exact Hsorted|].
  unfold main. cbn [List.length Nat.ltb Nat.leb nth].
  replace (files (snd _))
    with (files (snd (extract_top_snps read_table input out 1000 w))).
  - rewrite Hfiles. unfold first_four. cbn [app].
    split; [reflexivity|]. split; [reflexivity|].
    unfold pd.head. cbn [rows].
    rewrite <- (Permutation_length Hperm).
    change (if (0 <=? 1000)%Z then Z.to_nat 1000 else _) with 1000.
    now rewrite firstn_min.
  - symmetry.
    apply (files_bind_print
             (extract_top_snps read_table input out 1000)
             (fun '(gw, sugg) =>
                print "" ;;
                print "=== Summary ===" ;;
                print ("Genome-wide significant: " ++ str_nat gw) ;;
                print ("Suggestive: " ++ str_nat sugg))).
    intros [gw sugg] w1. reflexivity.
Qed.

End ExtractorClaims.

(** ** The plot routines, statement by statement *)

Lemma select_map2 {A B} (h : A -> B) (f : A -> bool) (l : list A) :
  pd.select (map h l) (map f l) = map h (filter f l).
Proof.
  induction l as [|a l IH]; simpl; [reflexivity|].
  destruct (f a); simpl; now rewrite IH.
Qed.

Lemma combine_map_r {A B} (g : A -> B) (l : list A) :
  combine l (map g l) = map (fun a => (a, g a)) l.
Proof. induction l as [|a l IH]; simpl; [reflexivity|]. now rewrite IH. Qed.

Lemma get_loc_app_new names c :
  existsb (String.eqb c) names = false ->
  pd.get_loc (names ++ [c]) c = Some (List.length names).
Proof.
  induction names as [|d names IH]; simpl.
  - now rewrite String.eqb_refl.
  - destruct (String.eqb c d); [discriminate|].
    simpl. intros Hex. now rewrite IH.
Qed.

Lemma isnan_neg x : F64.isnan (F64.neg x) = F64.isnan x.
Proof. destruct x; reflexivity. Qed.

Section PlotClaims.

Context `{NumPy}.
Variable read_table : string -> exn + DataFrame.

Lemma field_set_nth k v r : pd.field k (pd.set_nth k v r) = v.
Proof.
  unfold pd.field. revert r.
  induction k as [|k IH]; intros [|c r]; simpl; auto.
Qed.

Lemma setitem_loc df name values :
  pd.get_loc (columns (pd.setitem df name values)) name
  = Some (match pd.get_loc (columns df) name with
          | Some k => k
          | None => List.length (columns df)
          end).
Proof.
  unfold pd.setitem, pd.has_column. cbn [columns].
  destruct (existsb (String.eqb name) (columns df)) eqn:Hex.
  - destruct (get_loc_has _ _ Hex) as [k ->]. reflexivity.
  - rewrite (get_loc_none _ _ Hex). now apply get_loc_app_new.
Qed.

Lemma manhattan_run input w df j :
  read_table input = inr df ->
  p_loc df = Some j ->
  float64_column j df = true ->
  manhattan_data read_table input w
  = (inr (mkDataFrame
            (if pd.has_column df "MINLOG10P" then columns df
             else (columns df ++ ["MINLOG10P"])%list)
            (plotted j df)),
     printed w ["Creating Manhattan plot from " ++ input]).
Proof.
  intros Hread Hloc Hnum.
  destruct (p_loc_col _ _ Hloc) as (pc & Hpc & Hget).
  set (dfc := mkDataFrame (columns df) (cleaned j df)).
  assert (Hnumc : float64_column j dfc = true).
  { unfold float64_column in *. rewrite forallb_forall in *.
    intros r Hr. apply Hnum. now apply cleaned_incl in Hr. }
  assert (Hclean : pd.getitem_mask df (pd.notna (map (pd.field j) (rows df)))
                   = dfc).
  { unfold pd.getitem_mask, pd.notna. now rewrite select_map_map. }
  assert (Hcol : pd.getitem dfc pc = inr (map (pd.field j) (rows dfc))).
  { unfold pd.getitem. simpl columns. now rewrite Hget. }
  assert (Hlog : pd.traverse np.neg_log10_cell (map (pd.field j) (rows dfc))
                 = inr (map (minlog10p j) (rows dfc))).
  { rewrite (traverse_map_inr _
               (fun c => match c with
                         | Num x => Num (F64.neg (log10 x))
                         | Str _ => c
                         end)).
    - rewrite map_map. f_equal. apply map_ext_in. intros r Hr.
      unfold minlog10p. now rewrite (float64_field j dfc r).
    - intros c Hc. apply in_map_iff in Hc as (r & <- & Hr).
      now rewrite (float64_field j dfc r). }
  unfold manhattan_data, read_csv. step. rewrite Hread. step.
  rewrite p_col_fold, Hpc. step.
  unfold pd.getitem at 1. rewrite Hget. step.
  rewrite !Hclean, !Hcol. step. rewrite !Hlog. step.
  set (df2 := pd.setitem dfc "MINLOG10P" (map (minlog10p j) (rows dfc))).
  assert (Hrows : rows df2
                  = map (fun r => pd.set_nth (minlog_loc df) (minlog10p j r) r)
                        (cleaned j df)).
  { unfold df2, pd.setitem. cbn [rows columns].
    rewrite combine_map_r, map_map. reflexivity. }
  assert (Hm : pd.getitem df2 "MINLOG10P"
               = inr (map (minlog10p j) (cleaned j df))).
  { unfold pd.getitem. unfold df2 at 1. rewrite setitem_loc.
    rewrite Hrows, map_map. f_equal. apply map_ext. intros r.
    apply field_set_nth. }
  rewrite Hm. step. unfold ret, printed, pd.getitem_mask, pd.notna, plotted.
  rewrite Hrows, (map_map (minlog10p j)), select_map2. reflexivity.
Qed.

(** Every plotted record comes from a record whose p-value is neither
    missing nor negative. *)
Lemma plotted_spec j df r' :
  In r' (plotted j df) ->
  exists r, In r (rows df) /\
            F64.isnan (pvalue j r) = false /\
            F64.ltb (pvalue j r) F64.zero = false /\
            r' = pd.set_nth (minlog_loc df) (minlog10p j r) r.
Proof.
  unfold plotted. rewrite in_map_iff. intros (r & <- & Hr).
  apply filter_In in Hr as [Hr Hkeep].
  exists r. split; [now apply cleaned_incl in Hr|].
  unfold minlog10p in Hkeep. cbn [pd.notna_cell] in Hkeep.
  rewrite isnan_neg, log10_isnan in Hkeep.
  apply negb_true_iff, orb_false_iff in Hkeep as [Hn Hlt]. auto.
Qed.

(** A record with p = 0 stays, with [MINLOG10P] infinite. *)
Lemma plotted_zero j df r s :
  In r (rows df) ->
  pd.field j r = Num (S754_zero s) ->
  In (pd.set_nth (minlog_loc df) (Num F64.pinf) r) (plotted j df).
Proof.
  intros Hr Hp. unfold plotted.
  assert (Hm : minlog10p j r = Num F64.pinf).
  { unfold minlog10p, pvalue. rewrite Hp, log10_zero. reflexivity. }
  rewrite <- Hm.
  apply (in_map (fun r => pd.set_nth (minlog_loc df) (minlog10p j r) r)).
  apply filter_In. split.
  - unfold cleaned. apply filter_In. split; [exact Hr|]. now rewrite Hp.
  - now rewrite Hm.
Qed.

Lemma arange_1 (n : nat) :
  np.arange 1 (Z.of_nat n + 1) = map Z.of_nat (seq 1 n).
Proof.
  unfold np.arange.
  replace (Z.to_nat (Z.of_nat n + 1 - 1)) with n by lia.
  rewrite <- seq_shift, map_map. apply map_ext. intros i. lia.
Qed.

Lemma floats_column j (rs : list Row) :
  np.floats (map (pd.field j) rs) = map (pvalue j) rs.
Proof. unfold np.floats. rewrite map_map. reflexivity. Qed.

Lemma qq_run input w df j :
  read_table input = inr df ->
  p_loc df = Some j ->
  float64_column j df = true ->
  let pvals := map (pvalue j) (valid j df) in
  qq_data_of read_table input w
  = match percentile pvals 50 with
    | inl e => (inl e, printed w ["Creating Q-Q plot from " ++ input])
    | inr chisq =>
        (inr (mkQQ pvals
                   (sort (map (fun x => F64.neg (log10 x)) pvals))
                   (qq_expected_of (List.length pvals))
                   chisq
                   (qq_lambda_of pvals chisq)),
         printed w ["Creating Q-Q plot from " ++ input])
    end.
Proof.
  intros Hread Hloc Hnum pvals.
  destruct (p_loc_col _ _ Hloc) as (pc & Hpc & Hget).
  set (dfc := mkDataFrame (columns df) (cleaned j df)).
  assert (Hnumc : float64_column j dfc = true).
  { unfold float64_column in *. rewrite forallb_forall in *.
    intros r Hr. apply Hnum. now apply cleaned_incl in Hr. }
  assert (Hclean : pd.getitem_mask df (pd.notna (map (pd.field j) (rows df)))
                   = dfc).
  { unfold pd.getitem_mask, pd.notna. now rewrite select_map_map. }
  assert (Hcol : pd.getitem dfc pc = inr (map (pd.field j) (rows dfc))).
  { unfold pd.getitem. simpl columns. now rewrite Hget. }
  unfold qq_data_of, read_csv. step. rewrite Hread. step.
  rewrite p_col_fold, Hpc. step.
  unfold pd.getitem at 1. rewrite Hget. step.
  rewrite !Hclean, !Hcol. step.
  rewrite !(gt_column j dfc) by (auto using incl_refl). step.
  rewrite !select_map2, !floats_column.
  change (filter _ (rows dfc)) with (valid j df). fold pvals.
  assert (Hlen : List.length (sort (map (fun x => F64.neg (log10 x)) pvals))
                 = List.length pvals).
  { rewrite (Permutation_length (sort_perm _)). apply length_map. }
  rewrite !Hlen, arange_1.
  destruct (percentile pvals 50) as [e|chisq]; step; [reflexivity|].
  unfold ret, qq_expected_of, qq_lambda_of, F64.of_nat.
  rewrite map_map, Nat2Z.inj_add. reflexivity.
Qed.

Lemma valid_positive j df :
  Forall (fun p => F64.gtb p F64.zero = true) (map (pvalue j) (valid j df)).
Proof.
  apply Forall_forall. intros p Hp.
  apply in_map_iff in Hp as (r & <- & Hr).
  unfold valid in Hr. now apply filter_In in Hr.
Qed.

Lemma finite_float64 j df :
  finite_column j df = true -> float64_column j df = true.
Proof.
  unfold finite_column, float64_column. rewrite !forallb_forall.
  intros Hall r Hr. specialize (Hall r Hr).
  destruct (pd.field j r); [reflexivity|discriminate].
Qed.

Lemma valid_finite j df :
  finite_column j df = true ->
  forallb F64.isfinite (map (pvalue j) (valid j df)) = true.
Proof.
  unfold finite_column. rewrite !forallb_forall. intros Hall p Hp.
  apply in_map_iff in Hp as (r & <- & Hr).
  unfold valid in Hr. apply filter_In in Hr as [Hr Hpos].
  apply cleaned_incl in Hr. specialize (Hall r Hr).
  unfold pvalue in *. destruct (pd.field j r) as [x|]; [|discriminate].
  destruct x; try discriminate; reflexivity.
Qed.

Lemma percentile_positive xs v :
  percentile xs 50 = inr v ->
  forallb F64.isfinite xs = true ->
  Forall (fun p => F64.gtb p F64.zero = true) xs ->
  F64.gtb v F64.zero = true.
Proof.
  intros Hv Hfin Hpos.
  destruct (percentile_between xs 50 v Hv Hfin) as (a & b & Ha & _ & Hav & _).
  rewrite Forall_forall in Hpos. specialize (Hpos a Ha).
  unfold F64.gtb in *. fold (F64.ltb F64.zero a) in Hpos.
  fold (F64.ltb F64.zero v). eapply ltb_leb_trans; eassumption.
Qed.

(** C5.  With [n >= 1] valid p-values (present and positive) the Q-Q
    routine returns, and its expected quantiles are
    [-log10(i / (n + 1))] for [i = 1, ..., n], in this order; for
    [n = 3] they are [-log10(1/4)], [-log10(2/4)], [-log10(3/4)]. *)
Theorem qq_expected_quantiles input w df j :
  read_table input = inr df ->
  p_loc df = Some j ->
  float64_column j df = true ->
  let n := List.length (valid j df) in
  1 <= n ->
  exists d,
    qq_data_of read_table input w
    = (inr d, printed w ["Creating Q-Q plot from " ++ input]) /\
    List.length (qq_pvals d) = n /\
    List.length (qq_expected d) = n /\
    (forall i, 1 <= i <= n ->
       nth (i - 1) (qq_expected d) F64.nan
       = F64.neg (log10 (F64.div (F64.of_nat i) (F64.of_nat (n + 1))))) /\
    (n = 3 ->
     qq_expected d
     = [F64.neg (log10 (F64.div (F64.of_Z 1) (F64.of_Z 4)));
        F64.neg (log10 (F64.div (F64.of_Z 2) (F64.of_Z 4)));
        F64.neg (log10 (F64.div (F64.of_Z 3) (F64.of_Z 4)))]).
Proof.
  intros Hread Hloc Hnum n Hn.
  pose proof (qq_run input w df j Hread Hloc Hnum) as Hrun. cbv zeta in Hrun.
  assert (Hlen : List.length (map (pvalue j) (valid j df)) = n)
    by apply length_map.
  destruct (percentile_defined (map (pvalue j) (valid j df)) 50)
    as [chisq Hchisq].
  { intros Hnil. rewrite Hnil in Hlen. simpl in Hlen. lia. }
  rewrite Hchisq, Hlen in Hrun.
  eexists. split; [exact Hrun|]. cbn [qq_pvals qq_expected].
  split; [exact Hlen|]. unfold qq_expected_of.
  split; [now rewrite length_map, length_seq|]. split.
  - intros i Hi.
    rewrite (nth_indep _ F64.nan
               (F64.neg (log10 (F64.div (F64.of_nat 0) (F64.of_nat (n + 1))))))
      by (rewrite length_map, length_seq; lia).
    rewrite (map_nth (fun i => F64.neg (log10 (F64.div (F64.of_nat i)
                                                 (F64.of_nat (n + 1)))))).
    rewrite seq_nth by lia. do 4 f_equal. lia.
  - intros ->. reflexivity.
Qed.

(** C10.  The p-values the Q-Q routine keeps are strictly positive.
    When at least one is kept, the routine returns, their median
    ([chisq]) is strictly positive and lambda is the quotient of line
    101; whenever the routine returns with the [1.0] fallback, no
    p-value was kept.  The entries of the column are p-values: missing
    or finite. *)
Theorem qq_fallback_unreachable input w df j :
  read_table input = inr df ->
  p_loc df = Some j ->
  finite_column j df = true ->
  (valid j df <> [] ->
   exists d,
     qq_data_of read_table input w
     = (inr d, printed w ["Creating Q-Q plot from " ++ input]) /\
     qq_pvals d = map (pvalue j) (valid j df) /\
     qq_pvals d <> [] /\
     Forall (fun p => F64.gtb p F64.zero = true) (qq_pvals d) /\
     F64.gtb (qq_chisq d) F64.zero = true /\
     exists v, qq_lambda d = Estimated v) /\
  (forall d w',
     qq_data_of read_table input w = (inr d, w') ->
     Forall (fun p => F64.gtb p F64.zero = true) (qq_pvals d) /\
     (qq_lambda d = Fallback -> qq_pvals d = [])).
Proof.
  intros Hread Hloc Hfin.
  pose proof (qq_run input w df j Hread Hloc (finite_float64 j df Hfin))
    as Hrun. cbv zeta in Hrun.
  pose proof (valid_positive j df) as Hpos.
  pose proof (valid_finite j df Hfin) as Hfinite.
  set (pvals := map (pvalue j) (valid j df)) in *.
  split.
  - intros Hne.
    assert (Hne' : pvals <> []).
    { unfold pvals. intros Hnil. apply map_eq_nil in Hnil. auto. }
    destruct (percentile_defined pvals 50 Hne') as [chisq Hchisq].
    rewrite Hchisq in Hrun.
    pose proof (percentile_positive pvals chisq Hchisq Hfinite Hpos) as Hc.
    eexists. split; [exact Hrun|]. cbn [qq_pvals qq_chisq qq_lambda].
    repeat (split; trivial).
    unfold qq_lambda_of. rewrite Hc. eauto.
  - intros d w' Hd. rewrite Hrun in Hd.
    destruct (percentile pvals 50) as [e|chisq] eqn:Hchisq; [discriminate|].
    injection Hd as <- _. cbn [qq_pvals qq_lambda].
    split; [exact Hpos|].
    unfold qq_lambda_of.
    destruct (F64.gtb chisq F64.zero) eqn:Hc; [discriminate|].
    intros _. destruct pvals as [|p ps] eqn:Hp; [reflexivity|].
    rewrite <- Hp in *.
    rewrite (percentile_positive pvals chisq Hchisq Hfinite Hpos) in Hc.
    discriminate.
Qed.

End PlotClaims.

(** ** Which records reach an output *)

Section CleaningClaims.

Context `{NumPy}.
Variable read_table : string -> exn + DataFrame.

Lemma In_firstn {A} (n : nat) (l : list A) (x : A) :
  In x (firstn n l) -> In x l.
Proof.
  intros Hx. rewrite <- (firstn_skipn n l). apply in_or_app. now left.
Qed.

Lemma cleaned_not_missing j df r :
  float64_column j df = true ->
  In r (cleaned j df) ->
  In r (rows df) /\ F64.isnan (pvalue j r) = false.
Proof.
  intros Hnum Hr. unfold cleaned in Hr. apply filter_In in Hr as [Hr Hn].
  split; [exact Hr|].
  rewrite (float64_field j df r Hnum Hr) in Hn.
  now apply negb_true_iff in Hn.
Qed.

(** The extractor keeps a record with p = 0: it is in the cleaned table
    and below both thresholds, whatever the sort does. *)
Lemma zero_kept_by_extractor j df r s :
  In r (rows df) ->
  pd.field j r = Num (S754_zero s) ->
  In r (below j gw_threshold (cleaned j df)) /\
  In r (below j suggestive_threshold (cleaned j df)).
Proof.
  intros Hr Hp.
  assert (Hc : In r (cleaned j df)).
  { unfold cleaned. apply filter_In. split; [exact Hr|]. now rewrite Hp. }
  unfold below, pvalue. rewrite !filter_In, Hp. auto.
Qed.

(** C2, as the code has it.  Every row of every table the extractor
    writes is a record of the input, or its summary row, whose p-value
    is not missing; and the Manhattan routine returns a table every row
    of which comes from a record whose p-value is neither missing nor
    negative. *)
Theorem missing_p_values_excluded input out n_top w df j :
  read_table input = inr df ->
  p_loc df = Some j ->
  float64_column j df = true ->
  (exists new,
     files (snd (extract_top_snps read_table input out n_top w))
     = (files w ++ new)%list /\
     List.length new
     = (if forallb (pd.has_column df) required then 5 else 4) /\
     forall path t r',
       In (path, t) new -> In r' (rows t) ->
       exists r, In r (rows df) /\
                 F64.isnan (pvalue j r) = false /\
                 (r' = r \/ r' = summary_row df j r)) /\
  (exists t,
     manhattan_data read_table input w
     = (inr t, printed w ["Creating Manhattan plot from " ++ input]) /\
     forall r',
       In r' (rows t) ->
       exists r, In r (rows df) /\
                 F64.isnan (pvalue j r) = false /\
                 F64.ltb (pvalue j r) F64.zero = false /\
                 r' = pd.set_nth (minlog_loc df) (minlog10p j r) r).
Proof.
  intros Hread Hloc Hnum. split.
  - destruct (extract_run read_table input out n_top w df j Hread Hloc Hnum)
      as (srt & Hperm & _ & Hrun).
    assert (Hfour : forall path t r',
               In (path, t) (first_four out n_top df j srt) ->
               In r' (rows t) ->
               exists r, In r (rows df) /\
                         F64.isnan (pvalue j r) = false /\
                         (r' = r \/ r' = summary_row df j r)).
    { intros path t r' Hin Hr'. exists r'.
      assert (Hc : In r' (cleaned j df)).
      { unfold first_four in Hin. cbn [In] in Hin.
        destruct Hin as [Hin|[Hin|[Hin|[Hin|[]]]]];
          injection Hin as _ <-; cbn [rows pd.head] in Hr'.
        - apply (Permutation_in _ Hperm). eapply In_firstn. exact Hr'.
        - apply (Permutation_in _ Hperm). eapply In_firstn. exact Hr'.
        - unfold below in Hr'. now apply filter_In in Hr'.
        - unfold below in Hr'. now apply filter_In in Hr'. }
      destruct (cleaned_not_missing j df r' Hnum Hc). auto. }
    rewrite Hrun. cbv zeta.
    destruct (forallb (pd.has_column df) required) eqn:Hall.
    + rewrite (filter_missing_nil df Hall). cbn [snd files].
      rewrite <- app_assoc. eexists. split; [reflexivity|].
      split; [reflexivity|].
      intros path t r' Hin Hr'. apply in_app_or in Hin as [Hin|Hin].
      * eapply Hfour; eassumption.
      * destruct Hin as [Hin|[]]. injection Hin as _ <-.
        cbn [rows] in Hr'. apply in_map_iff in Hr' as (r & <- & Hr).
        exists r. destruct (cleaned_not_missing j df r Hnum Hr). auto.
    + destruct (filter (fun c => negb (pd.has_column df c)) required)
        as [|c cs] eqn:Hmiss.
      * exfalso. assert (Hall' : forallb (pd.has_column df) required = true).
        { apply forallb_forall. intros c Hc.
          destruct (pd.has_column df c) eqn:Hhas; [reflexivity|].
          assert (Hin : In c (filter (fun c => negb (pd.has_column df c))
                                     required))
            by (apply filter_In; rewrite Hhas; auto).
          rewrite Hmiss in Hin. destruct Hin. }
        congruence.
      * cbn [snd files]. eexists. split; [reflexivity|].
        split; [reflexivity|]. exact Hfour.
  - rewrite (manhattan_run read_table input w df j Hread Hloc Hnum).
    eexists. split; [reflexivity|]. cbn [rows].
    intros r' Hr'. now apply plotted_spec.
Qed.

End CleaningClaims.

(** ** Concrete runs *)

Module Examples.

Import Tables.

Lemma read_failure_aborts_witness :
  disk "none.assoc" = inl (ReadError "No such file or directory") /\
  is_Exception (ReadError "No such file or directory") = true /\
  let w' := printed start
              ["Reading association file: none.assoc";
               "Error reading file: No such file or directory"] in
  @extract_top_snps Conformance.stable_numpy disk "none.assoc" "out" 1000 start = (inr None, w') /\
  forall prog rest,
    @main Conformance.stable_numpy disk (prog :: "none.assoc" :: "out" :: rest) start
    = (inl TypeError, w').
Proof.
  split; [reflexivity|]. split; [reflexivity|].
  apply (@read_failure_aborts Conformance.stable_numpy disk "none.assoc" "out" 1000 start
           (ReadError "No such file or directory")); reflexivity.
Defined.

Lemma short_table_index_error_witness :
  disk "short.assoc" = inr short /\
  pd.has_column short "P" = false /\
  List.length (columns short) < 9 /\
  @extract_top_snps Conformance.stable_numpy disk "short.assoc" "out" 1000 start
  = (inl IndexError,
     printed start ["Reading association file: short.assoc";
                    "Total SNPs in file: 1"]) /\
  @manhattan_data Conformance.stable_numpy disk "short.assoc" start
  = (inl IndexError,
     printed start ["Creating Manhattan plot from short.assoc"]) /\
  @qq_data_of Conformance.stable_numpy disk "short.assoc" start
  = (inl IndexError, printed start ["Creating Q-Q plot from short.assoc"]).
Proof.
  split; [reflexivity|]. split; [reflexivity|].
  split; [simpl; lia|].
  apply (@short_table_index_error Conformance.stable_numpy disk "short.assoc" "out" 1000 start short);
    [reflexivity | reflexivity | simpl; lia].
Defined.


Lemma missing_column_leaves_four_files_witness :
  disk "nochr.assoc" = inr no_chr /\
  p_loc no_chr = Some 7 /\
  float64_column 7 no_chr = true /\
  existsb (fun c => negb (pd.has_column no_chr c)) required = true /\
  exists missing srt,
    missing <> [] /\ incl missing required /\
    @extract_top_snps Conformance.stable_numpy disk "nochr.assoc" "out" 1000 start
    = (inl (KeyError missing),
       mkWorld (stdout start
                ++ progress_lines "nochr.assoc" "out" no_chr 7)%list
               (files start ++ first_four "out" 1000 no_chr 7 srt)%list) /\
    map fst (first_four "out" 1000 no_chr 7 srt)
    = [out_1000 "out"; out_100 "out"; out_gw "out"; out_sugg "out"].
Proof.
  do 4 (split; [reflexivity|]).
  apply (@missing_column_leaves_four_files Conformance.stable_numpy disk "nochr.assoc" "out" 1000
           start no_chr 7); reflexivity.
Defined.

Lemma significant_suggestive_summary_witness :
  disk "five.assoc" = inr five_rows /\
  p_loc five_rows = Some 8 /\
  float64_column 8 five_rows = true /\
  forallb (pd.has_column five_rows) required = true /\
  exists t1000 t100 gw sg sm,
    files (snd (@extract_top_snps Conformance.stable_numpy disk "five.assoc" "out" 1000 start))
    = (files start ++ [(out_1000 "out", t1000); (out_100 "out", t100);
                       (out_gw "out", gw); (out_sugg "out", sg);
                       (out_summary "out", sm)])%list /\
    (forall r, In r (rows gw) <->
               In r (cleaned 8 five_rows) /\
               F64.ltb (pvalue 8 r) gw_threshold = true) /\
    (forall r, In r (rows sg) <->
               In r (cleaned 8 five_rows) /\
               F64.ltb (pvalue 8 r) suggestive_threshold = true) /\
    (forall r, In r (rows gw) -> In r (rows sg)) /\
    (forall r, In r (rows gw) \/ In r (rows sg) ->
               In (summary_row five_rows 8 r) (rows sm)) /\
    columns sm = summary_header.
Proof.
  do 4 (split; [reflexivity|]).
  apply (@significant_suggestive_summary Conformance.stable_numpy disk "five.assoc" "out" 1000
           start five_rows 8); reflexivity.
Defined.

Lemma top_tables_prefix_witness :
  disk "five.assoc" = inr five_rows /\
  p_loc five_rows = Some 8 /\
  float64_column 8 five_rows = true /\
  exists t1000 t100 more,
    files (snd (@extract_top_snps Conformance.stable_numpy disk "five.assoc" "out" 1000 start))
    = (files start
       ++ (out_1000 "out", t1000) :: (out_100 "out", t100) :: more)%list /\
    len t1000 <= 4 /\
    (Z.of_nat (len t1000) <= 1000)%Z /\
    rows t100 = firstn 100 (rows t1000).
Proof.
  do 3 (split; [reflexivity|]).
  destruct (@top_tables_prefix Conformance.stable_numpy disk "five.assoc" "out" 1000 start
              five_rows 8 eq_refl eq_refl eq_refl)
    as (t1000 & t100 & more & Hfiles & Hlen & Htop & Hprefix).
  exists t1000, t100, more.
  split; [exact Hfiles|]. split; [exact Hlen|].
  split; [apply Htop; lia | apply Hprefix; lia].
Defined.

(** With [n_top = 1] the first table has one row and the second has four;
    with [n_top = -1] the first table has three rows. *)
Lemma top_100_not_a_prefix :
  (exists t1000 t100 more,
     files (snd (@extract_top_snps Conformance.stable_numpy disk "five.assoc" "out" 1 start))
     = (out_1000 "out", t1000) :: (out_100 "out", t100) :: more /\
     len t1000 = 1 /\ len t100 = 4 /\
     rows t100 <> firstn 100 (rows t1000)) /\
  (exists t1000 more,
     files (snd (@extract_top_snps Conformance.stable_numpy disk "five.assoc" "out" (-1) start))
     = (out_1000 "out", t1000) :: more /\
     ~ (Z.of_nat (len t1000) <= -1)%Z).
Proof.
  split.
  - vm_compute. do 3 eexists. split; [reflexivity|].
    split; [reflexivity|]. split; [reflexivity|].
    intros Heq. discriminate Heq.
  - do 2 eexists. split; [vm_compute; reflexivity|].
    unfold len. simpl. lia.
Qed.

Lemma cli_top_count_is_1000_witness :
  disk "five.assoc" = inr five_rows /\
  p_loc five_rows = Some 8 /\
  float64_column 8 five_rows = true /\
  exists srt t1000 more,
    Permutation srt (cleaned 8 five_rows) /\
    Sorted key_le (map (pvalue 8) srt) /\
    files (snd (@main Conformance.stable_numpy disk
                  ["extract_top_snps.py"; "five.assoc"; "out"; "2"] start))
    = (files start ++ (out_1000 "out", t1000) :: more)%list /\
    columns t1000 = columns five_rows /\
    rows t1000 = firstn (Nat.min 1000 (List.length (cleaned 8 five_rows))) srt.
Proof.
  do 3 (split; [reflexivity|]).
  apply (@cli_top_count_is_1000 Conformance.stable_numpy disk "extract_top_snps.py" "five.assoc"
           "out" ["2"] start five_rows 8); reflexivity.
Defined.

(** A third argument [2] changes nothing: all four cleaned records are
    written, not [min(2, 4)]. *)
Lemma cli_ignores_third_argument :
  exists t1000 more,
    files (snd (@main Conformance.stable_numpy disk
                  ["extract_top_snps.py"; "five.assoc"; "out"; "2"] start))
    = (out_1000 "out", t1000) :: more /\
    List.length (cleaned 8 five_rows) = 4 /\
    len t1000 = 4 /\
    len t1000 <> Nat.min 2 (List.length (cleaned 8 five_rows)).
Proof.
  vm_compute. do 2 eexists. split; [reflexivity|].
  split; [reflexivity|]. split; [reflexivity|].
  intros Heq. discriminate Heq.
Qed.


Lemma missing_p_values_excluded_witness :
  disk "three.assoc" = inr three_valid /\
  p_loc three_valid = Some 8 /\
  float64_column 8 three_valid = true /\
  (exists new,
     files (snd (@extract_top_snps Conformance.stable_numpy disk "three.assoc" "out" 1000 start))
     = (files start ++ new)%list /\
     List.length new = 5 /\
     forall path t r',
       In (path, t) new -> In r' (rows t) ->
       exists r, In r (rows three_valid) /\
                 F64.isnan (pvalue 8 r) = false /\
                 (r' = r \/ r' = summary_row three_valid 8 r)) /\
  (exists t,
     @manhattan_data Conformance.stable_numpy disk "three.assoc" start
     = (inr t, printed start ["Creating Manhattan plot from three.assoc"]) /\
     forall r',
       In r' (rows t) ->
       exists r, In r (rows three_valid) /\
                 F64.isnan (pvalue 8 r) = false /\
                 F64.ltb (pvalue 8 r) F64.zero = false /\
                 r' = pd.set_nth (@minlog_loc three_valid)
                              (@minlog10p Conformance.stable_numpy 8 r) r).
Proof.
  do 3 (split; [reflexivity|]).
  apply (@missing_p_values_excluded Conformance.stable_numpy disk "three.assoc" "out" 1000 start
           three_valid 8); reflexivity.
Defined.

(** A record with p = 0 is written to each of the five tables, and the
    Manhattan routine keeps it with an infinite [MINLOG10P]. *)
Lemma zero_p_value_reaches_every_output :
  F64.leb (pvalue 4 zero_row) F64.zero = true /\
  (let w' := snd (@extract_top_snps Conformance.stable_numpy disk "zero.assoc" "out" 1000 start) in
   map fst (files w')
   = [out_1000 "out"; out_100 "out"; out_gw "out"; out_sugg "out";
      out_summary "out"] /\
   Forall (fun f => In zero_row (rows (snd f))) (files w')) /\
  (exists t,
     fst (@manhattan_data Conformance.stable_numpy disk "zero.assoc" start) = inr t /\
     In (zero_row ++ [Num F64.pinf])%list (rows t)).
Proof.
  split; [reflexivity|]. split.
  - vm_compute. split; [reflexivity|].
    repeat constructor.
  - vm_compute. eexists. split; [reflexivity|]. left. reflexivity.
Qed.

Lemma qq_expected_quantiles_witness :
  disk "three.assoc" = inr three_valid /\
  p_loc three_valid = Some 8 /\
  float64_column 8 three_valid = true /\
  1 <= List.length (valid 8 three_valid) /\
  exists d,
    @qq_data_of Conformance.stable_numpy disk "three.assoc" start
    = (inr d, printed start ["Creating Q-Q plot from three.assoc"]) /\
    List.length (qq_pvals d) = 3 /\
    qq_expected d
    = [F64.neg (@log10 Conformance.stable_numpy (F64.div (F64.of_Z 1) (F64.of_Z 4)));
       F64.neg (@log10 Conformance.stable_numpy (F64.div (F64.of_Z 2) (F64.of_Z 4)));
       F64.neg (@log10 Conformance.stable_numpy (F64.div (F64.of_Z 3) (F64.of_Z 4)))].
Proof.
  do 3 (split; [reflexivity|]).
  assert (Hn : 1 <= List.length (valid 8 three_valid)) by (vm_compute; lia).
  split; [exact Hn|].
  destruct (@qq_expected_quantiles Conformance.stable_numpy disk "three.assoc" start three_valid 8
              eq_refl eq_refl eq_refl Hn)
    as (d & Hrun & Hlen & _ & _ & Hthree).
  exists d. split; [exact Hrun|]. split; [exact Hlen|].
  apply Hthree. reflexivity.
Defined.

Lemma qq_fallback_unreachable_witness :
  disk "three.assoc" = inr three_valid /\
  p_loc three_valid = Some 8 /\
  finite_column 8 three_valid = true /\
  valid 8 three_valid <> [] /\
  exists d,
    @qq_data_of Conformance.stable_numpy disk "three.assoc" start
    = (inr d, printed start ["Creating Q-Q plot from three.assoc"]) /\
    qq_pvals d <> [] /\
    Forall (fun p => F64.gtb p F64.zero = true) (qq_pvals d) /\
    F64.gtb (qq_chisq d) F64.zero = true /\
    exists v, qq_lambda d = Estimated v.
Proof.
  do 3 (split; [reflexivity|]).
  assert (Hne : valid 8 three_valid <> [])
    by (vm_compute; intros Heq; discriminate Heq).
  split; [exact Hne|].
  destruct (@qq_fallback_unreachable Conformance.stable_numpy disk "three.assoc" start three_valid 8
              eq_refl eq_refl eq_refl) as [Hkept _].
  destruct (Hkept Hne) as (d & Hrun & _ & Hd & Hpos & Hchisq & Hlambda).
  exists d. auto.
Defined.

(** Both sorts satisfy everything the interface asks of ['quicksort'],
    and they order two records with equal p-values differently: the
    interface does not decide whether ties keep the order of the input. *)
Lemma tie_order_depends_on_the_sort :
  first_table_ids
    (snd (@extract_top_snps Conformance.stable_numpy disk
            "tied.assoc" "out" 1000 start))
  = [Str "rs1"; Str "rs2"] /\
  first_table_ids
    (snd (@extract_top_snps Conformance.reversing_numpy disk
            "tied.assoc" "out" 1000 start))
  = [Str "rs2"; Str "rs1"].
Proof. split; vm_compute; reflexivity. Qed.

End Examples.

(** * The rest of the two scripts *)

From Stdlib Require Import OrderedTypeEx.

(** ** More about the order of binary64 *)

Lemma leb_trans (x y z : float) :
  F64.leb x y = true -> F64.leb y z = true -> F64.leb x z = true.
Proof.
  unfold_cmp.
  destruct x as [[]|[]| |[] m1 e1], y as [[]|[]| |[] m2 e2],
           z as [[]|[]| |[] m3 e3];
    simpl; try discriminate; try reflexivity; intros; solve_cmp.
Qed.

Lemma ltb_irrefl (x : float) : F64.ltb x x = false.
Proof.
  unfold_cmp.
  destruct x as [[]|[]| |[] m e]; simpl; try reflexivity;
    rewrite Z.compare_refl, Pos.compare_refl; reflexivity.
Qed.

Lemma key_le_trans (x y z : float) : key_le x y -> key_le y z -> key_le x z.
Proof.
  unfold key_le, F64.key_leb. intros Hxy Hyz.
  destruct (F64.isnan z) eqn:Hz; [reflexivity|].
  cbn [orb] in *.
  apply andb_true_iff in Hyz as [Hy Hyz]. apply negb_true_iff in Hy.
  rewrite Hy in Hxy. cbn [orb] in Hxy.
  apply andb_true_iff in Hxy as [Hx Hxy].
  rewrite Hx. cbn [andb]. eapply leb_trans; eassumption.
Qed.

Lemma key_le_leb (x y : float) :
  key_le x y -> F64.isnan y = false -> F64.leb x y = true.
Proof.
  unfold key_le, F64.key_leb. intros Hxy Hy. rewrite Hy in Hxy.
  cbn [orb] in Hxy. now apply andb_true_iff in Hxy.
Qed.

(** ** Lists cut in two *)

Lemma split_sorted {A} (R : A -> A -> Prop) (k : nat) (l : list A) :
  StronglySorted R l ->
  forall a b, In a (firstn k l) -> In b (skipn k l) -> R a b.
Proof.
  intros Hs. revert k. induction Hs as [|x l Hs IH Hx]; intros k a b.
  - rewrite firstn_nil. intros [].
  - destruct k as [|k]; cbn [firstn skipn]; [intros []|].
    intros [<-|Ha] Hb.
    + rewrite Forall_forall in Hx. apply Hx.
      rewrite <- (firstn_skipn k l). apply in_or_app. now right.
    + eapply IH; eassumption.
Qed.

Lemma filter_filter {A} (f g : A -> bool) (l : list A) :
  filter f (filter g l) = filter (fun x => g x && f x) l.
Proof.
  induction l as [|a l IH]; [reflexivity|].
  cbn [filter]. destruct (g a); cbn [filter andb]; now rewrite IH.
Qed.

(** ** The extractor: what a completed run leaves behind *)

Section ExtractorRuns.

Context `{NumPy}.
Variable read_table : string -> exn + DataFrame.

Lemma sorted_strongly j (srt : list Row) :
  Sorted key_le (map (pvalue j) srt) ->
  StronglySorted (fun a b => key_le (pvalue j a) (pvalue j b)) srt.
Proof.
  intros Hs.
  assert (Hss : StronglySorted key_le (map (pvalue j) srt)).
  { apply Sorted_StronglySorted; [|exact Hs].
    intros x y z. apply key_le_trans. }
  clear Hs. induction srt as [|r srt IH]; [constructor|].
  cbn [map] in Hss. apply StronglySorted_inv in Hss as [Hss Hr].
  constructor; [now apply IH|].
  rewrite Forall_forall in *. intros b Hb. apply Hr. now apply in_map.
Qed.

Lemma len_head df n : len (pd.head df n) = head_count n (len df).
Proof.
  unfold pd.head, head_count, len. cbn [rows]. rewrite length_firstn.
  destruct (0 <=? n)%Z; lia.
Qed.

(** X1: the top table is in ascending order of p-value, no record left out of
    it has a smaller p-value than a record in it, and together they are the
    cleaned records. *)
Theorem top_records_are_smallest input out n_top w df j :
  read_table input = inr df ->
  p_loc df = Some j ->
  float64_column j df = true ->
  exists t1000 left_out more,
    files (snd (extract_top_snps read_table input out n_top w))
    = (files w ++ (out_1000 out, t1000) :: more)%list /\
    Permutation (rows t1000 ++ left_out) (cleaned j df) /\
    Sorted key_le (map (pvalue j) (rows t1000)) /\
    forall a b, In a (rows t1000) -> In b left_out ->
                F64.leb (pvalue j a) (pvalue j b) = true.
Proof.
  intros Hread Hloc Hnum.
  destruct (files_first_four read_table input out n_top w df j Hread Hloc Hnum)
    as (srt & more & Hperm & Hsorted & Hfiles).
  rewrite Hfiles. unfold first_four. cbn [app].
  set (k := head_rows n_top srt).
  exists (pd.head (mkDataFrame (columns df) srt) n_top), (skipn k srt).
  eexists. split; [reflexivity|].
  assert (Hrows : rows (pd.head (mkDataFrame (columns df) srt) n_top)
                  = firstn k srt) by reflexivity.
  rewrite Hrows. split; [now rewrite firstn_skipn|]. split.
  - rewrite <- (firstn_skipn k srt) in Hsorted. rewrite map_app in Hsorted.
    clear - Hsorted. induction (map (pvalue j) (firstn k srt)) as [|x l IH];
      [constructor|].
    cbn [app] in Hsorted. apply Sorted_inv in Hsorted as [Hs Hd].
    constructor; [now apply IH|].
    destruct l; [constructor|]. cbn [app] in Hd. apply HdRel_inv in Hd.
    now constructor.
  - intros a b Ha Hb.
    apply key_le_leb.
    + apply (split_sorted _ k srt (sorted_strongly j srt Hsorted) a b Ha Hb).
    + assert (Hc : In b (cleaned j df)).
      { apply (Permutation_in _ Hperm).
        rewrite <- (firstn_skipn k srt). apply in_or_app. now right. }
      now destruct (cleaned_not_missing j df b Hnum Hc).
Qed.

(** X2: how many rows the tables have, for every [n_top]: a negative [n_top]
    drops records from the end, the second table never has more than 100,
    the genome-wide table never more than the suggestive one, and the
    summary has one row for each cleaned record. *)
Theorem output_row_counts input out n_top w df j :
  read_table input = inr df ->
  p_loc df = Some j ->
  float64_column j df = true ->
  exists t1000 t100 gw sg more,
    files (snd (extract_top_snps read_table input out n_top w))
    = (files w ++ (out_1000 out, t1000) :: (out_100 out, t100)
               :: (out_gw out, gw) :: (out_sugg out, sg) :: more)%list /\
    len t1000 = head_count n_top (List.length (cleaned j df)) /\
    len t100 = Nat.min 100 (List.length (cleaned j df)) /\
    len gw <= len sg /\
    len sg <= List.length (cleaned j df) /\
    (forallb (pd.has_column df) required = true ->
     exists sm, more = [(out_summary out, sm)] /\
                len sm = List.length (cleaned j df)).
Proof.
  intros Hread Hloc Hnum.
  destruct (extract_run read_table input out n_top w df j Hread Hloc Hnum)
    as (srt & Hperm & _ & Hrun).
  pose proof (Permutation_length Hperm) as Hlen.
  exists (pd.head (mkDataFrame (columns df) srt) n_top),
         (pd.head (mkDataFrame (columns df) srt) 100),
         (mkDataFrame (columns df) (below j gw_threshold (cleaned j df))),
         (mkDataFrame (columns df)
                      (below j suggestive_threshold (cleaned j df))).
  exists (match filter (fun c => negb (pd.has_column df c)) required with
          | [] => [(out_summary out,
                    mkDataFrame summary_header
                      (map (summary_row df j) (cleaned j df)))]
          | _ => []
          end).
  split.
  { rewrite Hrun. cbv zeta. unfold first_four.
    destruct (filter _ required); cbn [snd files].
    - rewrite <- app_assoc. reflexivity.
    - reflexivity. }
  rewrite !len_head. unfold len at 1 2. cbn [rows]. rewrite Hlen.
  split; [reflexivity|]. split; [reflexivity|]. split; [|split].
  - unfold len. cbn [rows].
    assert (Heq : below j gw_threshold (cleaned j df)
                  = filter (fun r => F64.ltb (pvalue j r) gw_threshold)
                      (below j suggestive_threshold (cleaned j df))).
    { unfold below. rewrite filter_filter. apply filter_ext. intros r.
      destruct (F64.ltb (pvalue j r) gw_threshold) eqn:Hg;
        [|now rewrite andb_false_r].
      now rewrite (ltb_trans _ _ _ Hg gw_below_suggestive). }
    rewrite Heq. apply filter_length_le.
  - unfold len, below. cbn [rows]. apply filter_length_le.
  - intros Hall. rewrite (filter_missing_nil df Hall).
    eexists. split; [reflexivity|]. unfold len. cbn [rows]. apply length_map.
Qed.

Lemma empty_is_float64 j df : cleaned j df = [] -> float64_column j df = true.
Proof.
  intros Hnil. unfold float64_column. apply forallb_forall. intros r Hr.
  destruct (pd.field j r) as [x|s] eqn:Hf; [reflexivity|].
  assert (Hin : In r (cleaned j df)).
  { unfold cleaned. apply filter_In. split; [exact Hr|]. now rewrite Hf. }
  rewrite Hnil in Hin. destruct Hin.
Qed.

(** X3: when no record has a p-value the run still completes: it returns
    (0, 0) and the five tables hold a header and no row. *)
Theorem no_p_value_gives_empty_tables input out n_top w df j :
  read_table input = inr df ->
  p_loc df = Some j ->
  cleaned j df = [] ->
  forallb (pd.has_column df) required = true ->
  let empty := mkDataFrame (columns df) [] in
  exists w',
    extract_top_snps read_table input out n_top w = (inr (Some (0, 0)), w') /\
    files w'
    = (files w ++ [(out_1000 out, empty); (out_100 out, empty);
                   (out_gw out, empty); (out_sugg out, empty);
                   (out_summary out, mkDataFrame summary_header [])])%list.
Proof.
  intros Hread Hloc Hnil Hall empty.
  destruct (extract_run read_table input out n_top w df j Hread Hloc
              (empty_is_float64 j df Hnil)) as (srt & Hperm & _ & Hrun).
  rewrite Hnil in Hperm. apply Permutation_sym, Permutation_nil in Hperm.
  subst srt. rewrite (filter_missing_nil df Hall) in Hrun. cbv zeta in Hrun.
  rewrite Hrun. eexists. split.
  - rewrite Hnil. reflexivity.
  - cbn [files]. unfold first_four, pd.head. cbn [rows columns].
    rewrite Hnil, !firstn_nil, <- app_assoc. reflexivity.
Qed.

(** X4: the two threshold tables and the summary are not sorted: they hold
    their records in the order of the input. *)
Theorem threshold_tables_keep_input_order input out n_top w df j :
  read_table input = inr df ->
  p_loc df = Some j ->
  float64_column j df = true ->
  forallb (pd.has_column df) required = true ->
  exists t1000 t100 gw sg sm,
    files (snd (extract_top_snps read_table input out n_top w))
    = (files w ++ [(out_1000 out, t1000); (out_100 out, t100);
                   (out_gw out, gw); (out_sugg out, sg);
                   (out_summary out, sm)])%list /\
    rows gw = filter (fun r => pd.notna_cell (pd.field j r)
                               && F64.ltb (pvalue j r) gw_threshold)
                     (rows df) /\
    rows sg = filter (fun r => pd.notna_cell (pd.field j r)
                               && F64.ltb (pvalue j r) suggestive_threshold)
                     (rows df) /\
    rows sm = map (summary_row df j)
                  (filter (fun r => pd.notna_cell (pd.field j r)) (rows df)).
Proof.
  intros Hread Hloc Hnum Hall.
  destruct (extract_run read_table input out n_top w df j Hread Hloc Hnum)
    as (srt & _ & _ & Hrun).
  rewrite (filter_missing_nil df Hall) in Hrun. cbv zeta in Hrun.
  rewrite Hrun. cbn [snd files]. unfold first_four.
  rewrite <- app_assoc. cbn [app].
  do 5 eexists. split; [reflexivity|]. cbn [rows].
  unfold below, cleaned. rewrite !filter_filter. auto.
Qed.


(** X6: the two numbers of the summary that the command prints are the row
    counts of the two threshold tables it wrote. *)
Theorem cli_summary_counts_the_tables prog input out rest w df j :
  read_table input = inr df ->
  p_loc df = Some j ->
  float64_column j df = true ->
  forallb (pd.has_column df) required = true ->
  exists t1000 t100 gw sg sm,
    main read_table (prog :: input :: out :: rest) w
    = (inr tt,
       mkWorld
         (stdout w ++ progress_lines input out df j ++ final_lines out
            ++ [""%string; "=== Summary ==="%string;
                ("Genome-wide significant: " ++ str_nat (len gw))%string;
                ("Suggestive: " ++ str_nat (len sg))%string])%list
         (files w ++ [(out_1000 out, t1000); (out_100 out, t100);
                      (out_gw out, gw); (out_sugg out, sg);
                      (out_summary out, sm)])%list).
Proof.
  intros Hread Hloc Hnum Hall.
  destruct (extract_run read_table input out 1000 w df j Hread Hloc Hnum)
    as (srt & _ & _ & Hrun).
  rewrite (filter_missing_nil df Hall) in Hrun. cbv zeta in Hrun.
  unfold main. cbn [List.length Nat.ltb Nat.leb nth].
  erewrite bind_run by exact Hrun. cbv beta iota.
  repeat (step; cbv beta iota). unfold print. cbn [stdout files].
  exists (pd.head (mkDataFrame (columns df) srt) 1000),
         (pd.head (mkDataFrame (columns df) srt) 100),
         (mkDataFrame (columns df) (below j gw_threshold (cleaned j df))),
         (mkDataFrame (columns df)
                      (below j suggestive_threshold (cleaned j df))),
         (mkDataFrame summary_header (map (summary_row df j) (cleaned j df))).
  unfold first_four, len. cbn [rows]. rewrite <- !app_assoc. reflexivity.
Qed.

End ExtractorRuns.

(** ** Running the plot routines *)

Lemma printed_printed w a b : printed (printed w a) b = printed w (a ++ b).
Proof. unfold printed. cbn [stdout files]. now rewrite app_assoc. Qed.

Lemma say_run line s : say line s = (inr tt, said s [line]).
Proof. reflexivity. Qed.

Lemma bindP_say {A} line (k : unit -> P A) s :
  bindP (say line) k s
  = k tt (mkStudio (printed (console s) [line]) (figure s) (images s)).
Proof. reflexivity. Qed.

Lemma bindP_ret {A B} (a : A) (k : A -> P B) s : bindP (retP a) k s = k a s.
Proof. reflexivity. Qed.

Lemma bindP_liftE_inr {A B} (a : A) (k : A -> P B) s :
  bindP (liftE (inr a)) k s = k a s.
Proof. reflexivity. Qed.

Lemma bindP_liftE_inl {A B} (e : exn) (k : A -> P B) s :
  bindP (liftE (inl e)) k s = (inl (Std e), s).
Proof. reflexivity. Qed.

Lemma bindP_liftP_inr {A B} (a : A) (k : A -> P B) s :
  bindP (liftP (inr a)) k s = k a s.
Proof. reflexivity. Qed.

Lemma bindP_liftP_inl {A B} (e : error) (k : A -> P B) s :
  bindP (liftP (inl e)) k s = (inl e, s).
Proof. reflexivity. Qed.

Lemma bindP_subplots {A} (k : unit -> P A) s :
  bindP subplots k s = k tt (mkStudio (console s) [] (images s)).
Proof. reflexivity. Qed.

Lemma bindP_draw {A} a (k : unit -> P A) s :
  bindP (draw a) k s
  = k tt (mkStudio (console s) (figure s ++ [a])%list (images s)).
Proof. reflexivity. Qed.

Lemma bindP_savefig {A} path (k : unit -> P A) s :
  bindP (savefig path) k s
  = k tt (mkStudio (console s) (figure s)
                   (images s ++ [(path, figure s)])%list).
Proof. reflexivity. Qed.

Lemma bindP_close {A} (k : unit -> P A) s :
  bindP close k s = k tt (mkStudio (console s) [] (images s)).
Proof. reflexivity. Qed.

Lemma bindP_run {A B} (m : P A) (k : A -> P B) s a s' :
  m s = (inr a, s') -> bindP m k s = k a s'.
Proof. unfold bindP. now intros ->. Qed.

Lemma bindP_fail {A B} (m : P A) (k : A -> P B) s e s' :
  m s = (inl e, s') -> bindP m k s = (inl e, s').
Proof. unfold bindP. now intros ->. Qed.

Ltac pstep :=
  first [ rewrite bindP_say | rewrite bindP_ret | rewrite bindP_liftE_inr
        | rewrite bindP_liftE_inl | rewrite bindP_liftP_inr
        | rewrite bindP_liftP_inl | rewrite bindP_subplots
        | rewrite bindP_draw | rewrite bindP_savefig | rewrite bindP_close ];
  cbv beta iota zeta; cbn [console figure images];
  rewrite ?printed_printed; cbn [app].

Lemma iloc_col_in df k :
  k < List.length (columns df) ->
  pd2.iloc_col df k = inr (map (pd.field k) (rows df)).
Proof.
  intros Hk. unfold pd2.iloc_col.
  apply Nat.ltb_lt in Hk. now rewrite Hk.
Qed.

Lemma iloc_col_out df k :
  List.length (columns df) <= k -> pd2.iloc_col df k = inl IndexError.
Proof.
  intros Hk. unfold pd2.iloc_col.
  apply Nat.ltb_ge in Hk. now rewrite Hk.
Qed.

Section PcaAndMissingness.

Context `{NumPy}.
Variable read_table : string -> exn + DataFrame.

(** X7: the PCA routine takes its columns by position, whatever their names:
    with fewer than five it raises [IndexError] and saves nothing, with five
    or more it saves one figure whose scatters are the third column against
    the fourth and the fourth against the fifth. *)
Theorem pca_plot_needs_five_columns pca_file output_file s df :
  read_table pca_file = inr df ->
  (List.length (columns df) < 5 ->
   exists s',
     generate_plots.pca_plot read_table pca_file output_file s = (inl (Std IndexError), s') /\
     images s' = images s /\
     console s' = printed (console s) ["Creating PCA plot from " ++ pca_file])
  /\
  (5 <= List.length (columns df) ->
   exists fig,
     generate_plots.pca_plot read_table pca_file output_file s
     = (inr tt,
        mkStudio (printed (console s)
                    ["Creating PCA plot from " ++ pca_file;
                     "PCA plot saved to: " ++ output_file])
                 [] (images s ++ [(output_file, fig)])%list) /\
     filter (fun a => match a with Scatter _ _ _ _ => true | _ => false end)
            fig
     = [Scatter 0 (map (pd.field 2) (rows df)) (map (pd.field 3) (rows df))
                None;
        Scatter 1 (map (pd.field 3) (rows df)) (map (pd.field 4) (rows df))
                None]).
Proof.
  intros Hread. split; intros Hlen.
  - unfold generate_plots.pca_plot. pstep. rewrite Hread. pstep. pstep.
    destruct (Nat.lt_ge_cases 2 (List.length (columns df))) as [H2|H2];
      [|rewrite (iloc_col_out df 2) by lia; pstep; eexists; repeat split].
    rewrite (iloc_col_in df 2) by lia. pstep.
    destruct (Nat.lt_ge_cases 3 (List.length (columns df))) as [H3|H3];
      [|rewrite (iloc_col_out df 3) by lia; pstep; eexists; repeat split].
    rewrite !(iloc_col_in df 3) by lia. do 7 pstep.
    rewrite (iloc_col_out df 4) by lia. pstep. eexists. repeat split.
  - unfold generate_plots.pca_plot. pstep. rewrite Hread. pstep. pstep.
    rewrite (iloc_col_in df 2), !(iloc_col_in df 3), (iloc_col_in df 4) by lia.
    repeat pstep. rewrite say_run. unfold said. cbn [console figure images].
    rewrite printed_printed. eexists. split; [reflexivity|]. reflexivity.
Qed.

(** X8: the missingness routine reads both tables before it draws: a failed
    read or a table without [F_MISS] raises and nothing is saved; otherwise
    one figure with the two histograms, 50 bins each, is saved. *)
Theorem missingness_plot_outcome lmiss imiss output_file s :
  let s1 := said s ["Creating missingness plots"] in
  match read_table lmiss, read_table imiss with
  | inl e, _ =>
      generate_plots.missingness_plot read_table lmiss imiss output_file s = (inl (Std e), s1)
  | inr _, inl e =>
      generate_plots.missingness_plot read_table lmiss imiss output_file s = (inl (Std e), s1)
  | inr snp, inr ind =>
      if (pd.has_column snp "F_MISS" && pd.has_column ind "F_MISS")%bool then
        exists fig f_snp f_ind,
          generate_plots.missingness_plot read_table lmiss imiss output_file s
          = (inr tt,
             mkStudio (printed (console s)
                         ["Creating missingness plots";
                          "Missingness plots saved to: " ++ output_file])
                      [] (images s ++ [(output_file, fig)])%list) /\
          pd.getitem snp "F_MISS" = inr f_snp /\
          pd.getitem ind "F_MISS" = inr f_ind /\
          filter (fun a => match a with Hist _ _ _ => true | _ => false end)
                 fig
          = [Hist 0 f_snp 50; Hist 1 f_ind 50]
      else
        exists s',
          generate_plots.missingness_plot read_table lmiss imiss output_file s
          = (inl (Std (KeyError ["F_MISS"])), s') /\
          images s' = images s /\ console s' = console s1
  end.
Proof.
  intros s1. unfold generate_plots.missingness_plot. pstep.
  destruct (read_table lmiss) as [e|snp]; pstep; [reflexivity|].
  destruct (read_table imiss) as [e|ind]; pstep; [reflexivity|].
  pstep. unfold pd.getitem, pd.has_column.
  destruct (existsb (String.eqb "F_MISS") (columns snp)) eqn:Hs.
  - destruct (get_loc_has _ _ Hs) as [js ->]. do 8 pstep.
    destruct (existsb (String.eqb "F_MISS") (columns ind)) eqn:Hi.
    + destruct (get_loc_has _ _ Hi) as [ji ->]. repeat pstep.
      rewrite say_run. unfold said. cbn [console figure images andb].
      rewrite printed_printed. do 3 eexists.
      split; [reflexivity|]. repeat split.
    + rewrite (get_loc_none _ _ Hi). pstep. cbn [andb].
      eexists. repeat split.
  - rewrite (get_loc_none _ _ Hs). pstep. cbn [andb].
    eexists. repeat split.
Qed.

End PcaAndMissingness.

Section QQ.

Context `{NumPy}.
Variable read_table : string -> exn + DataFrame.
Variable format_3f : float -> string.

Lemma p_col_lift df :
  (if pd.has_column df "P" then inr "P" else pd.columns_getitem df 8)
  = p_col_of df.
Proof. reflexivity. Qed.

Local Notation qq_figure := (qq_figure format_3f).

Lemma qq_plot_run assoc_file output_file title s df j :
  read_table assoc_file = inr df ->
  p_loc df = Some j ->
  float64_column j df = true ->
  let pvals := map (pvalue j) (valid j df) in
  let observed := sort (map (fun x => F64.neg (log10 x)) pvals) in
  let expected := qq_expected_of (List.length pvals) in
  let s1 := said s ["Creating Q-Q plot from " ++ assoc_file] in
  generate_plots.qq_plot read_table format_3f assoc_file output_file title s
  = match percentile pvals 50 with
    | inl e => (inl (Std e), s1)
    | inr chisq =>
        let lambda_gc := lambda_value (qq_lambda_of pvals chisq) in
        let s2 := mkStudio (console s1)
                           [Scatter 0 (map Num expected) (map Num observed)
                                    None]
                           (images s) in
        match py.amax expected, py.amax observed with
        | inl e, _ => (inl e, s2)
        | inr _, inl e => (inl e, s2)
        | inr emax, inr omax =>
            (inr lambda_gc,
             mkStudio
               (printed (console s)
                        ["Creating Q-Q plot from " ++ assoc_file;
                         "Q-Q plot saved to: " ++ output_file])
               []
               (images s
                ++ [(output_file,
                     qq_figure title expected observed (py.max emax omax)
                               lambda_gc)])%list)
        end
    end.
Proof.
  intros Hread Hloc Hnum pvals observed expected s1.
  destruct (p_loc_col _ _ Hloc) as (pc & Hpc & Hget).
  set (dfc := mkDataFrame (columns df) (cleaned j df)).
  assert (Hnumc : float64_column j dfc = true).
  { unfold float64_column in *. rewrite forallb_forall in *.
    intros r Hr. apply Hnum. now apply cleaned_incl in Hr. }
  assert (Hclean : pd.getitem_mask df (pd.notna (map (pd.field j) (rows df)))
                   = dfc).
  { unfold pd.getitem_mask, pd.notna. now rewrite select_map_map. }
  assert (Hcol : pd.getitem dfc pc = inr (map (pd.field j) (rows dfc))).
  { unfold pd.getitem. simpl columns. now rewrite Hget. }
  unfold generate_plots.qq_plot. pstep. rewrite Hread. pstep.
  rewrite p_col_lift, Hpc. pstep.
  unfold pd.getitem at 1. rewrite Hget. pstep.
  rewrite !Hclean, !Hcol. pstep.
  rewrite !(gt_column j dfc) by (auto using incl_refl). pstep.
  rewrite !select_map2, !floats_column.
  change (filter _ (rows dfc)) with (valid j df). fold pvals. fold observed.
  assert (Hlen : List.length observed = List.length pvals).
  { unfold observed. rewrite (Permutation_length (sort_perm _)).
    apply length_map. }
  rewrite !Hlen, arange_1.
  assert (Hexp : map (fun i => F64.neg (log10 (F64.div (F64.of_Z i)
                         (F64.of_Z (Z.of_nat (List.length pvals) + 1)))))
                     (map Z.of_nat (seq 1 (List.length pvals)))
                 = expected).
  { unfold expected, qq_expected_of, F64.of_nat.
    rewrite map_map, Nat2Z.inj_add. reflexivity. }
  rewrite !Hexp.
  destruct (percentile pvals 50) as [e|chisq]; pstep; [reflexivity|].
  assert (Hlam : (if F64.gtb chisq F64.zero
                  then F64.div
                         (median
                            (map (fun z => np.square
                                    (F64.mul (F64.sqrt (F64.of_Z 2))
                                             (F64.abs z)))
                                 (randn (List.length pvals)))) chisq
                  else F64.of_Z 1)
                 = lambda_value (qq_lambda_of pvals chisq)).
  { unfold qq_lambda_of. destruct (F64.gtb chisq F64.zero); reflexivity. }
  rewrite !Hlam. do 2 pstep.
  destruct (py.amax expected) as [e|emax]; pstep; [reflexivity|].
  destruct (py.amax observed) as [e|omax]; pstep; [reflexivity|].
  repeat pstep. reflexivity.
Qed.

Lemma amax_defined (a : list float) : a <> [] -> exists m, py.amax a = inr m.
Proof. destruct a; [congruence|]. intros _. eexists. reflexivity. Qed.

(** X9: without a positive p-value the Q-Q routine raises and saves nothing;
    if the percentile of the empty array returned, the error is the
    [ValueError] of [max] over an empty array. *)
Theorem qq_plot_needs_a_p_value assoc_file output_file title s df j :
  read_table assoc_file = inr df ->
  p_loc df = Some j ->
  float64_column j df = true ->
  valid j df = [] ->
  exists e s',
    generate_plots.qq_plot read_table format_3f assoc_file output_file title s = (inl e, s') /\
    images s' = images s /\
    (forall chisq, percentile [] 50 = inr chisq -> e = ValueError).
Proof.
  intros Hread Hloc Hnum Hnil.
  rewrite (qq_plot_run _ _ _ _ df j Hread Hloc Hnum). cbv zeta.
  rewrite Hnil. cbn [map List.length].
  destruct (percentile [] 50) as [e|chisq].
  - exists (Std e). eexists. repeat split. intros c Hc. discriminate Hc.
  - exists ValueError. eexists. repeat split.
Qed.

(** X10: with a positive p-value the Q-Q routine saves one figure, of the data
    that [qq_data_of] computes: the points pair the expected values with the
    observed ones, which are -log10 of the valid p-values in ascending
    order; the diagonal ends at the larger of the two maxima and the value
    returned is the lambda of the title. *)
Theorem qq_plot_draws_its_data assoc_file output_file title s df j :
  read_table assoc_file = inr df ->
  p_loc df = Some j ->
  float64_column j df = true ->
  valid j df <> [] ->
  exists d w' emax omax,
    qq_data_of read_table assoc_file (console s) = (inr d, w') /\
    py.amax (qq_expected d) = inr emax /\
    py.amax (qq_observed d) = inr omax /\
    Sorted key_le (qq_observed d) /\
    Permutation (qq_observed d)
                (map (fun r => F64.neg (log10 (pvalue j r))) (valid j df)) /\
    generate_plots.qq_plot read_table format_3f assoc_file output_file title s
    = (inr (lambda_value (qq_lambda d)),
       mkStudio (printed w' ["Q-Q plot saved to: " ++ output_file]) []
                (images s
                 ++ [(output_file,
                      qq_figure title (qq_expected d) (qq_observed d)
                                (py.max emax omax)
                                (lambda_value (qq_lambda d)))])%list).
Proof.
  intros Hread Hloc Hnum Hne.
  pose proof (qq_run read_table assoc_file (console s) df j Hread Hloc Hnum)
    as Hdata. cbv zeta in Hdata.
  rewrite (qq_plot_run _ _ _ _ df j Hread Hloc Hnum). cbv zeta.
  set (pvals := map (pvalue j) (valid j df)) in *.
  assert (Hp : pvals <> []).
  { unfold pvals. intros Hnil. apply map_eq_nil in Hnil. auto. }
  destruct (percentile_defined pvals 50 Hp) as [chisq Hchisq].
  rewrite Hchisq in *.
  destruct (amax_defined (qq_expected_of (List.length pvals))) as [emax He].
  { unfold qq_expected_of. destruct pvals; [congruence|]. discriminate. }
  destruct (amax_defined (sort (map (fun x => F64.neg (log10 x)) pvals)))
    as [omax Ho].
  { intros Hnil. apply (f_equal (@List.length float)) in Hnil.
    rewrite (Permutation_length (sort_perm _)), length_map in Hnil.
    destruct pvals; [congruence|discriminate]. }
  rewrite He, Ho.
  do 4 eexists. split; [exact Hdata|]. cbn [qq_expected qq_observed qq_lambda].
  split; [exact He|]. split; [exact Ho|].
  split; [apply sort_sorted|].
  split; [etransitivity; [apply sort_perm|]; unfold pvals; rewrite map_map;
          reflexivity|].
  rewrite printed_printed. reflexivity.
Qed.

Lemma qq_plot_succeeds assoc_file output_file title s df j :
  read_table assoc_file = inr df ->
  p_loc df = Some j ->
  float64_column j df = true ->
  valid j df <> [] ->
  exists lambda_gc fig,
    generate_plots.qq_plot read_table format_3f assoc_file output_file title s
    = (inr lambda_gc,
       mkStudio (printed (console s)
                         ["Creating Q-Q plot from " ++ assoc_file;
                          "Q-Q plot saved to: " ++ output_file])
                []
                (images s ++ [(output_file, fig)])%list).
Proof.
  intros Hread Hloc Hnum Hne.
  rewrite (qq_plot_run _ _ _ _ df j Hread Hloc Hnum). cbv zeta.
  set (pvals := map (pvalue j) (valid j df)) in *.
  assert (Hp : pvals <> []).
  { unfold pvals. intros Hnil. apply map_eq_nil in Hnil. auto. }
  destruct (percentile_defined pvals 50 Hp) as [chisq Hchisq].
  rewrite Hchisq.
  destruct (amax_defined (qq_expected_of (List.length pvals))) as [emax He].
  { unfold qq_expected_of. destruct pvals; [congruence|]. discriminate. }
  destruct (amax_defined (sort (map (fun x => F64.neg (log10 x)) pvals)))
    as [omax Ho].
  { intros Hnil. apply (f_equal (@List.length float)) in Hnil.
    rewrite (Permutation_length (sort_perm _)), length_map in Hnil.
    destruct pvals; [congruence|discriminate]. }
  rewrite He, Ho. eexists. eexists. reflexivity.
Qed.

End QQ.

(** ** Facts about the remaining pandas calls *)

Lemma insert_perm2 {A} (leb : A -> A -> bool) a l :
  Permutation (pd2.insert leb a l) (a :: l).
Proof.
  induction l as [|b l IH]; cbn [pd2.insert]; [reflexivity|].
  destruct (leb a b); [reflexivity|].
  rewrite IH. apply perm_swap.
Qed.

Lemma stable_sort_perm {A} (leb : A -> A -> bool) l :
  Permutation (pd2.stable_sort leb l) l.
Proof.
  induction l as [|a l IH]; cbn [pd2.stable_sort fold_right]; [constructor|].
  fold (pd2.stable_sort leb l). rewrite insert_perm2. now constructor.
Qed.

Lemma unique_incl l k : In k (pd2.unique l) -> In k l.
Proof.
  revert k. induction l as [|a l IH]; intros k; cbn [pd2.unique]; [trivial|].
  destruct (pd2.unique l) as [|b u] eqn:Hu.
  - intros [<-|[]]. now left.
  - destruct (pd2.cell_eqb a b); intros Hk.
    + right. now apply IH.
    + destruct Hk as [<-|Hk]; [now left|right; now apply IH].
Qed.

Lemma string_compare_refl s : String.compare s s = Eq.
Proof.
  pose proof (String.compare_antisym s s) as Ha.
  destruct (String.compare s s); trivial; discriminate.
Qed.

Lemma cell_compare_refl c : pd2.cell_compare c c = Eq.
Proof.
  destruct c as [x|s]; cbn [pd2.cell_compare]; [|apply string_compare_refl].
  destruct x as [[]|[]| |[] m e]; cbn; trivial;
    rewrite Z.compare_refl; try reflexivity;
    change (Pos.compare_cont Eq m m) with (Pos.compare m m);
    now rewrite Pos.compare_refl.
Qed.

Lemma field_set_nth_other j k v r :
  j <> k -> pd.field j (pd.set_nth k v r) = pd.field j r.
Proof.
  unfold pd.field. revert j r.
  induction k as [|k IH]; intros [|j] [|c r] Hjk; cbn; try congruence; trivial.
  - now destruct j.
  - rewrite IH by congruence. now destruct j.
  - apply IH. congruence.
Qed.

Lemma get_loc_app_l names more c k :
  pd.get_loc names c = Some k -> pd.get_loc (names ++ more) c = Some k.
Proof.
  revert k. induction names as [|d names IH]; intros k; cbn; [discriminate|].
  destruct (String.eqb c d); [trivial|].
  destruct (pd.get_loc names c) as [i|]; cbn; [|discriminate].
  intros [= <-]. now rewrite (IH i eq_refl).
Qed.

Lemma get_loc_lt names c k :
  pd.get_loc names c = Some k -> k < List.length names.
Proof.
  revert k. induction names as [|d names IH]; intros k; cbn; [discriminate|].
  destruct (String.eqb c d); [intros [= <-]; lia|].
  destruct (pd.get_loc names c) as [i|]; cbn; [|discriminate].
  intros [= <-]. specialize (IH i eq_refl). lia.
Qed.

Lemma get_loc_inj names c d k :
  pd.get_loc names c = Some k -> pd.get_loc names d = Some k -> c = d.
Proof.
  revert k. induction names as [|e names IH]; intros k; cbn; [discriminate|].
  destruct (String.eqb_spec c e) as [->|Hc], (String.eqb_spec d e) as [->|Hd];
    trivial.
  - intros [= <-]. destruct (pd.get_loc names d); cbn; discriminate.
  - destruct (pd.get_loc names c); cbn; [|discriminate].
    intros [= <-]. discriminate.
  - destruct (pd.get_loc names c) as [i|], (pd.get_loc names d) as [i'|];
      cbn; try discriminate.
    intros [= <-] [= ->]. now apply (IH i).
Qed.

(** The columns after [df[name] = ...]. *)
Lemma setitem_columns df name values :
  columns (pd.setitem df name values)
  = if pd.has_column df name then columns df else (columns df ++ [name])%list.
Proof. reflexivity. Qed.

Lemma setitem_keeps_loc df name values c k :
  pd.get_loc (columns df) c = Some k ->
  pd.get_loc (columns (pd.setitem df name values)) c = Some k.
Proof.
  intros Hc. rewrite setitem_columns.
  destruct (pd.has_column df name); [exact Hc|now apply get_loc_app_l].
Qed.

Lemma has_column_iff df c :
  pd.has_column df c = true <-> exists k, pd.get_loc (columns df) c = Some k.
Proof.
  split.
  - apply get_loc_has.
  - intros [k Hk]. unfold pd.has_column.
    destruct (existsb (String.eqb c) (columns df)) eqn:Hex; trivial.
    rewrite (get_loc_none _ _ Hex) in Hk. discriminate.
Qed.

Lemma setitem_has_column df name values c :
  c <> name ->
  pd.has_column (pd.setitem df name values) c = pd.has_column df c.
Proof.
  intros Hne.
  change (pd.has_column (pd.setitem df name values) c)
    with (existsb (String.eqb c) (columns (pd.setitem df name values))).
  rewrite setitem_columns.
  destruct (pd.has_column df name); [reflexivity|].
  rewrite existsb_app. cbn [existsb].
  destruct (String.eqb_spec c name); [congruence|].
  rewrite !orb_false_r. reflexivity.
Qed.

(** ** The Manhattan routine, statement by statement *)

Section Manhattan.

Context `{NumPy}.
Variable read_table : string -> exn + DataFrame.
Variable str_key : cell -> string.

Local Notation manhattan_figure := (manhattan_figure str_key).

Lemma numeric_field jI r :
  is_num (pd.field jI r) = true ->
  pd2.numeric (pd.field jI r) = inr (pvalue jI r).
Proof. unfold pvalue. destruct (pd.field jI r); [reflexivity|discriminate]. Qed.

Lemma plot_groups_run cols jI jM :
  pd.get_loc cols "IND" = Some jI ->
  pd.get_loc cols "MINLOG10P" = Some jM ->
  forall groups num L Pz s,
    Forall (well_formed cols jI) groups ->
    generate_plots.plot_groups str_key num groups L Pz s
    = (inr ((L ++ map (fun kg => str_key (fst kg)) groups)%list,
            (Pz ++ map (fun kg => group_tick jI (snd kg)) groups)%list),
       mkStudio (console s) (figure s ++ scatters jI jM num groups)%list
                (images s)).
Proof.
  intros HI HM. induction groups as [|[k g] groups IH]; intros num L Pz s Hwf.
  - cbn [generate_plots.plot_groups map scatters]. rewrite !app_nil_r. now destruct s.
  - apply Forall_cons_iff in Hwf as [(Hc & Hne & Hnum) Hwf].
    cbn [fst snd] in *.
    assert (Hind : pd.getitem g "IND" = inr (map (pd.field jI) (rows g))).
    { unfold pd.getitem. now rewrite Hc, HI. }
    assert (Hmin : pd.getitem g "MINLOG10P"
                   = inr (map (pd.field jM) (rows g))).
    { unfold pd.getitem. now rewrite Hc, HM. }
    assert (Hfirst : exists r, hd [] (rows g) = r /\ In r (rows g) /\
              pd2.iloc_first (map (pd.field jI) (rows g))
              = inr (pd.field jI r)).
    { destruct (rows g) as [|r rs]; [congruence|].
      exists r. cbn. auto. }
    assert (Hlast : exists r, hd [] (rev (rows g)) = r /\ In r (rows g) /\
              pd2.iloc_last (map (pd.field jI) (rows g))
              = inr (pd.field jI r)).
    { unfold pd2.iloc_last. rewrite <- map_rev.
      pose proof (rev_involutive (rows g)) as Hinv.
      pose proof (in_rev (rows g)) as Hin.
      destruct (rev (rows g)) as [|r rs].
      - cbn in Hinv. congruence.
      - exists r. cbn. repeat split; trivial.
        apply Hin. now left. }
    destruct Hfirst as (r0 & Hr0 & Hin0 & Hf), Hlast as (r1 & Hr1 & Hin1 & Hl).
    rewrite Forall_forall in Hnum.
    cbn [generate_plots.plot_groups]. rewrite !Hind, Hmin. do 4 pstep.
    rewrite Hf. pstep. rewrite (numeric_field jI r0) by auto. do 2 pstep.
    rewrite Hl. pstep. rewrite (numeric_field jI r1) by auto. pstep.
    rewrite IH by exact Hwf. cbn [console figure images map scatters fst snd].
    unfold group_tick. rewrite Hr0, Hr1, <- !app_assoc. reflexivity.
Qed.

Lemma header31_setitem j df :
  header31 df
  = columns (pd.setitem (mkDataFrame (columns df) (cleaned j df)) "MINLOG10P"
                        (map (minlog10p j) (cleaned j df))).
Proof. reflexivity. Qed.

Lemma header31_loc df c k :
  pd.get_loc (columns df) c = Some k -> pd.get_loc (header31 df) c = Some k.
Proof.
  intros Hc. unfold header31.
  destruct (pd.has_column df "MINLOG10P"); [exact Hc|now apply get_loc_app_l].
Qed.

Lemma header31_minlog df :
  pd.get_loc (header31 df) "MINLOG10P" = Some (minlog_loc df).
Proof.
  rewrite (header31_setitem 0). rewrite setitem_loc. reflexivity.
Qed.

Lemma frame37_loc j df c k :
  pd.get_loc (header31 df) c = Some k ->
  pd.get_loc (columns (frame37 j df)) c = Some k.
Proof. intros Hc. unfold frame37. now apply setitem_keeps_loc. Qed.

Lemma frame37_ind j df :
  pd.get_loc (columns (frame37 j df)) "IND" = Some (ind_loc df).
Proof. unfold frame37. rewrite setitem_loc. reflexivity. Qed.

Lemma frame37_has j df c :
  c <> "MINLOG10P" -> c <> "IND" ->
  pd.has_column (frame37 j df) c = pd.has_column df c.
Proof.
  intros Hm Hi. unfold frame37. rewrite setitem_has_column by exact Hi.
  change (pd.has_column {| columns := header31 df; rows := sorted_rows j df |} c)
    with (existsb (String.eqb c) (header31 df)).
  rewrite (header31_setitem j).
  exact (setitem_has_column (mkDataFrame (columns df) (cleaned j df))
                            "MINLOG10P" [] c Hm).
Qed.

Lemma frame37_rows j df :
  rows (frame37 j df)
  = map (fun ir => pd.set_nth (ind_loc df) (Num (F64.of_nat (fst ir))) (snd ir))
        (combine (seq 0 (List.length (sorted_rows j df))) (sorted_rows j df)).
Proof.
  unfold frame37, pd.setitem, pd2.range. cbn [rows columns].
  fold (ind_loc df).
  generalize 0. induction (sorted_rows j df) as [|r l IH]; intros k;
    [reflexivity|].
  cbn [List.length seq map combine fst snd]. now rewrite IH.
Qed.

Lemma frame37_numeric j df r :
  In r (rows (frame37 j df)) -> is_num (pd.field (ind_loc df) r) = true.
Proof.
  rewrite frame37_rows, in_map_iff. intros ([i r0] & <- & _).
  cbn [fst snd]. now rewrite field_set_nth.
Qed.

Lemma frame37_origin j df r :
  In r (rows (frame37 j df)) ->
  exists i r0, In r0 (cleaned j df) /\
    r = pd.set_nth (ind_loc df) (Num (F64.of_nat i))
          (pd.set_nth (minlog_loc df) (minlog10p j r0) r0).
Proof.
  rewrite frame37_rows, in_map_iff. intros ([i r1] & <- & Hin).
  apply in_combine_r in Hin. cbn [fst snd].
  unfold sorted_rows in Hin.
  apply (Permutation_in _ (stable_sort_perm _ _)) in Hin.
  unfold plotted in Hin. apply in_map_iff in Hin as (r0 & <- & Hr0).
  apply filter_In in Hr0 as [Hr0 _]. now exists i, r0.
Qed.

Lemma frame37_float64 j df :
  float64_column j df = true -> float64_column j (frame37 j df) = true.
Proof.
  intros Hnum. unfold float64_column. apply forallb_forall. intros r Hr.
  apply frame37_origin in Hr as (i & r0 & Hr0 & ->).
  destruct (Nat.eq_dec j (ind_loc df)) as [->|Hi];
    [now rewrite field_set_nth|].
  rewrite field_set_nth_other by exact Hi.
  destruct (Nat.eq_dec j (minlog_loc df)) as [->|Hm];
    [now rewrite field_set_nth|].
  rewrite field_set_nth_other by exact Hm.
  apply cleaned_incl in Hr0.
  now rewrite (float64_field j df r0 Hnum Hr0).
Qed.

Lemma groups37_well_formed j df jC :
  pd.get_loc (columns (frame37 j df)) "CHR" = Some jC ->
  Forall (well_formed (columns (frame37 j df)) (ind_loc df)) (groups37 j df).
Proof.
  intros HC. unfold groups37, pd2.groupby. rewrite HC.
  apply Forall_forall. intros kg Hkg.
  apply in_map_iff in Hkg as (k & <- & Hk).
  apply unique_incl in Hk.
  apply (Permutation_in _ (stable_sort_perm _ _)) in Hk.
  apply filter_In in Hk as [Hk _].
  apply in_map_iff in Hk as (r & <- & Hr).
  unfold well_formed. cbn [fst snd columns rows]. split; [reflexivity|]. split.
  - intros Hnil.
    assert (Hin : In r (filter (fun r' => pd2.cell_eqb (pd.field jC r')
                                            (pd.field jC r))
                               (rows (frame37 j df)))).
    { apply filter_In. split; [exact Hr|].
      unfold pd2.cell_eqb. now rewrite cell_compare_refl. }
    rewrite Hnil in Hin. destruct Hin.
  - apply Forall_forall. intros r' Hr'. apply filter_In in Hr' as [Hr' _].
    now apply (frame37_numeric j).
Qed.

Lemma first_missing_31 j df :
  pd2.first_missing ["CHR"; "BP"] (mkDataFrame (header31 df) (plotted j df))
  = pd2.first_missing ["CHR"; "BP"] df.
Proof.
  assert (Hhas : forall c, c <> "MINLOG10P" ->
            pd.has_column (mkDataFrame (header31 df) (plotted j df)) c
            = pd.has_column df c).
  { intros c Hc.
    exact (setitem_has_column (mkDataFrame (columns df) (cleaned j df))
                              "MINLOG10P" [] c Hc). }
  cbn [pd2.first_missing]. rewrite !Hhas by discriminate. reflexivity.
Qed.

(** The run of the Manhattan routine on a table whose p-value column is
    numeric. *)
Lemma manhattan_plot_run assoc_file output_file title s df j pc :
  read_table assoc_file = inr df ->
  p_loc df = Some j ->
  p_col_of df = inr pc ->
  float64_column j df = true ->
  generate_plots.manhattan_plot read_table str_key assoc_file output_file title s
  = match pd2.first_missing ["CHR"; "BP"] df with
    | Some c =>
        (inl (Std (KeyError [c])),
         said s ["Creating Manhattan plot from " ++ assoc_file])
    | None =>
        let s' :=
          mkStudio
            (printed (console s)
                     ["Creating Manhattan plot from " ++ assoc_file;
                      "Manhattan plot saved to: " ++ output_file])
            []
            (images s ++ [(output_file, manhattan_figure title j df)])%list in
        match pd.getitem_list (smallest j df) ["CHR"; "SNP"; "BP"; pc] with
        | inl e => (inl (Std e), s')
        | inr top_snps => (inr top_snps, s')
        end
    end.
Proof.
  intros Hread Hloc Hpc Hnum.
  assert (Hget : pd.get_loc (columns df) pc = Some j).
  { destruct (p_loc_col _ _ Hloc) as (pc' & Hpc' & Hget). congruence. }
  set (dfc := mkDataFrame (columns df) (cleaned j df)).
  assert (Hnumc : float64_column j dfc = true).
  { unfold float64_column in *. rewrite forallb_forall in *.
    intros r Hr. apply Hnum. now apply cleaned_incl in Hr. }
  assert (Hclean : pd.getitem_mask df (pd.notna (map (pd.field j) (rows df)))
                   = dfc).
  { unfold pd.getitem_mask, pd.notna. now rewrite select_map_map. }
  assert (Hcol : pd.getitem dfc pc = inr (map (pd.field j) (rows dfc))).
  { unfold pd.getitem. simpl columns. now rewrite Hget. }
  assert (Hlog : pd.traverse np.neg_log10_cell (map (pd.field j) (rows dfc))
                 = inr (map (minlog10p j) (rows dfc))).
  { rewrite (traverse_map_inr _
               (fun c => match c with
                         | Num x => Num (F64.neg (log10 x))
                         | Str _ => c
                         end)).
    - rewrite map_map. f_equal. apply map_ext_in. intros r Hr.
      unfold minlog10p. now rewrite (float64_field j dfc r).
    - intros c Hc. apply in_map_iff in Hc as (r & <- & Hr).
      now rewrite (float64_field j dfc r). }
  unfold generate_plots.manhattan_plot. pstep. rewrite Hread. pstep.
  rewrite p_col_lift, Hpc. pstep.
  unfold pd.getitem at 1. rewrite Hget. pstep.
  rewrite !Hclean, !Hcol. pstep. rewrite !Hlog. pstep.
  set (df2 := pd.setitem dfc "MINLOG10P" (map (minlog10p j) (rows dfc))).
  assert (Hrows : rows df2
                  = map (fun r => pd.set_nth (minlog_loc df) (minlog10p j r) r)
                        (cleaned j df)).
  { unfold df2, pd.setitem. cbn [rows columns].
    rewrite combine_map_r, map_map. reflexivity. }
  assert (Hm : pd.getitem df2 "MINLOG10P"
               = inr (map (minlog10p j) (cleaned j df))).
  { unfold pd.getitem. unfold df2 at 1. rewrite setitem_loc.
    rewrite Hrows, map_map. f_equal. apply map_ext. intros r.
    apply field_set_nth. }
  rewrite Hm. pstep.
  assert (H31 : pd.getitem_mask df2 (pd.notna (map (minlog10p j) (cleaned j df)))
                = mkDataFrame (header31 df) (plotted j df)).
  { unfold pd.getitem_mask, pd.notna, plotted.
    rewrite Hrows, (map_map (minlog10p j)), select_map2. reflexivity. }
  rewrite !H31. unfold pd2.sort_values_list. rewrite first_missing_31.
  destruct (pd2.first_missing ["CHR"; "BP"] df) as [c|] eqn:Hfm;
    [pstep; reflexivity|].
  pstep. cbn [columns rows map].
  change (pd2.stable_sort _ (plotted j df)) with (sorted_rows j df).
  unfold len. cbn [rows]. fold (frame37 j df).
  assert (HCBP : pd.has_column df "CHR" = true /\ pd.has_column df "BP" = true).
  { cbn [pd2.first_missing] in Hfm.
    destruct (pd.has_column df "CHR"); [|discriminate].
    destruct (pd.has_column df "BP"); [|discriminate]. auto. }
  destruct HCBP as [HCHR HBP].
  destruct (proj1 (has_column_iff df "CHR") HCHR) as [jC HjC].
  pose proof (frame37_loc j df _ _ (header31_loc df _ _ HjC)) as HC37.
  pose proof (groups37_well_formed j df jC HC37) as Hwf.
  assert (Hgrp : pd2.groupby (frame37 j df) "CHR" = inr (groups37 j df)).
  { unfold groups37, pd2.groupby. now rewrite HC37. }
  rewrite Hgrp. pstep. pstep.
  rewrite (bindP_run _ _ _ _ _
             (plot_groups_run (columns (frame37 j df)) (ind_loc df)
                (minlog_loc df) (frame37_ind j df)
                (frame37_loc j df _ _ (header31_minlog df))
                (groups37 j df) 0 [] [] _ Hwf)).
  cbn [fst snd app]. do 13 pstep.
  assert (Hsm : pd2.nsmallest (frame37 j df) 10 pc = inr (smallest j df)).
  { unfold pd2.nsmallest, pd.getitem.
    rewrite (frame37_loc j df _ _ (header31_loc df _ _ Hget)).
    rewrite (traverse_map_inr _ (fun c => match c with
                                          | Num x => x
                                          | Str _ => F64.nan
                                          end)).
    - rewrite map_map. reflexivity.
    - intros c Hc. apply in_map_iff in Hc as (r & <- & Hr).
      now rewrite (float64_field j _ r (frame37_float64 j df Hnum) Hr). }
  rewrite Hsm. pstep.
  destruct (pd.getitem_list (smallest j df) ["CHR"; "SNP"; "BP"; pc]);
    pstep; unfold manhattan_figure; rewrite <- ?app_assoc; reflexivity.
Qed.

Lemma smallest_has j df c :
  pd.has_column (smallest j df) c = pd.has_column (frame37 j df) c.
Proof. reflexivity. Qed.

Lemma frame37_has_p j df pc :
  pd.get_loc (columns df) pc = Some j ->
  pd.has_column (frame37 j df) pc = true.
Proof.
  intros Hget. apply has_column_iff. exists j.
  now apply frame37_loc, header31_loc.
Qed.


(** X12: without [SNP] the figure is saved and reported, and only then does
    the routine fail, on the table of the best records. *)
Theorem manhattan_plot_saves_before_it_fails
        assoc_file output_file title s df j :
  read_table assoc_file = inr df ->
  p_loc df = Some j ->
  float64_column j df = true ->
  pd.has_column df "CHR" = true ->
  pd.has_column df "BP" = true ->
  pd.has_column df "SNP" = false ->
  generate_plots.manhattan_plot read_table str_key assoc_file output_file title s
  = (inl (Std (KeyError ["SNP"])),
     mkStudio (printed (console s)
                       ["Creating Manhattan plot from " ++ assoc_file;
                        "Manhattan plot saved to: " ++ output_file])
              []
              (images s ++ [(output_file, manhattan_figure title j df)])%list).
Proof.
  intros Hread Hloc Hnum HC HB HS.
  destruct (p_loc_col _ _ Hloc) as (pc & Hpc & Hget).
  rewrite (manhattan_plot_run _ _ _ _ df j pc Hread Hloc Hpc Hnum).
  cbn [pd2.first_missing]. rewrite HC, HB. cbv zeta.
  unfold pd.getitem_list. cbn [filter]. rewrite !smallest_has.
  rewrite !frame37_has by discriminate.
  rewrite (frame37_has_p j df pc Hget), HC, HB, HS. reflexivity.
Qed.

Lemma manhattan_plot_succeeds assoc_file output_file title s df j :
  read_table assoc_file = inr df ->
  p_loc df = Some j ->
  float64_column j df = true ->
  pd.has_column df "CHR" = true ->
  pd.has_column df "SNP" = true ->
  pd.has_column df "BP" = true ->
  exists top_snps,
    generate_plots.manhattan_plot read_table str_key assoc_file output_file title s
    = (inr top_snps,
       mkStudio (printed (console s)
                         ["Creating Manhattan plot from " ++ assoc_file;
                          "Manhattan plot saved to: " ++ output_file])
                []
                (images s ++ [(output_file, manhattan_figure title j df)])%list).
Proof.
  intros Hread Hloc Hnum HC HS HB.
  destruct (p_loc_col _ _ Hloc) as (pc & Hpc & Hget).
  rewrite (manhattan_plot_run _ _ _ _ df j pc Hread Hloc Hpc Hnum).
  cbn [pd2.first_missing]. rewrite HC, HB. cbv zeta.
  unfold pd.getitem_list. cbn [filter]. rewrite !smallest_has.
  rewrite !frame37_has by discriminate.
  rewrite (frame37_has_p j df pc Hget), HC, HB, HS. cbn [negb].
  eexists. reflexivity.
Qed.

Lemma map_snd_combine_seq {A} (l : list A) k :
  map snd (combine (seq k (List.length l)) l) = l.
Proof.
  revert k. induction l as [|a l IH]; intros k; [reflexivity|].
  cbn [List.length seq combine map snd]. now rewrite IH.
Qed.

Lemma frame37_pvalues j df pc :
  pd.get_loc (columns df) pc = Some j ->
  pc <> "IND" ->
  Permutation (map (pvalue j) (rows (frame37 j df)))
              (map (pvalue j) (plotted j df)).
Proof.
  intros Hget Hne.
  assert (Hj : j <> ind_loc df).
  { intros Hj. apply Hne.
    apply (get_loc_inj (columns (frame37 j df)) pc "IND" (ind_loc df)).
    - rewrite <- Hj. now apply frame37_loc, header31_loc.
    - apply frame37_ind. }
  rewrite frame37_rows, map_map.
  transitivity (map (pvalue j) (sorted_rows j df)).
  - apply Permutation_refl'.
    transitivity (map (pvalue j)
                      (map snd (combine (seq 0 (List.length (sorted_rows j df)))
                                        (sorted_rows j df)))).
    + rewrite map_map. apply map_ext.
      intros [i r]. cbn [fst snd]. unfold pvalue.
      now rewrite field_set_nth_other.
    + now rewrite map_snd_combine_seq.
  - apply Permutation_map, stable_sort_perm.
Qed.

Lemma sorted_firstn {A} (R : A -> A -> Prop) k l :
  StronglySorted R l -> StronglySorted R (firstn k l).
Proof.
  intros Hs. revert k. induction Hs as [|x l Hs IH Hx]; intros [|k];
    cbn [firstn]; try constructor; [apply IH|].
  rewrite Forall_forall in *. intros y Hy. apply Hx.
  rewrite <- (firstn_skipn k l). apply in_or_app. now left.
Qed.

(** X13: with [CHR], [SNP] and [BP] the routine returns a table of the columns
    [CHR], [SNP], [BP] and the p-value, with the at most ten smallest
    p-values among the plotted records, smallest first (for a p-value
    column that is not named [IND], which line 37 would overwrite). *)
Theorem manhattan_plot_returns_the_ten_best
        assoc_file output_file title s df j pc :
  read_table assoc_file = inr df ->
  p_loc df = Some j ->
  p_col_of df = inr pc ->
  float64_column j df = true ->
  pd.has_column df "CHR" = true ->
  pd.has_column df "SNP" = true ->
  pd.has_column df "BP" = true ->
  pc <> "IND" ->
  exists top_snps s' rest,
    generate_plots.manhattan_plot read_table str_key assoc_file output_file title s
    = (inr top_snps, s') /\
    images s' = (images s ++ [(output_file, manhattan_figure title j df)])%list /\
    columns top_snps = ["CHR"; "SNP"; "BP"; pc] /\
    len top_snps = Nat.min 10 (List.length (plotted j df)) /\
    StronglySorted key_le (map (pvalue 3) (rows top_snps)) /\
    Permutation (map (pvalue 3) (rows top_snps) ++ rest)
                (map (pvalue j) (plotted j df)) /\
    forall a b, In a (map (pvalue 3) (rows top_snps)) -> In b rest ->
                key_le a b.
Proof.
  intros Hread Hloc Hpc Hnum HC HS HB Hne.
  assert (Hget : pd.get_loc (columns df) pc = Some j).
  { destruct (p_loc_col _ _ Hloc) as (pc' & Hpc' & Hget). congruence. }
  rewrite (manhattan_plot_run _ _ _ _ df j pc Hread Hloc Hpc Hnum).
  cbn [pd2.first_missing]. rewrite HC, HB. cbv zeta.
  unfold pd.getitem_list. cbn [filter]. rewrite !smallest_has.
  rewrite !frame37_has by discriminate.
  rewrite (frame37_has_p j df pc Hget), HC, HB, HS. cbn [negb map].
  change (columns (smallest j df)) with (columns (frame37 j df)).
  rewrite (frame37_loc j df _ _ (header31_loc df _ _ Hget)).
  set (xs := map (pvalue j) (rows (frame37 j df))).
  set (ix := Insertion.argsort_floats Reference.stable xs).
  set (taken := map (fun i => nth i (rows (frame37 j df)) []) ix).
  assert (Hrows : rows (smallest j df) = firstn 10 taken) by reflexivity.
  assert (Hkeys : map (pvalue j) taken = map (fun i => nth i xs F64.nan) ix).
  { unfold taken. rewrite map_map. apply map_ext. intros i.
    apply pvalue_nth. }
  assert (Hsorted : StronglySorted key_le (map (pvalue j) taken)).
  { rewrite Hkeys. apply Sorted_StronglySorted.
    - intros x y z. apply key_le_trans.
    - apply (InsertionFacts.argsort_floats_sorted Reference.stable
               Conformance.stable_le Conformance.not_stable_le). }
  assert (Hperm : Permutation (map (pvalue j) taken) (map (pvalue j) (plotted j df))).
  { rewrite <- (frame37_pvalues j df pc Hget Hne). fold xs. rewrite Hkeys.
    apply take_perm.
    apply (InsertionFacts.argsort_floats_perm Reference.stable). }
  assert (Hp3 : forall l : list Row,
             map (pvalue 3)
                 (map (fun r => [pd.field (loc_of (columns (frame37 j df)) "CHR") r;
                                 pd.field (loc_of (columns (frame37 j df)) "SNP") r;
                                 pd.field (loc_of (columns (frame37 j df)) "BP") r;
                                 pd.field j r]) l)
             = map (pvalue j) l).
  { intros l. rewrite map_map. apply map_ext. intros r. reflexivity. }
  eexists. eexists. exists (map (pvalue j) (skipn 10 taken)).
  split; [reflexivity|]. cbn [images columns rows].
  split; [reflexivity|]. split; [reflexivity|].
  rewrite Hrows.
  change (map (fun r : Row => map (fun j0 => pd.field j0 r) _) (firstn 10 taken))
    with (map (fun r => [pd.field (loc_of (columns (frame37 j df)) "CHR") r;
                         pd.field (loc_of (columns (frame37 j df)) "SNP") r;
                         pd.field (loc_of (columns (frame37 j df)) "BP") r;
                         pd.field j r]) (firstn 10 taken)).
  rewrite Hp3. split; [|split; [|split]].
  - unfold len. cbn [rows]. rewrite length_map, length_firstn.
    rewrite <- (length_map (pvalue j) taken), (Permutation_length Hperm).
    now rewrite length_map.
  - rewrite <- firstn_map. now apply sorted_firstn.
  - rewrite <- map_app, firstn_skipn. exact Hperm.
  - intros a b Ha Hb. rewrite <- firstn_map in Ha. rewrite <- skipn_map in Hb.
    exact (split_sorted key_le 10 _ Hsorted a b Ha Hb).
Qed.






End Manhattan.

(** ** What a plot routine can do to the run *)

Lemma grows_refl allowed s : grows allowed s s.
Proof.
  split; [exists []; now rewrite app_nil_r|]. split; [reflexivity|].
  exists []. split; [now rewrite app_nil_r|constructor].
Qed.

Lemma grows_trans allowed s1 s2 s3 :
  grows allowed s1 s2 -> grows allowed s2 s3 -> grows allowed s1 s3.
Proof.
  intros ((l1 & H1) & F1 & im1 & I1 & A1) ((l2 & H2) & F2 & im2 & I2 & A2).
  split; [exists (l1 ++ l2)%list; now rewrite H2, H1, app_assoc|].
  split; [congruence|].
  exists (im1 ++ im2)%list. split; [now rewrite I2, I1, app_assoc|].
  apply Forall_app. now split.
Qed.

Lemma grows_mono allowed allowed' s s' :
  incl allowed allowed' -> grows allowed s s' -> grows allowed' s s'.
Proof.
  intros Hincl (Hl & Hf & im & Him & Hall).
  split; [exact Hl|]. split; [exact Hf|]. exists im. split; [exact Him|].
  eapply Forall_impl; [|exact Hall]. intros image. apply Hincl.
Qed.

Lemma tame_mono {A} allowed allowed' (m : P A) :
  incl allowed allowed' -> tame allowed m -> tame allowed' m.
Proof.
  intros Hincl Hm s. destruct (Hm s) as [He Hg].
  split; [exact He|]. now apply (grows_mono allowed).
Qed.

Lemma tame_ret {A} allowed (a : A) : tame allowed (retP a).
Proof. intros s. split; [discriminate|apply grows_refl]. Qed.

Lemma tame_bind {A B} allowed (m : P A) (k : A -> P B) :
  tame allowed m -> (forall a, tame allowed (k a)) ->
  tame allowed (bindP m k).
Proof.
  intros Hm Hk s. unfold bindP. specialize (Hm s).
  destruct (m s) as [[e|a] s1]; cbn [fst snd] in *.
  { destruct Hm as [He Hg]. split; [|exact Hg].
    intros e' [= <-]. now apply He. }
  destruct Hm as [_ Hg]. destruct (Hk a s1) as [He Hg'].
  split; [exact He|]. now apply (grows_trans _ _ s1).
Qed.

Lemma tame_liftE {A} allowed (r : exn + A) : safe r -> tame allowed (liftE r).
Proof.
  intros Hr s. split; [|apply grows_refl].
  unfold liftE. cbn [fst]. destruct r as [e|a]; [|discriminate].
  intros e' [= <-]. now apply Hr.
Qed.

Lemma tame_liftP {A} allowed (r : error + A) :
  (forall e, r = inl e -> is_exception e = true) -> tame allowed (liftP r).
Proof. intros Hr s. split; [exact Hr|apply grows_refl]. Qed.

Lemma tame_say allowed line : tame allowed (say line).
Proof.
  intros s. split; [discriminate|].
  split; [now exists [line]|]. split; [reflexivity|].
  exists []. split; [cbn; now rewrite app_nil_r|constructor].
Qed.

Lemma tame_figure allowed (f : list artist -> list artist) :
  tame allowed (fun s => (inr tt, mkStudio (console s) (f (figure s)) (images s))).
Proof.
  intros s. split; [discriminate|].
  split; [exists []; cbn; now rewrite app_nil_r|]. split; [reflexivity|].
  exists []. split; [cbn; now rewrite app_nil_r|constructor].
Qed.

Lemma tame_subplots allowed : tame allowed subplots.
Proof. apply (tame_figure allowed (fun _ => [])). Qed.

Lemma tame_close allowed : tame allowed close.
Proof. apply (tame_figure allowed (fun _ => [])). Qed.

Lemma tame_draw allowed a : tame allowed (draw a).
Proof. apply (tame_figure allowed (fun fig => (fig ++ [a])%list)). Qed.

Lemma tame_savefig allowed path : In path allowed -> tame allowed (savefig path).
Proof.
  intros Hin s. split; [discriminate|].
  split; [exists []; cbn; now rewrite app_nil_r|]. split; [reflexivity|].
  exists [(path, figure s)]. split; [reflexivity|]. now repeat constructor.
Qed.

(** A guarded block whose handler only prints never raises. *)
Lemma try_except_returns allowed (m : P unit) (handler : error -> P unit) s :
  tame allowed m ->
  (forall e, tame allowed (handler e)) ->
  (forall e s1, fst (handler e s1) = inr tt) ->
  fst (try_exceptP m handler s) = inr tt /\
  grows allowed s (snd (try_exceptP m handler s)).
Proof.
  intros Hm Hh Hret. unfold try_exceptP. specialize (Hm s).
  destruct (m s) as [[e|[]] s1]; cbn [fst snd] in *.
  - destruct Hm as [He Hg]. rewrite (He e eq_refl). split; [apply Hret|].
    apply (grows_trans _ _ s1); [exact Hg|apply Hh].
  - now destruct Hm.
Qed.

(** *** The library calls are safe *)

Lemma safe_inr {A} (a : A) : safe (inr a).
Proof. intros e. discriminate. Qed.

Lemma safe_inl {A B} (e : exn) : @safe A (inl e) -> @safe B (inl e).
Proof. intros He e' [= <-]. now apply He. Qed.

Lemma safe_traverse {A B} (f : A -> exn + B) l :
  (forall a, safe (f a)) -> safe (pd.traverse f l).
Proof.
  intros Hf. induction l as [|a l IH]; cbn [pd.traverse]; [apply safe_inr|].
  pose proof (Hf a) as Ha.
  destruct (f a) as [e|b]; [exact (safe_inl e Ha)|].
  destruct (pd.traverse f l) as [e|bs]; [exact (safe_inl e IH)|apply safe_inr].
Qed.

Ltac safe_cases :=
  intros e;
  repeat match goal with
         | |- context [match ?x with _ => _ end] => destruct x
         end;
  intros Heq; inversion Heq; reflexivity.

Lemma safe_columns_getitem df k : safe (pd.columns_getitem df k).
Proof. unfold pd.columns_getitem. safe_cases. Qed.

Lemma safe_p_col df :
  safe (if pd.has_column df "P" then inr "P" else pd.columns_getitem df 8).
Proof.
  destruct (pd.has_column df "P"); [apply safe_inr|apply safe_columns_getitem].
Qed.

Lemma safe_getitem df name : safe (pd.getitem df name).
Proof. unfold pd.getitem. safe_cases. Qed.

Lemma safe_numeric c : safe (pd2.numeric c).
Proof. unfold pd2.numeric. safe_cases. Qed.

Lemma safe_gt s x : safe (pd.gt s x).
Proof.
  unfold pd.gt. apply safe_traverse. intros c. unfold pd.gt_cell. safe_cases.
Qed.

Lemma safe_iloc_col df k : safe (pd2.iloc_col df k).
Proof. unfold pd2.iloc_col. safe_cases. Qed.

Lemma safe_iloc_first s : safe (pd2.iloc_first s).
Proof. unfold pd2.iloc_first. safe_cases. Qed.

Lemma safe_iloc_last s : safe (pd2.iloc_last s).
Proof. unfold pd2.iloc_last. safe_cases. Qed.

Lemma safe_sort_values_list df names : safe (pd2.sort_values_list df names).
Proof. unfold pd2.sort_values_list. safe_cases. Qed.

Lemma safe_groupby df name : safe (pd2.groupby df name).
Proof. unfold pd2.groupby. safe_cases. Qed.

Lemma safe_nsmallest df n name : safe (pd2.nsmallest df n name).
Proof.
  unfold pd2.nsmallest. pose proof (safe_getitem df name) as Hg.
  destruct (pd.getitem df name) as [e|s]; [exact (safe_inl e Hg)|].
  pose proof (safe_traverse pd2.numeric s safe_numeric) as Ht.
  destruct (pd.traverse pd2.numeric s) as [e|xs];
    [exact (safe_inl e Ht)|apply safe_inr].
Qed.

Lemma safe_getitem_list df names : safe (pd.getitem_list df names).
Proof. unfold pd.getitem_list. safe_cases. Qed.

Lemma amax_exception a e : py.amax a = inl e -> is_exception e = true.
Proof. destruct a; [intros [= <-]; reflexivity|discriminate]. Qed.

Section Tameness.

Context `{NumPy}.
Variable read_table : string -> exn + DataFrame.
Variable path_exists : string -> bool.
Variable mkdir : string -> error + unit.
Variable joinpath : string -> string -> string.
Variable path_str : string -> string.
Variable format_3f : float -> string.
Variable str_key : cell -> string.
Variable str_error : error -> string.

Local Open Scope plot_scope.

Local Notation outputs := (outputs joinpath).
Local Notation farewell := (farewell path_str).

(** What the libraries are taken to do: they raise [Exception]s. *)
Hypothesis read_table_safe : forall path, safe (read_table path).
Hypothesis percentile_safe : forall xs q, safe (percentile xs q).

Lemma safe_neg_log10 c : safe (np.neg_log10_cell c).
Proof. unfold np.neg_log10_cell. safe_cases. Qed.

Ltac safe_step :=
  lazymatch goal with
  | |- safe (read_table _) => apply read_table_safe
  | |- safe (percentile _ _) => apply percentile_safe
  | |- safe (if pd.has_column _ _ then _ else _) => apply safe_p_col
  | |- safe (pd.getitem _ _) => apply safe_getitem
  | |- safe (pd.gt _ _) => apply safe_gt
  | |- safe (pd2.iloc_col _ _) => apply safe_iloc_col
  | |- safe (pd2.iloc_first _) => apply safe_iloc_first
  | |- safe (pd2.iloc_last _) => apply safe_iloc_last
  | |- safe (pd2.numeric _) => apply safe_numeric
  | |- safe (pd2.sort_values_list _ _) => apply safe_sort_values_list
  | |- safe (pd2.groupby _ _) => apply safe_groupby
  | |- safe (pd2.nsmallest _ _ _) => apply safe_nsmallest
  | |- safe (pd.getitem_list _ _) => apply safe_getitem_list
  | |- safe (pd.traverse np.neg_log10_cell _) =>
      apply safe_traverse; apply safe_neg_log10
  end.

Ltac tame_step :=
  cbv beta zeta;
  lazymatch goal with
  | |- tame _ (bindP _ _) => apply tame_bind; [|intros ?]
  | |- tame _ (retP _) => apply tame_ret
  | |- tame _ (say _) => apply tame_say
  | |- tame _ (draw _) => apply tame_draw
  | |- tame _ subplots => apply tame_subplots
  | |- tame _ close => apply tame_close
  | |- tame _ (savefig _) => apply tame_savefig; now left
  | |- tame _ (liftP (py.amax _)) => apply tame_liftP; apply amax_exception
  | |- tame _ (liftE _) => apply tame_liftE; safe_step
  end.

Lemma tame_plot_groups allowed groups :
  forall num x_labels x_labels_pos,
    tame allowed (generate_plots.plot_groups str_key num groups x_labels x_labels_pos).
Proof.
  induction groups as [|[name group] groups IH]; intros num L Pz;
    cbn [generate_plots.plot_groups]; [apply tame_ret|].
  repeat tame_step. apply IH.
Qed.

Lemma tame_manhattan_plot assoc_file output_file title :
  tame [output_file]
       (generate_plots.manhattan_plot read_table str_key assoc_file output_file title).
Proof.
  unfold generate_plots.manhattan_plot.
  repeat first [ apply tame_plot_groups | tame_step ].
Qed.

Lemma tame_qq_plot assoc_file output_file title :
  tame [output_file]
       (generate_plots.qq_plot read_table format_3f assoc_file output_file title).
Proof. unfold generate_plots.qq_plot. repeat tame_step. Qed.

Lemma tame_pca_plot pca_file output_file :
  tame [output_file] (generate_plots.pca_plot read_table pca_file output_file).
Proof. unfold generate_plots.pca_plot. repeat tame_step. Qed.

Lemma tame_missingness_plot lmiss_file imiss_file output_file :
  tame [output_file]
       (generate_plots.missingness_plot read_table lmiss_file imiss_file output_file).
Proof. unfold generate_plots.missingness_plot. repeat tame_step. Qed.

Lemma returns_ret allowed : returns allowed (retP tt).
Proof. intros s. split; [reflexivity|apply grows_refl]. Qed.

Lemma returns_say allowed line : returns allowed (say line).
Proof. intros s. split; [reflexivity|apply tame_say]. Qed.

Lemma returns_bind allowed (m : P unit) (k : unit -> P unit) :
  returns allowed m -> returns allowed (k tt) -> returns allowed (bindP m k).
Proof.
  intros Hm Hk s. unfold bindP. destruct (Hm s) as [Hr Hg].
  destruct (m s) as [[e|[]] s1]; cbn [fst snd] in *; [discriminate|].
  destruct (Hk s1) as [Hr' Hg']. split; [exact Hr'|].
  now apply (grows_trans _ _ s1).
Qed.

Lemma returns_try allowed (m : P unit) (handler : error -> P unit) :
  tame allowed m -> (forall e, returns allowed (handler e)) ->
  returns allowed (try_exceptP m handler).
Proof.
  intros Hm Hh s. apply try_except_returns.
  - exact Hm.
  - intros e s1. split; [|apply Hh]. intros e'. now rewrite (proj1 (Hh e s1)).
  - intros e s1. apply Hh.
Qed.

Lemma returns_mono allowed allowed' (m : P unit) :
  incl allowed allowed' -> returns allowed m -> returns allowed' m.
Proof.
  intros Hincl Hm s. destruct (Hm s) as [Hr Hg].
  split; [exact Hr|]. now apply (grows_mono allowed).
Qed.

Lemma returns_for_each {A} allowed (body : A -> P unit) (l : list A) :
  (forall a, In a l -> returns allowed (body a)) ->
  returns allowed (generate_plots.for_each body l).
Proof.
  induction l as [|a l IH]; intros Hbody; cbn [generate_plots.for_each];
    [apply returns_ret|].
  apply returns_bind; [apply Hbody; now left|].
  apply IH. intros b Hb. apply Hbody. now right.
Qed.

Lemma analyse_returns assoc_dir output_dir analysis :
  returns [joinpath output_dir
             ("manhattan_plot_" ++ generate_plots.slug (snd analysis) ++ ".png");
           joinpath output_dir ("qq_plot_" ++ generate_plots.slug (snd analysis) ++ ".png")]
          (generate_plots.analyse read_table path_exists joinpath format_3f str_key str_error
                   assoc_dir output_dir analysis).
Proof.
  unfold generate_plots.analyse. cbv zeta.
  destruct (path_exists (joinpath assoc_dir (fst analysis)));
    [|apply returns_ret].
  apply returns_bind; [apply returns_say|].
  apply returns_bind; [apply returns_say|].
  apply returns_bind.
  - apply returns_try; [|intros e; apply returns_say].
    apply tame_bind; [|intros ?; apply tame_ret].
    eapply tame_mono; [|apply tame_manhattan_plot].
    intros x [<-|[]]. now left.
  - apply returns_try; [|intros e; apply returns_say].
    apply tame_bind; [|intros ?; apply tame_say].
    eapply tame_mono; [|apply tame_qq_plot].
    intros x [<-|[]]. right. now left.
Qed.

Lemma bindP_returns allowed (m : P unit) {B} (k : unit -> P B) s :
  returns allowed m ->
  exists s1, grows allowed s s1 /\ bindP m k s = k tt s1.
Proof.
  intros Hm. destruct (Hm s) as [Hr Hg]. unfold bindP.
  destruct (m s) as [[e|[]] s1]; cbn [fst snd] in *; [discriminate|].
  now exists s1.
Qed.

Lemma analyses_return assoc_dir output_dir :
  returns (outputs output_dir)
          (generate_plots.for_each (generate_plots.analyse read_table path_exists joinpath format_3f
                             str_key str_error assoc_dir output_dir)
                    generate_plots.analyses).
Proof.
  apply returns_for_each. intros a Ha.
  eapply returns_mono; [|apply analyse_returns].
  unfold generate_plots.analyses in Ha. cbn [In] in Ha.
  intros x Hx. cbn [In] in Hx. unfold outputs. cbn [In].
  destruct Ha as [<-|[<-|[<-|[]]]]; cbn [snd] in Hx;
    destruct Hx as [<-|[<-|[]]]; vm_compute generate_plots.slug; tauto.
Qed.

Lemma pca_block_returns qc_dir output_dir :
  returns (outputs output_dir)
    (if path_exists (joinpath qc_dir "AA_GWAS_hg19_uniq_pca.eigenvec")
     then
       say EmptyString ;;
       say "--- Creating PCA plot ---" ;;
       try_exceptP
         (generate_plots.pca_plot read_table
            (joinpath qc_dir "AA_GWAS_hg19_uniq_pca.eigenvec")
            (joinpath output_dir "pca_plot.png"))
         (fun e => say ("Error creating PCA plot: " ++ str_error e))
     else retP tt).
Proof.
  destruct (path_exists _); [|apply returns_ret].
  apply returns_bind; [apply returns_say|].
  apply returns_bind; [apply returns_say|].
  apply returns_try; [|intros e; apply returns_say].
  eapply tame_mono; [|apply tame_pca_plot].
  intros x [<-|[]]. unfold outputs. cbn [In]. tauto.
Qed.

Lemma missingness_block_returns qc_dir output_dir :
  returns (outputs output_dir)
    (if (path_exists (joinpath qc_dir "basic_stats_preQC.lmiss")
         && path_exists (joinpath qc_dir "basic_stats_preQC.imiss"))%bool
     then
       say EmptyString ;;
       say "--- Creating missingness plots ---" ;;
       try_exceptP
         (generate_plots.missingness_plot read_table
            (joinpath qc_dir "basic_stats_preQC.lmiss")
            (joinpath qc_dir "basic_stats_preQC.imiss")
            (joinpath output_dir "missingness_plots.png"))
         (fun e => say ("Error creating missingness plots: " ++ str_error e))
     else retP tt).
Proof.
  destruct (_ && _)%bool; [|apply returns_ret].
  apply returns_bind; [apply returns_say|].
  apply returns_bind; [apply returns_say|].
  apply returns_try; [|intros e; apply returns_say].
  eapply tame_mono; [|apply tame_missingness_plot].
  intros x [<-|[]]. unfold outputs. cbn [In]. tauto.
Qed.

(** Past [mkdir] the run goes from the banner to the closing lines. *)
Lemma main_run assoc_dir qc_dir output_dir s u :
  mkdir (path_str output_dir) = inr u ->
  exists s6,
    grows (outputs output_dir) (said s banner) s6 /\
    generate_plots.main read_table path_exists mkdir joinpath path_str format_3f
               str_key str_error assoc_dir qc_dir output_dir s
    = (inr tt, said s6 (farewell output_dir)).
Proof.
  intros Hmk. unfold generate_plots.main. rewrite Hmk. pstep. do 3 pstep.
  set (s3 := mkStudio _ (figure s) (images s)).
  change (said s banner) with s3.
  lazymatch goal with
  | |- context [bindP ?m ?k s3] =>
      destruct (bindP_returns (outputs output_dir) m k s3
                  (analyses_return assoc_dir output_dir)) as (s4 & G4 & E4);
      rewrite E4; clear E4
  end.
  lazymatch goal with
  | |- context [bindP ?m ?k s4] =>
      destruct (bindP_returns (outputs output_dir) m k s4
                  (pca_block_returns qc_dir output_dir)) as (s5 & G5 & E5);
      rewrite E5; clear E5
  end.
  lazymatch goal with
  | |- context [bindP ?m ?k s5] =>
      destruct (bindP_returns (outputs output_dir) m k s5
                  (missingness_block_returns qc_dir output_dir))
        as (s6 & G6 & E6);
      rewrite E6; clear E6
  end.
  exists s6. split; [exact (grows_trans _ _ _ _ (grows_trans _ _ _ _ G4 G5) G6)|].
  do 4 pstep. rewrite say_run. unfold said. cbn [console figure images].
  rewrite printed_printed. reflexivity.
Qed.

(** X15: no failure of a plot stops the run.  When the libraries raise
    [Exception]s only, [main] raises only if [mkdir] does, before anything
    is printed; otherwise it returns, whatever the inputs hold: it prints
    the banner first and the closing lines last, writes no table, and
    saves figures under the eight names of [outputs] only. *)
Theorem plots_main_completes assoc_dir qc_dir output_dir s :
  match mkdir (path_str output_dir) with
  | inl e =>
      generate_plots.main read_table path_exists mkdir joinpath path_str format_3f
                 str_key str_error assoc_dir qc_dir output_dir s
      = (inl e, s)
  | inr _ =>
      exists s',
        generate_plots.main read_table path_exists mkdir joinpath path_str format_3f
                   str_key str_error assoc_dir qc_dir output_dir s
        = (inr tt, s') /\
        (exists lines,
            stdout (console s')
            = (stdout (console s) ++ banner ++ lines ++ farewell output_dir)%list) /\
        files (console s') = files (console s) /\
        (exists saved,
            images s' = (images s ++ saved)%list /\
            Forall (fun image => In (fst image) (outputs output_dir)) saved)
  end.
Proof.
  destruct (mkdir (path_str output_dir)) as [e|u] eqn:Hmk.
  - (* nothing has happened yet *)
    unfold generate_plots.main. rewrite Hmk. reflexivity.
  - destruct (main_run assoc_dir qc_dir output_dir s u Hmk)
      as (s6 & ((lines & Hl) & Hf & saved & Him & Hnames) & ->).
    exists (said s6 (farewell output_dir)). split; [reflexivity|].
    unfold said in *. cbn [console figure images printed stdout files] in *.
    split; [|split].
    + exists lines. rewrite Hl, <- !app_assoc. reflexivity.
    + exact Hf.
    + exists saved. split; [exact Him|exact Hnames].
Qed.

(** X16: how the command ends: with fewer than three arguments it prints the
    usage line and exits with status 1; otherwise it runs [main] on the
    first three and fails only if [mkdir] does. *)
Theorem plots_cli_outcome argv s :
  if Nat.ltb (List.length argv) 4 then
    generate_plots.cli read_table path_exists mkdir joinpath path_str format_3f
              str_key str_error argv s
    = (inl (Std (SystemExit 1)),
       said s ["Usage: python generate_plots.py <assoc_dir> <qc_dir> <output_dir>"])
  else
    fst (generate_plots.cli read_table path_exists mkdir joinpath path_str format_3f
                   str_key str_error argv s)
    = match mkdir (path_str (nth 3 argv EmptyString)) with
      | inl e => inl e
      | inr _ => inr tt
      end.
Proof.
  unfold generate_plots.cli. destruct (Nat.ltb (List.length argv) 4); [reflexivity|].
  destruct (mkdir (path_str (nth 3 argv EmptyString))) as [e|u] eqn:Hmk.
  - unfold generate_plots.main. rewrite Hmk. reflexivity.
  - destruct (main_run (nth 1 argv EmptyString) (nth 2 argv EmptyString)
                (nth 3 argv EmptyString) s u Hmk) as (s6 & _ & ->).
    reflexivity.
Qed.

End Tameness.

Section Orchestration.

Context `{NumPy}.
Variable read_table : string -> exn + DataFrame.
Variable path_exists : string -> bool.
Variable mkdir : string -> error + unit.
Variable joinpath : string -> string -> string.
Variable path_str : string -> string.
Variable format_3f : float -> string.
Variable str_key : cell -> string.
Variable str_error : error -> string.

Lemma try_exceptP_caught {A} (m : P A) handler s e s' :
  m s = (inl e, s') -> is_exception e = true ->
  try_exceptP m handler s = handler e s'.
Proof. unfold try_exceptP. now intros -> ->. Qed.

Lemma try_exceptP_passed {A} (m : P A) handler s a s' :
  m s = (inr a, s') -> try_exceptP m handler s = (inr a, s').
Proof. unfold try_exceptP. now intros ->. Qed.

Lemma bindP_assoc {A B C} (m : P A) (k : A -> P B) (h : B -> P C) s :
  bindP (bindP m k) h s = bindP m (fun a => bindP (k a) h) s.
Proof. unfold bindP. destruct (m s) as [[e|a] s']; reflexivity. Qed.

(** X17: inputs that are not there are passed over without a message; the
    missingness plot needs both of its files. *)
Theorem absent_inputs_are_skipped assoc_dir qc_dir output_dir s :
  mkdir (path_str output_dir) = inr tt ->
  (forall a, In a generate_plots.analyses -> path_exists (joinpath assoc_dir (fst a)) = false) ->
  path_exists (joinpath qc_dir "AA_GWAS_hg19_uniq_pca.eigenvec") = false ->
  path_exists (joinpath qc_dir "basic_stats_preQC.lmiss") = false \/
  path_exists (joinpath qc_dir "basic_stats_preQC.imiss") = false ->
  generate_plots.main read_table path_exists mkdir joinpath path_str format_3f
             str_key str_error assoc_dir qc_dir output_dir s
  = (inr tt, said s (banner ++ farewell path_str output_dir)).
Proof.
  intros Hmk Hassoc Hpca Hmiss. unfold generate_plots.main. rewrite Hmk.
  pose proof (Hassoc _ (or_introl eq_refl)) as H1.
  pose proof (Hassoc _ (or_intror (or_introl eq_refl))) as H2.
  pose proof (Hassoc _ (or_intror (or_intror (or_introl eq_refl)))) as H3.
  cbn [fst] in H1, H2, H3.
  pstep. do 3 pstep. unfold generate_plots.analyses. cbn [generate_plots.for_each]. unfold generate_plots.analyse.
  cbv zeta. cbn [fst snd].
  rewrite H1, H2, H3, Hpca.
  assert (Hboth : (path_exists (joinpath qc_dir "basic_stats_preQC.lmiss")
                   && path_exists (joinpath qc_dir "basic_stats_preQC.imiss"))%bool
                  = false).
  { destruct Hmiss as [-> | ->]; [reflexivity|apply andb_false_r]. }
  rewrite Hboth. repeat (rewrite ?bindP_assoc; pstep). rewrite say_run.
  unfold said. cbn [console figure images]. rewrite printed_printed.
  reflexivity.
Qed.

(** X18: a Manhattan plot that fails does not keep the Q-Q plot of the same
    analysis from being made. *)
Theorem qq_plot_follows_a_failed_manhattan_plot
        assoc_dir output_dir file label s df j c :
  path_exists (joinpath assoc_dir file) = true ->
  read_table (joinpath assoc_dir file) = inr df ->
  p_loc df = Some j ->
  float64_column j df = true ->
  valid j df <> [] ->
  pd2.first_missing ["CHR"; "BP"] df = Some c ->
  exists lambda_gc fig,
    generate_plots.analyse read_table path_exists joinpath format_3f str_key str_error
            assoc_dir output_dir (file, label) s
    = (inr tt,
       mkStudio
         (printed (console s)
            [EmptyString;
             "--- Processing " ++ label ++ " ---";
             "Creating Manhattan plot from " ++ joinpath assoc_dir file;
             "Error creating Manhattan plot for " ++ label ++ ": "
               ++ str_error (Std (KeyError [c]));
             "Creating Q-Q plot from " ++ joinpath assoc_dir file;
             "Q-Q plot saved to: "
               ++ joinpath output_dir ("qq_plot_" ++ generate_plots.slug label ++ ".png");
             "Genomic inflation factor (λ): " ++ format_3f lambda_gc])
         []
         (images s
          ++ [(joinpath output_dir ("qq_plot_" ++ generate_plots.slug label ++ ".png"),
               fig)])%list).
Proof.
  intros Hex Hread Hloc Hnum Hne Hfm.
  destruct (p_loc_col _ _ Hloc) as (pc & Hpc & _).
  unfold generate_plots.analyse. cbv zeta. cbn [fst snd]. rewrite Hex. do 2 pstep.
  set (s2 := mkStudio _ (figure s) (images s)).
  pose proof (manhattan_plot_run read_table str_key
                (joinpath assoc_dir file)
                (joinpath output_dir ("manhattan_plot_" ++ generate_plots.slug label ++ ".png"))
                ("Manhattan Plot (" ++ label ++ ")") s2 df j pc
                Hread Hloc Hpc Hnum) as Hman.
  rewrite Hfm in Hman.
  rewrite (bindP_run _ _ s2 tt
             (said s2 ["Creating Manhattan plot from " ++ joinpath assoc_dir file;
                       "Error creating Manhattan plot for " ++ label ++ ": "
                         ++ str_error (Std (KeyError [c]))])).
  2:{ rewrite (try_exceptP_caught _ _ s2 (Std (KeyError [c]))
                 (said s2 ["Creating Manhattan plot from "
                           ++ joinpath assoc_dir file])).
      - rewrite say_run. unfold said. cbn [console figure images].
        now rewrite printed_printed.
      - now rewrite (bindP_fail _ _ _ _ _ Hman).
      - reflexivity. }
  destruct (qq_plot_succeeds read_table format_3f (joinpath assoc_dir file)
              (joinpath output_dir ("qq_plot_" ++ generate_plots.slug label ++ ".png"))
              ("Q-Q Plot (" ++ label ++ ")")
              (said s2 ["Creating Manhattan plot from " ++ joinpath assoc_dir file;
                        "Error creating Manhattan plot for " ++ label ++ ": "
                          ++ str_error (Std (KeyError [c]))])
              df j Hread Hloc Hnum Hne) as (lambda_gc & fig & Hqq).
  exists lambda_gc, fig.
  erewrite try_exceptP_passed;
    [|rewrite (bindP_run _ _ _ _ _ Hqq); rewrite say_run; reflexivity].
  unfold said, s2. cbn [console figure images].
  rewrite !printed_printed. reflexivity.
Qed.

(** X19: one analysis of a complete table saves its Manhattan plot, then its
    Q-Q plot, and reports the inflation factor it got from the latter. *)
Theorem analysis_saves_both_plots
        assoc_dir output_dir file label s df j :
  path_exists (joinpath assoc_dir file) = true ->
  read_table (joinpath assoc_dir file) = inr df ->
  p_loc df = Some j ->
  float64_column j df = true ->
  valid j df <> [] ->
  pd.has_column df "CHR" = true ->
  pd.has_column df "SNP" = true ->
  pd.has_column df "BP" = true ->
  let manhattan_out :=
    joinpath output_dir ("manhattan_plot_" ++ generate_plots.slug label ++ ".png") in
  let qq_out := joinpath output_dir ("qq_plot_" ++ generate_plots.slug label ++ ".png") in
  exists lambda_gc qq_fig,
    generate_plots.analyse read_table path_exists joinpath format_3f str_key str_error
            assoc_dir output_dir (file, label) s
    = (inr tt,
       mkStudio
         (printed (console s)
            [EmptyString;
             "--- Processing " ++ label ++ " ---";
             "Creating Manhattan plot from " ++ joinpath assoc_dir file;
             "Manhattan plot saved to: " ++ manhattan_out;
             "Creating Q-Q plot from " ++ joinpath assoc_dir file;
             "Q-Q plot saved to: " ++ qq_out;
             "Genomic inflation factor (λ): " ++ format_3f lambda_gc])
         []
         (images s
          ++ [(manhattan_out,
               manhattan_figure str_key ("Manhattan Plot (" ++ label ++ ")")%string
                                j df);
              (qq_out, qq_fig)])%list).
Proof.
  intros Hex Hread Hloc Hnum Hne HC HS HB manhattan_out qq_out.
  unfold generate_plots.analyse. cbv zeta. cbn [fst snd]. rewrite Hex. do 2 pstep.
  set (s2 := mkStudio _ (figure s) (images s)).
  destruct (manhattan_plot_succeeds read_table str_key
              (joinpath assoc_dir file) manhattan_out
              ("Manhattan Plot (" ++ label ++ ")") s2 df j
              Hread Hloc Hnum HC HS HB) as (top_snps & Hman).
  fold manhattan_out qq_out.
  erewrite (bindP_run (try_exceptP _ _));
    [|erewrite try_exceptP_passed;
      [reflexivity|rewrite (bindP_run _ _ _ _ _ Hman); reflexivity]].
  match goal with
  | |- context [try_exceptP _ _ ?s3] =>
      destruct (qq_plot_succeeds read_table format_3f
                  (joinpath assoc_dir file) qq_out
                  ("Q-Q Plot (" ++ label ++ ")") s3 df j
                  Hread Hloc Hnum Hne) as (lambda_gc & qq_fig & Hqq)
  end.
  exists lambda_gc, qq_fig.
  erewrite try_exceptP_passed;
    [|rewrite (bindP_run _ _ _ _ _ Hqq); rewrite say_run; reflexivity].
  unfold said, s2. cbn [console figure images].
  rewrite !printed_printed, <- app_assoc. reflexivity.
Qed.

End Orchestration.

(** ** The order of sort keys *)

Lemma SFcompare_antisym (x y : float) c :
  SFcompare x y = Some c -> SFcompare y x = Some (CompOpp c).
Proof.
  unfold SFcompare.
  destruct x as [[]|[]| |[] m1 e1], y as [[]|[]| |[] m2 e2]; cbn;
    try discriminate; try (intros [= <-]; reflexivity);
    rewrite (Z.compare_antisym e1 e2);
    destruct (e1 ?= e2)%Z; cbn; try (intros [= <-]; reflexivity);
    change (Pos.compare_cont Eq m1 m2) with (Pos.compare m1 m2);
    change (Pos.compare_cont Eq m2 m1) with (Pos.compare m2 m1);
    rewrite (Pos.compare_antisym m1 m2);
    destruct (m1 ?= m2)%positive; cbn; intros [= <-]; reflexivity.
Qed.

Lemma SFcompare_defined (x y : float) :
  F64.isnan x = false -> F64.isnan y = false ->
  exists c, SFcompare x y = Some c.
Proof.
  destruct x as [[]|[]| |[] m1 e1], y as [[]|[]| |[] m2 e2]; cbn;
    try discriminate; intros _ _; eexists; reflexivity.
Qed.

Lemma SFcompare_nan (x y : float) :
  SFcompare x y = None <-> F64.isnan x = true \/ F64.isnan y = true.
Proof.
  destruct x as [[]|[]| |[] m1 e1], y as [[]|[]| |[] m2 e2]; cbn;
    split; try discriminate; try tauto; intros [|]; discriminate.
Qed.

Lemma SFcompare_le_trans (x y z : float) c1 c2 c3 :
  SFcompare x y = Some c1 -> SFcompare y z = Some c2 ->
  SFcompare x z = Some c3 ->
  c1 <> Gt -> c2 <> Gt -> c3 <> Gt.
Proof.
  unfold SFcompare.
  repeat change (Pos.compare_cont Eq ?a ?b) with (Pos.compare a b).
  destruct x as [[]|[]| |[] m1 e1], y as [[]|[]| |[] m2 e2],
           z as [[]|[]| |[] m3 e3];
    cbn; try discriminate;
    intros H1 H2 H3; injection H1 as <-; injection H2 as <-;
    injection H3 as <-; try congruence; intros G1 G2 G3;
    repeat match goal with
      | H : context [Z.compare ?a ?b] |- _ => destruct (Z.compare_spec a b)
      | H : context [Pos.compare ?a ?b] |- _ => destruct (Pos.compare_spec a b)
      end; cbn in *; try congruence; try lia.
Qed.

Lemma string_le_trans (s t u : string) :
  String.compare s t <> Gt -> String.compare t u <> Gt ->
  String.compare s u <> Gt.
Proof.
  intros Hst Htu.
  destruct (String.compare s t) eqn:H1; [| |congruence].
  - apply String_as_OT.cmp_eq in H1. now subst.
  - destruct (String.compare t u) eqn:H2; [| |congruence].
    + apply String_as_OT.cmp_eq in H2. subst. now rewrite H1.
    + apply String_as_OT.cmp_lt in H1, H2.
      pose proof (String_as_OT.lt_trans _ _ _ H1 H2) as H3.
      apply String_as_OT.cmp_lt in H3. unfold String_as_OT.cmp in H3.
      now rewrite H3.
Qed.

Lemma cell_compare_antisym (a b : cell) :
  pd2.cell_compare a b = CompOpp (pd2.cell_compare b a).
Proof.
  destruct a as [x|s], b as [y|t]; cbn [pd2.cell_compare].
  - destruct (SFcompare x y) as [c|] eqn:Hxy.
    + rewrite (SFcompare_antisym _ _ _ Hxy). now destruct c.
    + assert (Hyx : SFcompare y x = None).
      { apply SFcompare_nan. apply SFcompare_nan in Hxy. tauto. }
      rewrite Hyx. apply SFcompare_nan in Hxy.
      destruct (F64.isnan x), (F64.isnan y); try reflexivity.
      destruct Hxy; discriminate.
  - now destruct (F64.isnan x).
  - now destruct (F64.isnan y).
  - apply String_as_OT.cmp_antisym.
Qed.

Lemma cell_compare_missing_r (a b : cell) :
  pd2.is_missing b = true ->
  pd2.cell_compare a b = if pd2.is_missing a then Eq else Lt.
Proof.
  destruct b as [y|t]; [|discriminate]. unfold pd2.is_missing.
  cbn [pd.notna_cell]. rewrite negb_involutive. intros Hy.
  destruct a as [x|s]; cbn [pd2.cell_compare pd.notna_cell];
    [|now rewrite Hy].
  assert (Hxy : SFcompare x y = None) by (apply SFcompare_nan; now right).
  rewrite Hxy, Hy, negb_involutive. now destruct (F64.isnan x).
Qed.

Lemma cell_compare_missing_l (a b : cell) :
  pd2.is_missing a = true ->
  pd2.cell_compare a b = if pd2.is_missing b then Eq else Gt.
Proof.
  intros Ha. rewrite cell_compare_antisym, (cell_compare_missing_r b a Ha).
  now destruct (pd2.is_missing b).
Qed.

Lemma cell_le_trans (a b c : cell) :
  pd2.cell_compare a b <> Gt -> pd2.cell_compare b c <> Gt ->
  pd2.cell_compare a c <> Gt.
Proof.
  intros Hab Hbc.
  destruct (pd2.is_missing c) eqn:Hc.
  { rewrite (cell_compare_missing_r a c Hc).
    destruct (pd2.is_missing a); discriminate. }
  destruct (pd2.is_missing b) eqn:Hb.
  { rewrite (cell_compare_missing_l b c Hb), Hc in Hbc. congruence. }
  destruct (pd2.is_missing a) eqn:Ha.
  { rewrite (cell_compare_missing_l a b Ha), Hb in Hab. congruence. }
  unfold pd2.is_missing in Ha, Hb, Hc.
  destruct a as [x|s], b as [y|t], c as [z|u];
    cbn [pd2.cell_compare pd.notna_cell] in *;
    rewrite ?negb_involutive in *; rewrite ?Ha, ?Hb, ?Hc in *;
    try congruence; try discriminate.
  - destruct (SFcompare_defined x y Ha Hb) as [c1 H1].
    destruct (SFcompare_defined y z Hb Hc) as [c2 H2].
    destruct (SFcompare_defined x z Ha Hc) as [c3 H3].
    rewrite H1 in Hab. rewrite H2 in Hbc. rewrite H3.
    exact (SFcompare_le_trans x y z c1 c2 c3 H1 H2 H3 Hab Hbc).
  - now apply (string_le_trans s t u).
Qed.

(** ** Sorting by insertion with a comparison *)

Section Comparison.

Variable A : Type.
Variable cmp : A -> A -> comparison.
Hypothesis cmp_antisym : forall a b, cmp a b = CompOpp (cmp b a).
Hypothesis le_trans :
  forall a b c, cmp a b <> Gt -> cmp b c <> Gt -> cmp a c <> Gt.

Local Notation le := (cmp_le A cmp).
Local Notation is_lt := (cmp_is_lt A cmp).
Local Notation is_eq := (cmp_is_eq A cmp).
Local Notation is_gt := (cmp_is_gt A cmp).

Lemma leb_of_le a b : pd2.leb_of cmp a b = true <-> le a b.
Proof.
  unfold pd2.leb_of, le. destruct (cmp a b); split; congruence.
Qed.

Lemma le_total a b : ~ le a b -> le b a.
Proof.
  unfold cmp_le. intros Hab. rewrite cmp_antisym.
  destruct (cmp a b); cbn; try discriminate; exfalso; apply Hab; discriminate.
Qed.

Lemma insert_cmp_sorted a l :
  Sorted le l -> Sorted le (pd2.insert (pd2.leb_of cmp) a l).
Proof.
  induction l as [|b l IH]; intros Hs; cbn [pd2.insert].
  - repeat constructor.
  - destruct (pd2.leb_of cmp a b) eqn:Hab.
    + constructor; [exact Hs|]. constructor. now apply leb_of_le.
    + apply Sorted_inv in Hs as [Hs Hd].
      constructor; [now apply IH|].
      assert (Hba : le b a).
      { apply le_total. intros Hle. apply leb_of_le in Hle. congruence. }
      destruct l as [|c l]; cbn [pd2.insert]; [now constructor|].
      destruct (pd2.leb_of cmp a c); constructor; [exact Hba|].
      now apply HdRel_inv in Hd.
Qed.

Lemma stable_sort_sorted l :
  StronglySorted le (pd2.stable_sort (pd2.leb_of cmp) l).
Proof.
  apply Sorted_StronglySorted; [exact le_trans|].
  induction l as [|a l IH]; cbn [pd2.stable_sort fold_right]; [constructor|].
  now apply insert_cmp_sorted.
Qed.

(** A sorted list has the elements below a key first, those equal to it
    next and those above it last. *)

Lemma filter_none {B} (p : B -> bool) l :
  (forall b, In b l -> p b = false) -> filter p l = [].
Proof.
  induction l as [|b l IH]; intros Hp; [reflexivity|].
  cbn [filter]. rewrite (Hp b) by now left.
  apply IH. intros c Hc. apply Hp. now right.
Qed.

Lemma three_way k l :
  StronglySorted le l ->
  l = (filter (is_lt k) l ++ filter (is_eq k) l ++ filter (is_gt k) l)%list.
Proof.
  induction 1 as [|a l Hs IH Ha]; [reflexivity|].
  rewrite Forall_forall in Ha.
  cbn [filter]. unfold cmp_is_lt at 1, cmp_is_eq at 1, cmp_is_gt at 1.
  destruct (cmp a k) eqn:Hak.
  - (* nothing after [a] is below [k] *)
    assert (Hnone : filter (is_lt k) l = []).
    { apply filter_none. intros b Hb. unfold cmp_is_lt.
      destruct (cmp b k) eqn:Hbk; trivial. exfalso.
      assert (Hka : cmp k a <> Gt) by (rewrite cmp_antisym, Hak; discriminate).
      pose proof (le_trans k a b Hka (Ha b Hb)) as Hkb.
      rewrite cmp_antisym, Hbk in Hkb. now apply Hkb. }
    rewrite Hnone in IH |- *. cbn [app] in *. f_equal. exact IH.
  - cbn [app]. f_equal. exact IH.
  - assert (Hgt : forall b, In b l -> cmp b k = Gt).
    { intros b Hb. specialize (Ha b Hb). unfold cmp_le in Ha.
      destruct (cmp b k) eqn:Hbk; trivial; exfalso.
      - assert (Hle : cmp a k <> Gt)
          by (apply (le_trans a b k Ha); congruence).
        congruence.
      - assert (Hle : cmp a k <> Gt)
          by (apply (le_trans a b k Ha); congruence).
        congruence. }
    rewrite (filter_none (is_lt k) l), (filter_none (is_eq k) l).
    + cbn [app]. f_equal. symmetry. apply forallb_filter_id.
      apply forallb_forall. intros b Hb. unfold cmp_is_gt. now rewrite (Hgt b Hb).
    + intros b Hb. unfold cmp_is_eq. now rewrite (Hgt b Hb).
    + intros b Hb. unfold cmp_is_lt. now rewrite (Hgt b Hb).
Qed.

Lemma cmp_trans_cases a b c :
  le a b -> le b c ->
  cmp a c = Lt \/ (cmp a c = Eq /\ cmp a b = Eq /\ cmp b c = Eq).
Proof.
  unfold cmp_le. intros Hab Hbc.
  pose proof (le_trans a b c Hab Hbc) as Hac.
  destruct (cmp a c) eqn:Eac; [right|now left|congruence].
  assert (Hca : cmp c a <> Gt) by (rewrite cmp_antisym, Eac; discriminate).
  split; [reflexivity|]. split.
  - destruct (cmp a b) eqn:Eab; [reflexivity| |congruence].
    exfalso. apply (le_trans b c a Hbc Hca).
    rewrite cmp_antisym, Eab. reflexivity.
  - destruct (cmp b c) eqn:Ebc; [reflexivity| |congruence].
    exfalso. apply (le_trans c a b Hca Hab).
    rewrite cmp_antisym, Ebc. reflexivity.
Qed.

Lemma lt_le_trans a b c : cmp a b = Lt -> le b c -> cmp a c = Lt.
Proof.
  intros Hab Hbc.
  destruct (cmp_trans_cases a b c) as [Hlt|(_ & Heq & _)];
    [unfold cmp_le; congruence|exact Hbc|exact Hlt|congruence].
Qed.

Lemma le_lt_trans a b c : le a b -> cmp b c = Lt -> cmp a c = Lt.
Proof.
  intros Hab Hbc.
  destruct (cmp_trans_cases a b c) as [Hlt|(_ & _ & Heq)];
    [exact Hab|unfold cmp_le; congruence|exact Hlt|congruence].
Qed.

End Comparison.

Lemma StronglySorted_impl {A} (R R' : A -> A -> Prop) l :
  (forall a b, R a b -> R' a b) -> StronglySorted R l -> StronglySorted R' l.
Proof.
  intros HR. induction 1 as [|a l Hs IH Ha]; constructor; [exact IH|].
  eapply Forall_impl; [|exact Ha]. intros b. apply HR.
Qed.

Lemma StronglySorted_map {A B} (f : A -> B) (R : B -> B -> Prop) l :
  StronglySorted (fun a b => R (f a) (f b)) l -> StronglySorted R (map f l).
Proof.
  induction 1 as [|a l Hs IH Ha]; cbn [map]; constructor; [exact IH|].
  rewrite Forall_forall in *. intros b Hb.
  apply in_map_iff in Hb as (x & <- & Hx). now apply Ha.
Qed.

(** Rows compared by several columns. *)
Lemma row_compare_antisym locs r s :
  pd2.row_compare locs r s = CompOpp (pd2.row_compare locs s r).
Proof.
  induction locs as [|j locs IH]; cbn [pd2.row_compare]; [reflexivity|].
  rewrite (cell_compare_antisym (pd.field j r) (pd.field j s)).
  destruct (pd2.cell_compare (pd.field j s) (pd.field j r)); cbn [CompOpp];
    [exact IH|reflexivity|reflexivity].
Qed.

Lemma row_le_trans locs r s t :
  pd2.row_compare locs r s <> Gt -> pd2.row_compare locs s t <> Gt ->
  pd2.row_compare locs r t <> Gt.
Proof.
  induction locs as [|j locs IH]; cbn [pd2.row_compare]; [discriminate|].
  intros Hrs Hst.
  assert (H1 : pd2.cell_compare (pd.field j r) (pd.field j s) <> Gt)
    by (destruct (pd2.cell_compare (pd.field j r) (pd.field j s)); congruence).
  assert (H2 : pd2.cell_compare (pd.field j s) (pd.field j t) <> Gt)
    by (destruct (pd2.cell_compare (pd.field j s) (pd.field j t)); congruence).
  destruct (cmp_trans_cases cell pd2.cell_compare cell_compare_antisym
              cell_le_trans _ _ _ H1 H2) as [-> | (-> & E1 & E2)];
    [discriminate|].
  rewrite E1 in Hrs. rewrite E2 in Hst. now apply IH.
Qed.

Lemma row_le_first j locs r s :
  pd2.row_compare (j :: locs) r s <> Gt ->
  pd2.cell_compare (pd.field j r) (pd.field j s) <> Gt.
Proof.
  cbn [pd2.row_compare].
  destruct (pd2.cell_compare (pd.field j r) (pd.field j s)); congruence.
Qed.

(** The keys of the groups are strictly increasing. *)
Lemma unique_strict (l : list cell) :
  StronglySorted (cmp_le cell pd2.cell_compare) l ->
  StronglySorted (fun a b => pd2.cell_compare a b = Lt) (pd2.unique l).
Proof.
  induction 1 as [|a l Hs IH Ha]; cbn [pd2.unique]; [constructor|].
  assert (Hle : forall x, In x (pd2.unique l) -> cmp_le cell pd2.cell_compare a x).
  { intros x Hx. rewrite Forall_forall in Ha. apply Ha.
    now apply unique_incl. }
  destruct (pd2.unique l) as [|b u] eqn:Hu; [repeat constructor|].
  unfold pd2.cell_eqb.
  destruct (pd2.cell_compare a b) eqn:Hab; [exact IH| |].
  - constructor; [exact IH|].
    apply StronglySorted_inv in IH as [_ Hb]. rewrite Forall_forall in Hb.
    apply Forall_forall. intros x [<-|Hx]; [exact Hab|].
    apply (lt_le_trans cell pd2.cell_compare cell_compare_antisym
                       cell_le_trans a b x Hab).
    unfold cmp_le. rewrite (Hb x Hx). discriminate.
  - exfalso. apply (Hle b); [now left|exact Hab].
Qed.

(** ** The layout of the Manhattan plot *)

Lemma number_app jI a l1 l2 :
  number jI a (l1 ++ l2)
  = (number jI a l1 ++ number jI (a + List.length l1) l2)%list.
Proof.
  revert a. induction l1 as [|r l1 IH]; intros a.
  - cbn [app List.length]. now rewrite Nat.add_0_r.
  - unfold number in *. cbn [app List.length seq combine map fst snd].
    f_equal. rewrite IH. now rewrite Nat.add_succ_r.
Qed.

Lemma number_ind jI a l :
  map (pd.field jI) (number jI a l) = band a (List.length l).
Proof.
  unfold number, band. revert a.
  induction l as [|r l IH]; intros a; [reflexivity|].
  cbn [List.length seq combine map fst snd].
  now rewrite field_set_nth, IH.
Qed.

Lemma filter_number_all jI a l (q' q : Row -> bool) :
  (forall i r, q' (pd.set_nth jI (Num (F64.of_nat i)) r) = q r) ->
  (forall r, In r l -> q r = true) ->
  filter q' (number jI a l) = number jI a l.
Proof.
  intros Hq. unfold number. revert a.
  induction l as [|r l IH]; intros a Hall; [reflexivity|].
  cbn [List.length seq combine map fst snd filter].
  rewrite Hq, (Hall r) by now left. f_equal.
  apply IH. intros; apply Hall; now right.
Qed.

Lemma filter_number_none jI a l (q' q : Row -> bool) :
  (forall i r, q' (pd.set_nth jI (Num (F64.of_nat i)) r) = q r) ->
  (forall r, In r l -> q r = false) ->
  filter q' (number jI a l) = [].
Proof.
  intros Hq. unfold number. revert a.
  induction l as [|r l IH]; intros a Hall; [reflexivity|].
  cbn [List.length seq combine map fst snd filter].
  rewrite Hq, (Hall r) by now left.
  apply IH. intros; apply Hall; now right.
Qed.

Lemma count_below {A} (p q r : A -> bool) l :
  (forall x, p x = true -> q x = false) ->
  (forall x, p x = true -> r x = true) ->
  (forall x, q x = true -> r x = true) ->
  List.length (filter p l) + List.length (filter q l)
  <= List.length (filter r l).
Proof.
  intros Hpq Hpr Hqr. induction l as [|x l IH]; [reflexivity|].
  cbn [filter].
  destruct (p x) eqn:Hp.
  - rewrite (Hpq x Hp), (Hpr x Hp). cbn [List.length]. lia.
  - destruct (q x) eqn:Hq.
    + rewrite (Hqr x Hq). cbn [List.length]. lia.
    + destruct (r x); cbn [List.length]; lia.
Qed.

Lemma chr_cmp_antisym jC r s : chr_cmp jC r s = CompOpp (chr_cmp jC s r).
Proof. apply cell_compare_antisym. Qed.

Lemma chr_le_trans jC r s t :
  chr_cmp jC r s <> Gt -> chr_cmp jC s t <> Gt -> chr_cmp jC r t <> Gt.
Proof. apply cell_le_trans. Qed.

Lemma group_is_band jC jI (S : list Row) (r0 : Row) :
  jC <> jI ->
  StronglySorted (cmp_le Row (chr_cmp jC)) S ->
  filter (fun r' => pd2.cell_eqb (pd.field jC r') (pd.field jC r0))
         (number jI 0 S)
  = number jI (band_start jC (pd.field jC r0) S)
           (filter (fun r => pd2.cell_eqb (pd.field jC r) (pd.field jC r0)) S).
Proof.
  intros Hne Hs.
  pose proof (three_way Row (chr_cmp jC) (chr_cmp_antisym jC)
                (chr_le_trans jC) r0 S Hs) as Hsplit.
  set (A := filter (cmp_is_lt Row (chr_cmp jC) r0) S) in *.
  set (B := filter (cmp_is_eq Row (chr_cmp jC) r0) S) in *.
  set (C := filter (cmp_is_gt Row (chr_cmp jC) r0) S) in *.
  change (band_start jC (pd.field jC r0) S) with (List.length A).
  change (filter (fun r => pd2.cell_eqb (pd.field jC r) (pd.field jC r0)) S)
    with B.
  transitivity
    (filter (fun r' => pd2.cell_eqb (pd.field jC r') (pd.field jC r0))
            (number jI 0 (A ++ B ++ C))).
  { now rewrite <- Hsplit. }
  assert (Hq : forall i r,
             pd2.cell_eqb (pd.field jC (pd.set_nth jI (Num (F64.of_nat i)) r))
                          (pd.field jC r0)
             = cmp_is_eq Row (chr_cmp jC) r0 r).
  { intros i r. now rewrite field_set_nth_other. }
  rewrite !number_app, !filter_app.
  rewrite (filter_number_none jI _ A _ _ Hq),
          (filter_number_all jI _ B _ _ Hq),
          (filter_number_none jI _ C _ _ Hq).
  - now rewrite app_nil_r.
  - intros r Hr. apply filter_In in Hr as [_ Hr].
    unfold cmp_is_gt, cmp_is_eq in *. destruct (chr_cmp jC r r0); congruence.
  - intros r Hr. now apply filter_In in Hr.
  - intros r Hr. apply filter_In in Hr as [_ Hr].
    unfold cmp_is_lt, cmp_is_eq in *. destruct (chr_cmp jC r r0); congruence.
Qed.

Lemma scatter_xs_app fig fig' :
  scatter_xs (fig ++ fig') = (scatter_xs fig ++ scatter_xs fig')%list.
Proof.
  induction fig as [|a fig IH]; [reflexivity|].
  destruct a; cbn [app scatter_xs]; now rewrite IH.
Qed.

Lemma xticks_app fig fig' :
  xticks (fig ++ fig') = (xticks fig ++ xticks fig')%list.
Proof.
  induction fig as [|a fig IH]; [reflexivity|].
  destruct a; cbn [app xticks]; now rewrite IH.
Qed.

Lemma scatter_xs_scatters jI jM groups :
  forall num,
    scatter_xs (scatters jI jM num groups)
    = map (fun kg => map (pd.field jI) (rows (snd kg))) groups.
Proof.
  induction groups as [|[k g] groups IH]; intros num; [reflexivity|].
  cbn [scatters scatter_xs group_scatter map snd]. now rewrite IH.
Qed.

Lemma xticks_scatters jI jM groups :
  forall num, xticks (scatters jI jM num groups) = [].
Proof.
  induction groups as [|[k g] groups IH]; intros num; [reflexivity|].
  cbn [scatters xticks group_scatter]. apply IH.
Qed.

Lemma band_ends jI (l : list Row) a n :
  map (pd.field jI) l = band a n -> 0 < n ->
  pvalue jI (hd [] l) = F64.of_nat a /\
  pvalue jI (hd [] (rev l)) = F64.of_nat (a + n - 1).
Proof.
  intros Hl Hn. split.
  - destruct n as [|n]; [lia|]. destruct l as [|r l]; [discriminate|].
    cbn in Hl. injection Hl as Hr _. cbn [hd]. unfold pvalue. now rewrite Hr.
  - destruct n as [|n]; [lia|].
    assert (Hrev : map (pd.field jI) (rev l)
                   = Num (F64.of_nat (a + n)) :: rev (band a n)).
    { rewrite map_rev, Hl. unfold band. rewrite seq_S, map_app, rev_app_distr.
      reflexivity. }
    destruct (rev l) as [|r l']; [discriminate|].
    cbn in Hrev. injection Hrev as Hr _. cbn [hd]. unfold pvalue.
    rewrite Hr. f_equal. lia.
Qed.

Section Layout.

Context `{NumPy}.
Variable read_table : string -> exn + DataFrame.
Variable str_key : cell -> string.

Lemma frame37_number j df :
  rows (frame37 j df) = number (ind_loc df) 0 (sorted_rows j df).
Proof. apply frame37_rows. Qed.

Lemma sorted_rows_by_chr j df jC :
  pd.get_loc (columns df) "CHR" = Some jC ->
  StronglySorted (cmp_le Row (chr_cmp jC)) (sorted_rows j df).
Proof.
  intros HjC. unfold sorted_rows.
  assert (Hloc : loc_of (header31 df) "CHR" = jC).
  { unfold loc_of. now rewrite (header31_loc df _ _ HjC). }
  rewrite Hloc.
  eapply StronglySorted_impl;
    [|apply (stable_sort_sorted Row _ (row_compare_antisym _)
               (row_le_trans _))].
  intros r s. unfold cmp_le, chr_cmp. apply row_le_first.
Qed.

Lemma chromosome_row j df jC k :
  jC <> ind_loc df ->
  In k (chromosomes j jC df) ->
  exists r0, In r0 (sorted_rows j df) /\ pd.field jC r0 = k.
Proof.
  intros Hne Hk. unfold chromosomes in Hk. apply unique_incl in Hk.
  apply (Permutation_in _ (stable_sort_perm _ _)) in Hk.
  apply filter_In in Hk as [Hk _].
  apply in_map_iff in Hk as (r & <- & Hr).
  rewrite frame37_rows in Hr. apply in_map_iff in Hr as ([i r0] & <- & Hin).
  apply in_combine_r in Hin. cbn [fst snd].
  exists r0. split; [exact Hin|]. now rewrite field_set_nth_other.
Qed.

Lemma group_rows j df jC k :
  pd.get_loc (columns df) "CHR" = Some jC ->
  jC <> ind_loc df ->
  In k (chromosomes j jC df) ->
  0 < band_size jC k (sorted_rows j df) /\
  map (pd.field (ind_loc df))
      (filter (fun r => pd2.cell_eqb (pd.field jC r) k) (rows (frame37 j df)))
  = band (band_start jC k (sorted_rows j df)) (band_size jC k (sorted_rows j df)).
Proof.
  intros HjC Hne Hk.
  destruct (chromosome_row j df jC k Hne Hk) as (r0 & Hr0 & <-).
  split.
  - unfold band_size.
    assert (Hin : In r0 (filter (fun r => pd2.cell_eqb (pd.field jC r)
                                                      (pd.field jC r0))
                                (sorted_rows j df))).
    { apply filter_In. split; [exact Hr0|].
      unfold pd2.cell_eqb. now rewrite cell_compare_refl. }
    destruct (filter _ (sorted_rows j df)); [destruct Hin|cbn; lia].
  - rewrite frame37_number.
    rewrite (group_is_band jC (ind_loc df) _ r0 Hne
               (sorted_rows_by_chr j df jC HjC)).
    apply number_ind.
Qed.

Lemma bands_increase j df jC :
  StronglySorted (fun b b' => fst b + snd b <= fst b') (bands_of j jC df).
Proof.
  unfold bands_of. apply StronglySorted_map. cbn [fst snd].
  eapply StronglySorted_impl;
    [|apply unique_strict,
        (stable_sort_sorted cell _ cell_compare_antisym cell_le_trans)].
  intros k k' Hlt. unfold band_start, band_size. apply count_below.
  - intros r Hr. unfold pd2.cell_eqb.
    destruct (pd2.cell_compare (pd.field jC r) k); congruence.
  - intros r Hr.
    rewrite (lt_le_trans cell _ cell_compare_antisym cell_le_trans
               (pd.field jC r) k k'); [reflexivity| |unfold cmp_le; congruence].
    destruct (pd2.cell_compare (pd.field jC r) k); congruence.
  - intros r Hr. unfold pd2.cell_eqb in Hr.
    rewrite (le_lt_trans cell _ cell_compare_antisym cell_le_trans
               (pd.field jC r) k k'); [reflexivity| |exact Hlt].
    unfold cmp_le. destruct (pd2.cell_compare (pd.field jC r) k); congruence.
Qed.

(** X20: in the saved figure each chromosome is one scatter over a run of
    consecutive indices, the runs follow each other in the order of the
    chromosomes without overlap, and the ticks are at the middle of the
    runs. *)
Theorem manhattan_plot_layout assoc_file output_file title s df j :
  read_table assoc_file = inr df ->
  p_loc df = Some j ->
  float64_column j df = true ->
  pd.has_column df "CHR" = true ->
  pd.has_column df "BP" = true ->
  exists fig bands,
    In (output_file, fig)
       (images (snd (generate_plots.manhattan_plot read_table str_key assoc_file output_file
                                    title s))) /\
    scatter_xs fig = map (fun b => band (fst b) (snd b)) bands /\
    xticks fig = [map (fun b => centre (fst b) (snd b)) bands] /\
    Forall (fun b => 0 < snd b) bands /\
    StronglySorted (fun b b' => fst b + snd b <= fst b') bands.
Proof.
  intros Hread Hloc Hnum HC HB.
  destruct (p_loc_col _ _ Hloc) as (pc & Hpc & Hget).
  destruct (proj1 (has_column_iff df "CHR") HC) as [jC HjC].
  pose proof (frame37_loc j df _ _ (header31_loc df _ _ HjC)) as HC37.
  assert (Hne : jC <> ind_loc df).
  { intros Heq. rewrite Heq in HC37.
    assert (Hs : "CHR" = "IND")
      by exact (get_loc_inj _ _ _ _ HC37 (frame37_ind j df)).
    discriminate Hs. }
  assert (Hgroups : groups37 j df
            = map (fun k => (k, mkDataFrame (columns (frame37 j df))
                                  (filter (fun r => pd2.cell_eqb (pd.field jC r) k)
                                          (rows (frame37 j df)))))
                  (chromosomes j jC df)).
  { unfold groups37, pd2.groupby. now rewrite HC37. }
  exists (manhattan_figure str_key title j df), (bands_of j jC df).
  split; [|split; [|split; [|split]]].
  - rewrite (manhattan_plot_run _ _ _ _ _ _ df j pc Hread Hloc Hpc Hnum).
    cbn [pd2.first_missing]. rewrite HC, HB. cbv zeta.
    destruct (pd.getitem_list _ _); cbn [snd images];
      apply in_or_app; right; now left.
  - unfold manhattan_figure. rewrite scatter_xs_app, scatter_xs_scatters.
    cbn [scatter_xs]. rewrite app_nil_r, Hgroups. unfold bands_of.
    rewrite !map_map. apply map_ext_in. intros k Hk. cbn [snd rows fst].
    now apply group_rows.
  - unfold manhattan_figure. rewrite xticks_app, xticks_scatters.
    cbn [xticks app]. f_equal. rewrite Hgroups. unfold bands_of.
    rewrite !map_map. apply map_ext_in. intros k Hk. cbn [snd rows fst].
    destruct (group_rows j df jC k HjC Hne Hk) as [Hpos Hband].
    destruct (band_ends _ _ _ _ Hband Hpos) as [Hfirst Hlast].
    unfold group_tick, centre. cbn [rows]. now rewrite Hfirst, Hlast.
  - unfold bands_of. apply Forall_forall. intros b Hb.
    apply in_map_iff in Hb as (k & <- & Hk). cbn [snd].
    now apply group_rows.
  - apply bands_increase.
Qed.

End Layout.

(** ** How the extractor can end *)

Lemma quiet_ret {A} (a : A) : quiet (ret a).
Proof. intros w e. discriminate. Qed.

Lemma quiet_print line : quiet (print line).
Proof. intros w e. discriminate. Qed.

Lemma quiet_to_csv df path : quiet (pd.to_csv df path).
Proof. intros w e. discriminate. Qed.

Lemma quiet_lift {A} (r : exn + A) : safe r -> quiet (lift r).
Proof. intros Hr w e. apply Hr. Qed.

Lemma quiet_raise {A} e : is_Exception e = true -> quiet (@raise A e).
Proof. intros He w e' [= <-]. exact He. Qed.

Lemma quiet_bind {A B} (m : M A) (k : A -> M B) :
  quiet m -> (forall a, quiet (k a)) -> quiet (bind m k).
Proof.
  intros Hm Hk w e. unfold bind. specialize (Hm w).
  destruct (m w) as [[e'|a] w']; cbn [fst] in *.
  - intros [= <-]. now apply Hm.
  - apply Hk.
Qed.

Lemma quiet_try_except {A} (m : M A) handler :
  quiet m -> (forall e, quiet (handler e)) -> quiet (try_except m handler).
Proof.
  intros Hm Hh w e. unfold try_except. specialize (Hm w).
  destruct (m w) as [[e'|a] w']; cbn [fst] in *; [|discriminate].
  rewrite (Hm e' eq_refl). apply Hh.
Qed.

Lemma safe_lt s x : safe (pd.lt s x).
Proof.
  unfold pd.lt. apply safe_traverse. intros c. unfold pd.lt_cell.
  destruct c; [apply safe_inr|]. intros e [= <-]. reflexivity.
Qed.

Section ExitStatus.

Context `{NumPy}.
Variable read_table : string -> exn + DataFrame.

Hypothesis read_table_safe : forall path, safe (read_table path).
Hypothesis argsort_safe : forall ks, safe (argsort ks).

Ltac quiet_step :=
  cbv beta zeta;
  lazymatch goal with
  | |- quiet (bind _ _) => apply quiet_bind; [|intros ?]
  | |- quiet (ret _) => apply quiet_ret
  | |- quiet (print _) => apply quiet_print
  | |- quiet (pd.to_csv _ _) => apply quiet_to_csv
  | |- quiet (if _ then _ else _) =>
      lazymatch goal with |- quiet (if ?b then _ else _) => destruct b end
  | |- quiet (lift (read_table _)) => apply quiet_lift, read_table_safe
  | |- quiet (lift (argsort _)) => apply quiet_lift, argsort_safe
  | |- quiet (lift (pd.columns_getitem _ _)) =>
      apply quiet_lift, safe_columns_getitem
  | |- quiet (lift (pd.getitem _ _)) => apply quiet_lift, safe_getitem
  | |- quiet (lift (pd.lt _ _)) => apply quiet_lift, safe_lt
  | |- quiet (lift (pd.getitem_list _ _)) =>
      apply quiet_lift, safe_getitem_list
  end.

Lemma quiet_extract_top_snps input_file output_prefix n_top :
  quiet (extract_top_snps read_table input_file output_prefix n_top).
Proof.
  unfold extract_top_snps. apply quiet_bind; [apply quiet_print|intros _].
  apply quiet_bind.
  - apply quiet_try_except.
    + unfold read_csv. repeat quiet_step.
    + intros e. repeat quiet_step.
  - intros [df|]; [|apply quiet_ret].
    unfold sort_values. repeat quiet_step.
Qed.

(** X21: the extractor command ends with exit status 1 exactly when it is
    given fewer than two arguments: every other failure is an [Exception]. *)
Theorem cli_exit_status argv w :
  (List.length argv < 3 ->
   main read_table argv w
   = (inl (SystemExit 1),
      printed w ["Usage: python extract_top_snps.py <input_assoc_file> <output_directory>"]))
  /\
  (3 <= List.length argv ->
   forall e, fst (main read_table argv w) = inl e -> is_Exception e = true).
Proof.
  unfold main. split; intros Hlen.
  - assert (Hlt : Nat.ltb (List.length argv) 3 = true) by now apply Nat.ltb_lt.
    rewrite Hlt. reflexivity.
  - assert (Hlt : Nat.ltb (List.length argv) 3 = false)
      by now apply Nat.ltb_ge.
    rewrite Hlt. cbv zeta.
    assert (Hq : quiet
              (r <- extract_top_snps read_table (nth 1 argv "") (nth 2 argv "")
                      1000 ;;
               match r with
               | None => raise TypeError
               | Some (gw, sugg) =>
                   print "" ;;
                   print "=== Summary ===" ;;
                   print ("Genome-wide significant: " ++ str_nat gw) ;;
                   print ("Suggestive: " ++ str_nat sugg)
               end)).
    { apply quiet_bind; [apply quiet_extract_top_snps|].
      intros [[gw sugg]|]; [repeat quiet_step|now apply quiet_raise]. }
    apply Hq.
Qed.

End ExitStatus.

(** ** The further theorems at work *)

Module PlotExamples.

Import Tables PlotTables.

Local Notation stable := Conformance.stable_numpy.

Lemma disk_safe path : safe (disk path).
Proof.
  intros e. unfold disk.
  repeat match goal with
         | |- context [String.eqb ?a ?b] => destruct (String.eqb a b)
         end;
    intros Heq; inversion Heq; reflexivity.
Qed.

Lemma shelf_safe path : safe (shelf path).
Proof.
  intros e. unfold shelf.
  repeat match goal with
         | |- context [String.eqb ?a ?b] => destruct (String.eqb a b)
         end;
    try (intros Heq; inversion Heq; reflexivity).
  apply disk_safe.
Qed.

Lemma stable_argsort_safe ks : safe (@argsort stable ks).
Proof.
  intros e. cbn [argsort stable Conformance.stable_numpy Conformance.numpy].
  unfold Reference.argsort.
  pose proof (safe_traverse Reference.numeric_cell ks) as Ht.
  destruct (pd.traverse Reference.numeric_cell ks) as [e'|xs];
    [|discriminate].
  intros [= <-]. apply Ht; [|reflexivity].
  intros c e''. destruct c; [discriminate|]. intros [= <-]. reflexivity.
Qed.

Lemma stable_percentile_safe xs q : safe (@percentile stable xs q).
Proof.
  intros e. cbn [percentile stable Conformance.stable_numpy Conformance.numpy].
  unfold Reference.percentile. destruct xs; [|discriminate].
  intros [= <-]. reflexivity.
Qed.

Lemma top_records_are_smallest_witness :
  disk "five.assoc" = inr five_rows /\
  p_loc five_rows = Some 8 /\
  float64_column 8 five_rows = true /\
  exists t1000 left_out more,
    files (snd (@extract_top_snps stable disk "five.assoc" "out" 2 start))
    = (files start ++ (out_1000 "out", t1000) :: more)%list /\
    Permutation (rows t1000 ++ left_out) (cleaned 8 five_rows) /\
    Sorted key_le (map (pvalue 8) (rows t1000)) /\
    forall a b, In a (rows t1000) -> In b left_out ->
                F64.leb (pvalue 8 a) (pvalue 8 b) = true.
Proof.
  do 3 (split; [reflexivity|]).
  apply (@top_records_are_smallest stable disk "five.assoc" "out" 2 start
           five_rows 8); reflexivity.
Defined.

Lemma output_row_counts_witness :
  disk "five.assoc" = inr five_rows /\
  p_loc five_rows = Some 8 /\
  float64_column 8 five_rows = true /\
  exists t1000 t100 gw sg more,
    files (snd (@extract_top_snps stable disk "five.assoc" "out" (-1) start))
    = (files start ++ (out_1000 "out", t1000) :: (out_100 "out", t100)
                   :: (out_gw "out", gw) :: (out_sugg "out", sg) :: more)%list /\
    len t1000 = head_count (-1) (List.length (cleaned 8 five_rows)) /\
    len t100 = Nat.min 100 (List.length (cleaned 8 five_rows)) /\
    len gw <= len sg /\
    len sg <= List.length (cleaned 8 five_rows) /\
    (forallb (pd.has_column five_rows) required = true ->
     exists sm, more = [(out_summary "out", sm)] /\
                len sm = List.length (cleaned 8 five_rows)).
Proof.
  do 3 (split; [reflexivity|]).
  apply (@output_row_counts stable disk "five.assoc" "out" (-1) start
           five_rows 8); reflexivity.
Defined.

Lemma no_p_value_gives_empty_tables_witness :
  shelf "missing.assoc" = inr all_missing /\
  p_loc all_missing = Some 8 /\
  cleaned 8 all_missing = [] /\
  forallb (pd.has_column all_missing) required = true /\
  exists w',
    @extract_top_snps stable shelf "missing.assoc" "out" 1000 start
    = (inr (Some (0, 0)), w') /\
    files w'
    = (files start
       ++ [(out_1000 "out", mkDataFrame (columns all_missing) []);
           (out_100 "out", mkDataFrame (columns all_missing) []);
           (out_gw "out", mkDataFrame (columns all_missing) []);
           (out_sugg "out", mkDataFrame (columns all_missing) []);
           (out_summary "out", mkDataFrame summary_header [])])%list.
Proof.
  do 4 (split; [reflexivity|]).
  apply (@no_p_value_gives_empty_tables stable shelf "missing.assoc" "out"
           1000 start all_missing 8); reflexivity.
Defined.

Lemma threshold_tables_keep_input_order_witness :
  disk "five.assoc" = inr five_rows /\
  p_loc five_rows = Some 8 /\
  float64_column 8 five_rows = true /\
  forallb (pd.has_column five_rows) required = true /\
  exists t1000 t100 gw sg sm,
    files (snd (@extract_top_snps stable disk "five.assoc" "out" 1000 start))
    = (files start ++ [(out_1000 "out", t1000); (out_100 "out", t100);
                       (out_gw "out", gw); (out_sugg "out", sg);
                       (out_summary "out", sm)])%list /\
    rows gw = filter (fun r => pd.notna_cell (pd.field 8 r)
                               && F64.ltb (pvalue 8 r) gw_threshold)
                     (rows five_rows) /\
    rows sg = filter (fun r => pd.notna_cell (pd.field 8 r)
                               && F64.ltb (pvalue 8 r) suggestive_threshold)
                     (rows five_rows) /\
    rows sm = map (summary_row five_rows 8)
                  (filter (fun r => pd.notna_cell (pd.field 8 r))
                          (rows five_rows)).
Proof.
  do 4 (split; [reflexivity|]).
  apply (@threshold_tables_keep_input_order stable disk "five.assoc" "out"
           1000 start five_rows 8); reflexivity.
Defined.


Lemma cli_summary_counts_the_tables_witness :
  disk "five.assoc" = inr five_rows /\
  p_loc five_rows = Some 8 /\
  float64_column 8 five_rows = true /\
  forallb (pd.has_column five_rows) required = true /\
  exists t1000 t100 gw sg sm,
    @main stable disk ["extract_top_snps.py"; "five.assoc"; "out"] start
    = (inr tt,
       mkWorld
         (stdout start ++ progress_lines "five.assoc" "out" five_rows 8
            ++ final_lines "out"
            ++ [""; "=== Summary ===";
                ("Genome-wide significant: " ++ str_nat (len gw))%string;
                ("Suggestive: " ++ str_nat (len sg))%string])%list
         (files start ++ [(out_1000 "out", t1000); (out_100 "out", t100);
                          (out_gw "out", gw); (out_sugg "out", sg);
                          (out_summary "out", sm)])%list).
Proof.
  do 4 (split; [reflexivity|]).
  apply (@cli_summary_counts_the_tables stable disk "extract_top_snps.py"
           "five.assoc" "out" [] start five_rows 8); reflexivity.
Defined.

Lemma cli_exit_status_witness :
  (forall path, safe (disk path)) /\
  (forall ks, safe (@argsort stable ks)) /\
  (List.length ["extract_top_snps.py"; "short.assoc"; "out"] < 3 ->
   @main stable disk ["extract_top_snps.py"; "short.assoc"; "out"] start
   = (inl (SystemExit 1),
      printed start ["Usage: python extract_top_snps.py <input_assoc_file> <output_directory>"]))
  /\
  (3 <= List.length ["extract_top_snps.py"; "short.assoc"; "out"] ->
   forall e,
     fst (@main stable disk ["extract_top_snps.py"; "short.assoc"; "out"] start)
     = inl e ->
     is_Exception e = true).
Proof.
  split; [exact disk_safe|]. split; [exact stable_argsort_safe|].
  exact (@cli_exit_status stable disk disk_safe stable_argsort_safe
           ["extract_top_snps.py"; "short.assoc"; "out"] start).
Defined.


Lemma manhattan_plot_saves_before_it_fails_witness :
  shelf "nosnp.assoc" = inr no_snp /\
  p_loc no_snp = Some 2 /\
  float64_column 2 no_snp = true /\
  pd.has_column no_snp "CHR" = true /\
  pd.has_column no_snp "BP" = true /\
  pd.has_column no_snp "SNP" = false /\
  @generate_plots.manhattan_plot stable shelf str_key "nosnp.assoc" "m.png"
                                 "Manhattan Plot" empty
  = (inl (Std (KeyError ["SNP"])),
     mkStudio (printed (console empty)
                       ["Creating Manhattan plot from nosnp.assoc";
                        "Manhattan plot saved to: m.png"])
              []
              (images empty
               ++ [("m.png",
                    @manhattan_figure stable str_key "Manhattan Plot" 2
                                      no_snp)])%list).
Proof.
  do 6 (split; [reflexivity|]).
  apply (@manhattan_plot_saves_before_it_fails stable shelf str_key
           "nosnp.assoc" "m.png" "Manhattan Plot" empty no_snp 2);
    reflexivity.
Defined.

Lemma manhattan_plot_returns_the_ten_best_witness :
  shelf "five.assoc" = inr five_rows /\
  p_loc five_rows = Some 8 /\
  p_col_of five_rows = inr "P" /\
  float64_column 8 five_rows = true /\
  pd.has_column five_rows "CHR" = true /\
  pd.has_column five_rows "SNP" = true /\
  pd.has_column five_rows "BP" = true /\
  "P" <> "IND" /\
  exists top_snps s' rest,
    @generate_plots.manhattan_plot stable shelf str_key "five.assoc" "m.png"
                                   "Manhattan Plot" empty
    = (inr top_snps, s') /\
    images s'
    = (images empty
       ++ [("m.png",
            @manhattan_figure stable str_key "Manhattan Plot" 8 five_rows)])%list /\
    columns top_snps = ["CHR"; "SNP"; "BP"; "P"] /\
    len top_snps = Nat.min 10 (List.length (@plotted stable 8 five_rows)) /\
    StronglySorted key_le (map (pvalue 3) (rows top_snps)) /\
    Permutation (map (pvalue 3) (rows top_snps) ++ rest)
                (map (pvalue 8) (@plotted stable 8 five_rows)) /\
    forall a b, In a (map (pvalue 3) (rows top_snps)) -> In b rest ->
                key_le a b.
Proof.
  do 7 (split; [reflexivity|]).
  assert (Hne : "P" <> "IND") by (intros Heq; discriminate Heq).
  split; [exact Hne|].
  apply (@manhattan_plot_returns_the_ten_best stable shelf str_key
           "five.assoc" "m.png" "Manhattan Plot" empty five_rows 8 "P");
    [reflexivity|reflexivity|reflexivity|reflexivity|reflexivity|reflexivity
    |reflexivity|exact Hne].
Defined.


Lemma manhattan_plot_layout_witness :
  shelf "five.assoc" = inr five_rows /\
  p_loc five_rows = Some 8 /\
  float64_column 8 five_rows = true /\
  pd.has_column five_rows "CHR" = true /\
  pd.has_column five_rows "BP" = true /\
  exists fig bands,
    In ("m.png", fig)
       (images (snd (@generate_plots.manhattan_plot stable shelf str_key
                       "five.assoc" "m.png" "Manhattan Plot" empty))) /\
    scatter_xs fig = map (fun b => band (fst b) (snd b)) bands /\
    xticks fig = [map (fun b => centre (fst b) (snd b)) bands] /\
    Forall (fun b => 0 < snd b) bands /\
    StronglySorted (fun b b' => fst b + snd b <= fst b') bands.
Proof.
  do 5 (split; [reflexivity|]).
  apply (@manhattan_plot_layout stable shelf str_key "five.assoc" "m.png"
           "Manhattan Plot" empty five_rows 8); reflexivity.
Defined.

Lemma qq_plot_needs_a_p_value_witness :
  shelf "zero.assoc" = inr zero_p /\
  p_loc zero_p = Some 4 /\
  float64_column 4 zero_p = true /\
  valid 4 zero_p = [] /\
  exists e s',
    @generate_plots.qq_plot stable shelf format_3f "zero.assoc" "q.png"
                            "Q-Q Plot" empty
    = (inl e, s') /\
    images s' = images empty /\
    (forall chisq, @percentile stable [] 50 = inr chisq -> e = ValueError).
Proof.
  do 4 (split; [reflexivity|]).
  apply (@qq_plot_needs_a_p_value stable shelf format_3f "zero.assoc" "q.png"
           "Q-Q Plot" empty zero_p 4); reflexivity.
Defined.

Lemma qq_plot_draws_its_data_witness :
  shelf "three.assoc" = inr three_valid /\
  p_loc three_valid = Some 8 /\
  float64_column 8 three_valid = true /\
  valid 8 three_valid <> [] /\
  exists d w' emax omax,
    @qq_data_of stable shelf "three.assoc" (console empty) = (inr d, w') /\
    py.amax (qq_expected d) = inr emax /\
    py.amax (qq_observed d) = inr omax /\
    Sorted key_le (qq_observed d) /\
    Permutation (qq_observed d)
                (map (fun r => F64.neg (@log10 stable (pvalue 8 r)))
                     (valid 8 three_valid)) /\
    @generate_plots.qq_plot stable shelf format_3f "three.assoc" "q.png"
                            "Q-Q Plot" empty
    = (inr (lambda_value (qq_lambda d)),
       mkStudio (printed w' ["Q-Q plot saved to: q.png"]) []
                (images empty
                 ++ [("q.png",
                      qq_figure format_3f "Q-Q Plot" (qq_expected d)
                                (qq_observed d) (py.max emax omax)
                                (lambda_value (qq_lambda d)))])%list).
Proof.
  do 3 (split; [reflexivity|]).
  assert (Hne : valid 8 three_valid <> [])
    by (intros Heq; vm_compute in Heq; discriminate Heq).
  split; [exact Hne|].
  apply (@qq_plot_draws_its_data stable shelf format_3f "three.assoc" "q.png"
           "Q-Q Plot" empty three_valid 8);
    [reflexivity|reflexivity|reflexivity|exact Hne].
Defined.

Lemma pca_plot_needs_five_columns_witness :
  shelf "short.assoc" = inr short /\
  List.length (columns short) < 5 /\
  exists s',
    generate_plots.pca_plot shelf "short.assoc" "pca.png" empty
    = (inl (Std IndexError), s') /\
    images s' = images empty /\
    console s' = printed (console empty) ["Creating PCA plot from short.assoc"].
Proof.
  split; [reflexivity|].
  assert (Hlen : List.length (columns short) < 5) by (simpl; lia).
  split; [exact Hlen|].
  apply (proj1 (pca_plot_needs_five_columns shelf "short.assoc" "pca.png"
                  empty short eq_refl)), Hlen.
Defined.

Lemma plots_main_completes_witness :
  (forall path, safe (shelf path)) /\
  (forall xs q, safe (@percentile stable xs q)) /\
  exists s',
    @generate_plots.main stable shelf only_with_qc mkdir joinpath path_str
                         format_3f str_key str_error "assoc" "qc" "plots" empty
    = (inr tt, s') /\
    (exists lines,
        stdout (console s')
        = (stdout (console empty) ++ banner ++ lines
                  ++ farewell path_str "plots")%list) /\
    files (console s') = files (console empty) /\
    (exists saved,
        images s' = (images empty ++ saved)%list /\
        Forall (fun image => In (fst image) (outputs joinpath "plots")) saved).
Proof.
  split; [exact shelf_safe|]. split; [exact stable_percentile_safe|].
  exact (@plots_main_completes stable shelf only_with_qc mkdir joinpath
           path_str format_3f str_key str_error shelf_safe
           stable_percentile_safe "assoc" "qc" "plots" empty).
Defined.

Lemma absent_inputs_are_skipped_witness :
  mkdir (path_str "plots") = inr tt /\
  (forall a, In a generate_plots.analyses ->
             nothing (joinpath "assoc" (fst a)) = false) /\
  nothing (joinpath "qc" "AA_GWAS_hg19_uniq_pca.eigenvec") = false /\
  (nothing (joinpath "qc" "basic_stats_preQC.lmiss") = false \/
   nothing (joinpath "qc" "basic_stats_preQC.imiss") = false) /\
  @generate_plots.main stable shelf nothing mkdir joinpath path_str format_3f
                       str_key str_error "assoc" "qc" "plots" empty
  = (inr tt, said empty (banner ++ farewell path_str "plots")).
Proof.
  split; [reflexivity|].
  split; [intros a _; reflexivity|].
  split; [reflexivity|]. split; [left; reflexivity|].
  apply (@absent_inputs_are_skipped stable shelf nothing mkdir joinpath
           path_str format_3f str_key str_error "assoc" "qc" "plots" empty);
    [reflexivity|intros a _; reflexivity|reflexivity|left; reflexivity].
Defined.

Lemma qq_plot_follows_a_failed_manhattan_plot_witness :
  let file := "AA_GWAS_hg19_uniq_assoc_withQC.assoc" in
  only_with_qc (joinpath "assoc" file) = true /\
  shelf (joinpath "assoc" file) = inr no_chr /\
  p_loc no_chr = Some 7 /\
  float64_column 7 no_chr = true /\
  valid 7 no_chr <> [] /\
  pd2.first_missing ["CHR"; "BP"] no_chr = Some "CHR" /\
  exists lambda_gc fig,
    @generate_plots.analyse stable shelf only_with_qc joinpath format_3f
                            str_key str_error "assoc" "plots"
                            (file, "With QC") empty
    = (inr tt,
       mkStudio
         (printed (console empty)
            [""; "--- Processing " ++ "With QC" ++ " ---";
             "Creating Manhattan plot from " ++ joinpath "assoc" file;
             "Error creating Manhattan plot for " ++ "With QC" ++ ": "
               ++ str_error (Std (KeyError ["CHR"]));
             "Creating Q-Q plot from " ++ joinpath "assoc" file;
             "Q-Q plot saved to: "
               ++ joinpath "plots"
                    ("qq_plot_" ++ generate_plots.slug "With QC" ++ ".png");
             "Genomic inflation factor (λ): " ++ format_3f lambda_gc])
         []
         (images empty
          ++ [(joinpath "plots"
                 ("qq_plot_" ++ generate_plots.slug "With QC" ++ ".png")%string,
               fig)])%list).
Proof.
  cbv zeta.
  do 4 (split; [reflexivity|]).
  assert (Hne : valid 7 no_chr <> [])
    by (intros Heq; vm_compute in Heq; discriminate Heq).
  split; [exact Hne|]. split; [reflexivity|].
  apply (@qq_plot_follows_a_failed_manhattan_plot stable shelf only_with_qc
           joinpath format_3f str_key str_error "assoc" "plots"
           "AA_GWAS_hg19_uniq_assoc_withQC.assoc" "With QC" empty no_chr 7
           "CHR");
    [reflexivity|reflexivity|reflexivity|reflexivity|exact Hne|reflexivity].
Defined.

Lemma analysis_saves_both_plots_witness :
  let file := "AA_GWAS_hg19_uniq_assoc.assoc" in
  only_standard (joinpath "assoc" file) = true /\
  shelf (joinpath "assoc" file) = inr five_rows /\
  p_loc five_rows = Some 8 /\
  float64_column 8 five_rows = true /\
  valid 8 five_rows <> [] /\
  pd.has_column five_rows "CHR" = true /\
  pd.has_column five_rows "SNP" = true /\
  pd.has_column five_rows "BP" = true /\
  exists lambda_gc qq_fig,
    @generate_plots.analyse stable shelf only_standard joinpath format_3f
                            str_key str_error "assoc" "plots"
                            (file, "Standard") empty
    = (inr tt,
       mkStudio
         (printed (console empty)
            [""; "--- Processing " ++ "Standard" ++ " ---";
             "Creating Manhattan plot from " ++ joinpath "assoc" file;
             "Manhattan plot saved to: "
               ++ joinpath "plots"
                    ("manhattan_plot_" ++ generate_plots.slug "Standard"
                     ++ ".png");
             "Creating Q-Q plot from " ++ joinpath "assoc" file;
             "Q-Q plot saved to: "
               ++ joinpath "plots"
                    ("qq_plot_" ++ generate_plots.slug "Standard" ++ ".png");
             "Genomic inflation factor (λ): " ++ format_3f lambda_gc])
         []
         (images empty
          ++ [(joinpath "plots"
                 ("manhattan_plot_" ++ generate_plots.slug "Standard"
                  ++ ".png")%string,
               @manhattan_figure stable str_key
                 ("Manhattan Plot (" ++ "Standard" ++ ")")%string 8 five_rows);
              (joinpath "plots"
                 ("qq_plot_" ++ generate_plots.slug "Standard" ++ ".png")%string,
               qq_fig)])%list).
Proof.
  cbv zeta.
  do 4 (split; [reflexivity|]).
  assert (Hne : valid 8 five_rows <> [])
    by (intros Heq; vm_compute in Heq; discriminate Heq).
  split; [exact Hne|]. do 3 (split; [reflexivity|]).
  apply (@analysis_saves_both_plots stable shelf only_standard joinpath
           format_3f str_key str_error "assoc" "plots"
           "AA_GWAS_hg19_uniq_assoc.assoc" "Standard" empty five_rows 8);
    [reflexivity|reflexivity|reflexivity|reflexivity|exact Hne|reflexivity
    |reflexivity|reflexivity].
Defined.

Lemma plots_cli_outcome_witness :
  (forall path, safe (shelf path)) /\
  (forall xs q, safe (@percentile stable xs q)) /\
  fst (@generate_plots.cli stable shelf only_with_qc mkdir joinpath path_str
                           format_3f str_key str_error
                           ["generate_plots.py"; "assoc"; "qc"; "plots"] empty)
  = inr tt.
Proof.
  split; [exact shelf_safe|]. split; [exact stable_percentile_safe|].
  exact (@plots_cli_outcome stable shelf only_with_qc mkdir joinpath path_str
           format_3f str_key str_error shelf_safe stable_percentile_safe
           ["generate_plots.py"; "assoc"; "qc"; "plots"] empty).
Defined.

End PlotExamples.
